(** * Lunar_X: the lander's flight-and-contact dynamics, embedded in Rocq

    A shallow embedding of the physics core of the lunar-lander game:
    - [src/apollo_X/entities/lander.py]: [_angle_diff], [SurfaceSensor],
      [RockSensor], [Lander.reset], [Lander.compute_surface_slope],
      [Lander.update_physics], [Lander.collision_check], [Lander._crash],
      [Lander.tick_crash_anim], [Lander.draw_crash] and the part of
      [Lander.draw] that records the gravity centre;
    - [src/apollo_X/main.py]: [compute_camera_offset], [determine_status],
      the difficulty modifiers and the order of calls in one frame of the
      simulation loop;
    - [src/entities/lander.py] and [src/systems/physics.py]: the older
      [collision_check], main engine and ground branch of [update_physics],
      and [compute_altitude] (module [Legacy]).

    Numbers.  Python [float]s are read as real numbers ([R]) and the functions
    of Python's [math] module as the real functions they approximate; Python
    [int]s are [Z].  Rounding error, infinities and NaN are outside this
    model.  Where rounding decides an outcome the lines are embedded once
    more on IEEE doubles: the module [Binary64] has the float [%] and the
    rotational dynamics of [Lander.update_physics], whose angle the
    rounding of [%] can take to 360.

    Exceptions.  A Python division raises [ZeroDivisionError] on a zero
    divisor and a list subscript raises [IndexError] out of range; both are
    kept, as the [Raise] results of an error monad.

    pygame.  What pygame computes from sprites and masks (the rotated
    sprite's rectangle, [Mask.overlap], the rock collision test, the
    millisecond clock) is an input of the model, the record [Pygame]. *)

From Stdlib Require Import Reals Lra Lia ZArith List String Bool.
From Stdlib Require PrimFloat SpecFloat FloatOps.
Import ListNotations.
Open Scope R_scope.

(** ** Python numerics *)

Module Py.

(** Comparisons of floats, as booleans. *)
Definition Rltb (a b : R) : bool := if Rlt_dec a b then true else false.
Definition Rleb (a b : R) : bool := if Rle_dec a b then true else false.

(** [math.floor], [math.ceil], and [int(.)] of a float (towards zero). *)
Definition floor (a : R) : Z := Int_part a.
Definition ceil (a : R) : Z := (- Int_part (- a))%Z.
Definition int (a : R) : Z := if Rle_dec 0 a then floor a else ceil a.

(** [a % m] on floats, for a positive modulus, over the reals: the result
    has the sign of [m] and is below it.  On doubles the result can be [m]
    itself, see [Binary64.modulo]. *)
Definition fmod (a m : R) : R := a - m * IZR (floor (a / m)).

(** [math.hypot], [math.radians], [math.degrees], [math.atan2]. *)
Definition hypot (a b : R) : R := sqrt (a * a + b * b).
Definition radians (d : R) : R := d * PI / 180.
Definition degrees (r : R) : R := r * 180 / PI.
Definition atan2 (b a : R) : R :=
  if Rlt_dec 0 a then atan (b / a)
  else if Rlt_dec a 0 then
    (if Rle_dec 0 b then atan (b / a) + PI else atan (b / a) - PI)
  else if Rlt_dec 0 b then PI / 2
  else if Rlt_dec b 0 then - (PI / 2)
  else 0.

(** [round(a, ndigits)]: to the nearest multiple of [10^-ndigits], ties
    to the even one. *)
Definition round_half_even (a : R) : Z :=
  let f := floor a in
  let d := a - IZR f in
  if Rlt_dec d (1 / 2) then f
  else if Rlt_dec (1 / 2) d then (f + 1)%Z
  else if Z.even f then f else (f + 1)%Z.
Definition round (a : R) (ndigits : nat) : R :=
  IZR (round_half_even (a * 10 ^ ndigits)) / 10 ^ ndigits.

(** [len(l)] as an integer. *)
Definition len {A} (l : list A) : Z := Z.of_nat (List.length l).

End Py.

Notation "a <? b" := (Py.Rltb a b) : R_scope.
Notation "a <=? b" := (Py.Rleb a b) : R_scope.
Notation "a >? b" := (Py.Rltb b a) : R_scope.
Notation "a >=? b" := (Py.Rleb b a) : R_scope.

(** ** Exceptions *)

Inductive exn : Set := ZeroDivisionError | IndexError | TypeError.

Inductive result (A : Type) : Type :=
| Ok (a : A)
| Raise (e : exn).
Arguments Ok {A} a.
Arguments Raise {A} e.

Definition bind {A B} (r : result A) (k : A -> result B) : result B :=
  match r with
  | Ok a => k a
  | Raise e => Raise e
  end.

Notation "x <- r ;; k" := (bind r (fun x => k))
  (at level 61, r at next level, right associativity).
Notation "' p <- r ;; k" := (bind r (fun x => let 'p := x in k))
  (at level 61, p pattern, r at next level, right associativity).

(** [returns P r]: [r] is a value and [P] holds of it. *)
Definition returns {A} (P : A -> Prop) (r : result A) : Prop :=
  match r with
  | Ok a => P a
  | Raise _ => False
  end.

(** [unless_raised P r]: [P] holds of the value of [r], if it is one. *)
Definition unless_raised {A} (P : A -> Prop) (r : result A) : Prop :=
  match r with
  | Ok a => P a
  | Raise _ => True
  end.

(** [a / b] on floats. *)
Definition fdiv (a b : R) : result R :=
  if Req_dec_T b 0 then Raise ZeroDivisionError else Ok (a / b).
Notation "a /? b" := (fdiv a b) (at level 40, left associativity) : R_scope.

(** [a // b] on floats, read back as an integer by [int(.)]. *)
Definition floordiv (a b : R) : result Z :=
  q <- a /? b ;; Ok (Py.floor q).

(** [l[i]]: a negative index counts from the end. *)
Definition getitem {A} (l : list A) (i : Z) : result A :=
  let j := if (i <? 0)%Z then (i + Py.len l)%Z else i in
  if (j <? 0)%Z then Raise IndexError
  else match nth_error l (Z.to_nat j) with
       | Some a => Ok a
       | None => Raise IndexError
       end.

(** ** Configuration ([config.py]) *)

(** The tunables the physics core reads.  They are class attributes of
    [Config], which [main] rewrites for the chosen difficulty before a
    session starts, so the core is parameterised by a record of them. *)
Record Config : Type := {
  SCREEN_SIZE : Z;
  PIXEL_SIZE : Z;
  FUEL_START : R;
  ROTATION_SPEED : R;
  DRY_MASS : R;
  ISP : R;
  G0_MOON : R;
  MAX_THRUST : R;
  CD : R;
  AREA : R;
  RHO : R;
  ANGULAR_INERTIA : R;
  ROTATION_TORQUE : R;
  LANDER_VX_ENTRY : R;
  ENGINE_STARTUP_LIMIT : Z;
  lander_angular_velocity : R;
  LANDER_HEIGHT_M : R;
  TIME_SCALE : R;
  MAX_LANDING_SPEED : R;
  MAX_LANDING_ANGLE : R;
  ROCK_DAMAGE_SPEED : R;
  LAND_DAMAGE_SPEED : R;
  MAX_OXYGEN : R;
  MAX_BATTERY : R;
  MAX_TEMPERATURE : R;
  OXYGEN_DRAIN_RATE : R;
  BATTERY_DRAIN_RATE : R;
  APU_FUEL_RATE : R;
  APU_RECHARGE_RATE : R;
  TERRAIN_LENGTH : Z
}.

(** The values of [config.py]; the "Medium" difficulty leaves them as is. *)
Definition medium : Config := {|
  SCREEN_SIZE := 1000;
  PIXEL_SIZE := 8;
  FUEL_START := 2000;
  ROTATION_SPEED := 90;
  DRY_MASS := 13000;
  ISP := 311;
  G0_MOON := 1.62;
  MAX_THRUST := 45000;
  CD := 0.7;
  AREA := 10;
  RHO := 0.02;
  ANGULAR_INERTIA := 2;
  ROTATION_TORQUE := 250;
  LANDER_VX_ENTRY := 10;
  ENGINE_STARTUP_LIMIT := 5;
  lander_angular_velocity := 0;
  LANDER_HEIGHT_M := 7;
  TIME_SCALE := 1;
  MAX_LANDING_SPEED := 2;
  MAX_LANDING_ANGLE := 20;
  ROCK_DAMAGE_SPEED := 2;
  LAND_DAMAGE_SPEED := 10;
  MAX_OXYGEN := 100;
  MAX_BATTERY := 100;
  MAX_TEMPERATURE := 120;
  OXYGEN_DRAIN_RATE := 1.5;
  BATTERY_DRAIN_RATE := 5;
  APU_FUEL_RATE := 2;
  APU_RECHARGE_RATE := 10;
  TERRAIN_LENGTH := 15000
|}.

(** [main]'s difficulty modifiers, applied to a configuration. *)
Definition easy (c : Config) : Config := {|
  SCREEN_SIZE := SCREEN_SIZE c;
  PIXEL_SIZE := PIXEL_SIZE c;
  FUEL_START := FUEL_START c * 1.75;
  ROTATION_SPEED := ROTATION_SPEED c;
  DRY_MASS := DRY_MASS c;
  ISP := ISP c;
  G0_MOON := G0_MOON c;
  MAX_THRUST := MAX_THRUST c;
  CD := CD c;
  AREA := AREA c;
  RHO := RHO c;
  ANGULAR_INERTIA := ANGULAR_INERTIA c;
  ROTATION_TORQUE := ROTATION_TORQUE c;
  LANDER_VX_ENTRY := LANDER_VX_ENTRY c * 0.5;
  ENGINE_STARTUP_LIMIT := ENGINE_STARTUP_LIMIT c * 10;
  lander_angular_velocity := lander_angular_velocity c;
  LANDER_HEIGHT_M := LANDER_HEIGHT_M c;
  TIME_SCALE := TIME_SCALE c;
  MAX_LANDING_SPEED := MAX_LANDING_SPEED c;
  MAX_LANDING_ANGLE := MAX_LANDING_ANGLE c * 1.5;
  ROCK_DAMAGE_SPEED := ROCK_DAMAGE_SPEED c;
  LAND_DAMAGE_SPEED := LAND_DAMAGE_SPEED c * 1.25;
  MAX_OXYGEN := MAX_OXYGEN c;
  MAX_BATTERY := MAX_BATTERY c;
  MAX_TEMPERATURE := MAX_TEMPERATURE c;
  OXYGEN_DRAIN_RATE := OXYGEN_DRAIN_RATE c;
  BATTERY_DRAIN_RATE := BATTERY_DRAIN_RATE c;
  APU_FUEL_RATE := APU_FUEL_RATE c;
  APU_RECHARGE_RATE := APU_RECHARGE_RATE c;
  TERRAIN_LENGTH := TERRAIN_LENGTH c
|}.

Definition hard (c : Config) : Config := {|
  SCREEN_SIZE := SCREEN_SIZE c;
  PIXEL_SIZE := PIXEL_SIZE c;
  FUEL_START := 1100;
  ROTATION_SPEED := ROTATION_SPEED c;
  DRY_MASS := DRY_MASS c;
  ISP := ISP c;
  G0_MOON := G0_MOON c;
  MAX_THRUST := MAX_THRUST c;
  CD := CD c;
  AREA := AREA c;
  RHO := RHO c;
  ANGULAR_INERTIA := 2;
  ROTATION_TORQUE := 300;
  LANDER_VX_ENTRY := 15;
  ENGINE_STARTUP_LIMIT := 3;
  lander_angular_velocity := -75;
  LANDER_HEIGHT_M := LANDER_HEIGHT_M c;
  TIME_SCALE := 1.75;
  MAX_LANDING_SPEED := 2;
  MAX_LANDING_ANGLE := 15;
  ROCK_DAMAGE_SPEED := 2;
  LAND_DAMAGE_SPEED := 5;
  MAX_OXYGEN := MAX_OXYGEN c;
  MAX_BATTERY := MAX_BATTERY c;
  MAX_TEMPERATURE := MAX_TEMPERATURE c;
  OXYGEN_DRAIN_RATE := 1.75;
  BATTERY_DRAIN_RATE := 15;
  APU_FUEL_RATE := 10;
  APU_RECHARGE_RATE := 10;
  TERRAIN_LENGTH := TERRAIN_LENGTH c
|}.

(** The sign conditions the physics relies on; [config.py] and both
    difficulty modifiers meet them. *)
Record config_ok (c : Config) : Prop := {
  PIXEL_SIZE_pos : (0 < PIXEL_SIZE c)%Z;
  TIME_SCALE_nonneg : 0 <= TIME_SCALE c;
  DRY_MASS_pos : 0 < DRY_MASS c;
  ISpixel_step_pos : 0 < ISP c;
  G0_MOON_pos : 0 < G0_MOON c;
  MAX_THRUST_nonneg : 0 <= MAX_THRUST c;
  ANGULAR_INERTIA_pos : 0 < ANGULAR_INERTIA c;
  MAX_LANDING_ANGLE_pos : 0 < MAX_LANDING_ANGLE c;
  LAND_DAMAGE_SPEED_pos : 0 < LAND_DAMAGE_SPEED c;
  OXYGEN_DRAIN_RATE_nonneg : 0 <= OXYGEN_DRAIN_RATE c;
  BATTERY_DRAIN_RATE_nonneg : 0 <= BATTERY_DRAIN_RATE c;
  APU_FUEL_RATE_nonneg : 0 <= APU_FUEL_RATE c;
  APU_RECHARGE_RATE_nonneg : 0 <= APU_RECHARGE_RATE c
}.

(** ** Inputs of a frame *)

(** [pygame.key.get_pressed()], at the keys the lander reads. *)
Record Keys : Type := {
  K_LEFT : bool;
  K_RIGHT : bool;
  K_UP : bool;
  K_1 : bool;
  K_2 : bool;
  K_3 : bool
}.

Definition no_keys : Keys :=
  {| K_LEFT := false; K_RIGHT := false; K_UP := false;
     K_1 := false; K_2 := false; K_3 := false |}.

Definition thrust_key : Keys :=
  {| K_LEFT := false; K_RIGHT := false; K_UP := true;
     K_1 := false; K_2 := false; K_3 := false |}.

(** [Terrain]: the height samples ([topo], screen y of the ground at each
    [PIXEL_SIZE]-wide column).  Its collision mask is read through [Pygame]. *)
Record Terrain : Type := {
  topo : list Z
}.

(** What pygame computes for [collision_check] in one frame:
    - [rock_hit]: whether [detect_rock_collision] returned a rock;
    - [rect_left], [rect_top]: the top-left corner of the rotated sprite's
      rectangle, [rotated_img.get_rect(center=...)];
    - [overlap]: [ship_mask.overlap(terrain_mask, ...)], the first
      overlapping pixel in the ship mask's coordinates, or [None];
    - [get_ticks]: [pygame.time.get_ticks()]. *)
Record Pygame : Type := {
  rock_hit : bool;
  rect_left : Z;
  rect_top : Z;
  overlap : option (Z * Z);
  get_ticks : Z
}.

(** ** The report dictionary *)

Inductive value : Type :=
| Str (s : string)
| Num (a : R).

(** A Python [dict] with string keys, in insertion order. *)
Definition dict : Type := list (string * value).

Fixpoint dict_get (d : dict) (k : string) : option value :=
  match d with
  | [] => None
  | (k', v) :: d' => if String.eqb k' k then Some v else dict_get d' k
  end.

(** [d[k] = v] *)
Fixpoint dict_set (d : dict) (k : string) (v : value) : dict :=
  match d with
  | [] => [(k, v)]
  | (k', v') :: d' =>
      if String.eqb k' k then (k', v) :: d' else (k', v') :: dict_set d' k v
  end.

(** Truth value of an optional tuple: [None] is false, a pair is true. *)
Definition is_some {A} (o : option A) : bool :=
  match o with Some _ => true | None => false end.

(** [r or {}]: [None] and the empty dictionary are false. *)
Definition or_empty (r : option dict) : dict :=
  match r with
  | Some ((_ :: _) as d) => d
  | _ => []
  end.

(** ** The lander ([entities/lander.py])

    The attributes of a [Lander] object.  Of the sprite only its size is
    kept ([img_w], [img_h]), and of the crash animation the number of its
    frames ([crash_frames]). *)
Record Lander : Type := {
  img_w : Z;
  img_h : Z;
  crash_frames : Z;
  px_per_m : R;
  x : R;
  y : R;
  world_x : option R;
  world_y : option Z;
  vx : R;
  vy : R;
  ax : R;
  ay : R;
  angle : R;
  angular_velocity : R;
  fuel : R;
  oxygen : R;
  battery : R;
  temperature : R;
  damage : R;
  gforce : R;
  apu_on : bool;
  engine_startup_count : Z;
  engine_out : bool;
  engine_on : bool;
  throttle : R;
  crashed : bool;
  landed : bool;
  crash_anim : bool;
  crash_index : Z;
  crash_timer : Z;
  report : option dict;
  science : Z;
  _gravity_center : Z * Z;
  _contact_screen : option (Z * Z);
  _contact_slope : option R
}.

(** Attribute assignment, [self.f = v]. *)
Definition set_x (v : R) (self : Lander) : Lander :=
  {| img_w := img_w self; img_h := img_h self;
    crash_frames := crash_frames self; px_per_m := px_per_m self; x := v;
    y := y self; world_x := world_x self; world_y := world_y self;
    vx := vx self; vy := vy self; ax := ax self; ay := ay self;
    angle := angle self; angular_velocity := angular_velocity self;
    fuel := fuel self; oxygen := oxygen self; battery := battery self;
    temperature := temperature self; damage := damage self;
    gforce := gforce self; apu_on := apu_on self;
    engine_startup_count := engine_startup_count self;
    engine_out := engine_out self; engine_on := engine_on self;
    throttle := throttle self; crashed := crashed self; landed := landed self;
    crash_anim := crash_anim self; crash_index := crash_index self;
    crash_timer := crash_timer self; report := report self;
    science := science self; _gravity_center := _gravity_center self;
    _contact_screen := _contact_screen self;
    _contact_slope := _contact_slope self |}.
Definition set_y (v : R) (self : Lander) : Lander :=
  {| img_w := img_w self; img_h := img_h self;
    crash_frames := crash_frames self; px_per_m := px_per_m self; x := x self;
    y := v; world_x := world_x self; world_y := world_y self; vx := vx self;
    vy := vy self; ax := ax self; ay := ay self; angle := angle self;
    angular_velocity := angular_velocity self; fuel := fuel self;
    oxygen := oxygen self; battery := battery self;
    temperature := temperature self; damage := damage self;
    gforce := gforce self; apu_on := apu_on self;
    engine_startup_count := engine_startup_count self;
    engine_out := engine_out self; engine_on := engine_on self;
    throttle := throttle self; crashed := crashed self; landed := landed self;
    crash_anim := crash_anim self; crash_index := crash_index self;
    crash_timer := crash_timer self; report := report self;
    science := science self; _gravity_center := _gravity_center self;
    _contact_screen := _contact_screen self;
    _contact_slope := _contact_slope self |}.
Definition set_world_x (v : option R) (self : Lander) : Lander :=
  {| img_w := img_w self; img_h := img_h self;
    crash_frames := crash_frames self; px_per_m := px_per_m self; x := x self;
    y := y self; world_x := v; world_y := world_y self; vx := vx self;
    vy := vy self; ax := ax self; ay := ay self; angle := angle self;
    angular_velocity := angular_velocity self; fuel := fuel self;
    oxygen := oxygen self; battery := battery self;
    temperature := temperature self; damage := damage self;
    gforce := gforce self; apu_on := apu_on self;
    engine_startup_count := engine_startup_count self;
    engine_out := engine_out self; engine_on := engine_on self;
    throttle := throttle self; crashed := crashed self; landed := landed self;
    crash_anim := crash_anim self; crash_index := crash_index self;
    crash_timer := crash_timer self; report := report self;
    science := science self; _gravity_center := _gravity_center self;
    _contact_screen := _contact_screen self;
    _contact_slope := _contact_slope self |}.
Definition set_world_y (v : option Z) (self : Lander) : Lander :=
  {| img_w := img_w self; img_h := img_h self;
    crash_frames := crash_frames self; px_per_m := px_per_m self; x := x self;
    y := y self; world_x := world_x self; world_y := v; vx := vx self;
    vy := vy self; ax := ax self; ay := ay self; angle := angle self;
    angular_velocity := angular_velocity self; fuel := fuel self;
    oxygen := oxygen self; battery := battery self;
    temperature := temperature self; damage := damage self;
    gforce := gforce self; apu_on := apu_on self;
    engine_startup_count := engine_startup_count self;
    engine_out := engine_out self; engine_on := engine_on self;
    throttle := throttle self; crashed := crashed self; landed := landed self;
    crash_anim := crash_anim self; crash_index := crash_index self;
    crash_timer := crash_timer self; report := report self;
    science := science self; _gravity_center := _gravity_center self;
    _contact_screen := _contact_screen self;
    _contact_slope := _contact_slope self |}.
Definition set_vx (v : R) (self : Lander) : Lander :=
  {| img_w := img_w self; img_h := img_h self;
    crash_frames := crash_frames self; px_per_m := px_per_m self; x := x self;
    y := y self; world_x := world_x self; world_y := world_y self; vx := v;
    vy := vy self; ax := ax self; ay := ay self; angle := angle self;
    angular_velocity := angular_velocity self; fuel := fuel self;
    oxygen := oxygen self; battery := battery self;
    temperature := temperature self; damage := damage self;
    gforce := gforce self; apu_on := apu_on self;
    engine_startup_count := engine_startup_count self;
    engine_out := engine_out self; engine_on := engine_on self;
    throttle := throttle self; crashed := crashed self; landed := landed self;
    crash_anim := crash_anim self; crash_index := crash_index self;
    crash_timer := crash_timer self; report := report self;
    science := science self; _gravity_center := _gravity_center self;
    _contact_screen := _contact_screen self;
    _contact_slope := _contact_slope self |}.
Definition set_vy (v : R) (self : Lander) : Lander :=
  {| img_w := img_w self; img_h := img_h self;
    crash_frames := crash_frames self; px_per_m := px_per_m self; x := x self;
    y := y self; world_x := world_x self; world_y := world_y self;
    vx := vx self; vy := v; ax := ax self; ay := ay self; angle := angle self;
    angular_velocity := angular_velocity self; fuel := fuel self;
    oxygen := oxygen self; battery := battery self;
    temperature := temperature self; damage := damage self;
    gforce := gforce self; apu_on := apu_on self;
    engine_startup_count := engine_startup_count self;
    engine_out := engine_out self; engine_on := engine_on self;
    throttle := throttle self; crashed := crashed self; landed := landed self;
    crash_anim := crash_anim self; crash_index := crash_index self;
    crash_timer := crash_timer self; report := report self;
    science := science self; _gravity_center := _gravity_center self;
    _contact_screen := _contact_screen self;
    _contact_slope := _contact_slope self |}.
Definition set_ax (v : R) (self : Lander) : Lander :=
  {| img_w := img_w self; img_h := img_h self;
    crash_frames := crash_frames self; px_per_m := px_per_m self; x := x self;
    y := y self; world_x := world_x self; world_y := world_y self;
    vx := vx self; vy := vy self; ax := v; ay := ay self; angle := angle self;
    angular_velocity := angular_velocity self; fuel := fuel self;
    oxygen := oxygen self; battery := battery self;
    temperature := temperature self; damage := damage self;
    gforce := gforce self; apu_on := apu_on self;
    engine_startup_count := engine_startup_count self;
    engine_out := engine_out self; engine_on := engine_on self;
    throttle := throttle self; crashed := crashed self; landed := landed self;
    crash_anim := crash_anim self; crash_index := crash_index self;
    crash_timer := crash_timer self; report := report self;
    science := science self; _gravity_center := _gravity_center self;
    _contact_screen := _contact_screen self;
    _contact_slope := _contact_slope self |}.
Definition set_ay (v : R) (self : Lander) : Lander :=
  {| img_w := img_w self; img_h := img_h self;
    crash_frames := crash_frames self; px_per_m := px_per_m self; x := x self;
    y := y self; world_x := world_x self; world_y := world_y self;
    vx := vx self; vy := vy self; ax := ax self; ay := v; angle := angle self;
    angular_velocity := angular_velocity self; fuel := fuel self;
    oxygen := oxygen self; battery := battery self;
    temperature := temperature self; damage := damage self;
    gforce := gforce self; apu_on := apu_on self;
    engine_startup_count := engine_startup_count self;
    engine_out := engine_out self; engine_on := engine_on self;
    throttle := throttle self; crashed := crashed self; landed := landed self;
    crash_anim := crash_anim self; crash_index := crash_index self;
    crash_timer := crash_timer self; report := report self;
    science := science self; _gravity_center := _gravity_center self;
    _contact_screen := _contact_screen self;
    _contact_slope := _contact_slope self |}.
Definition set_angle (v : R) (self : Lander) : Lander :=
  {| img_w := img_w self; img_h := img_h self;
    crash_frames := crash_frames self; px_per_m := px_per_m self; x := x self;
    y := y self; world_x := world_x self; world_y := world_y self;
    vx := vx self; vy := vy self; ax := ax self; ay := ay self; angle := v;
    angular_velocity := angular_velocity self; fuel := fuel self;
    oxygen := oxygen self; battery := battery self;
    temperature := temperature self; damage := damage self;
    gforce := gforce self; apu_on := apu_on self;
    engine_startup_count := engine_startup_count self;
    engine_out := engine_out self; engine_on := engine_on self;
    throttle := throttle self; crashed := crashed self; landed := landed self;
    crash_anim := crash_anim self; crash_index := crash_index self;
    crash_timer := crash_timer self; report := report self;
    science := science self; _gravity_center := _gravity_center self;
    _contact_screen := _contact_screen self;
    _contact_slope := _contact_slope self |}.
Definition set_angular_velocity (v : R) (self : Lander) : Lander :=
  {| img_w := img_w self; img_h := img_h self;
    crash_frames := crash_frames self; px_per_m := px_per_m self; x := x self;
    y := y self; world_x := world_x self; world_y := world_y self;
    vx := vx self; vy := vy self; ax := ax self; ay := ay self;
    angle := angle self; angular_velocity := v; fuel := fuel self;
    oxygen := oxygen self; battery := battery self;
    temperature := temperature self; damage := damage self;
    gforce := gforce self; apu_on := apu_on self;
    engine_startup_count := engine_startup_count self;
    engine_out := engine_out self; engine_on := engine_on self;
    throttle := throttle self; crashed := crashed self; landed := landed self;
    crash_anim := crash_anim self; crash_index := crash_index self;
    crash_timer := crash_timer self; report := report self;
    science := science self; _gravity_center := _gravity_center self;
    _contact_screen := _contact_screen self;
    _contact_slope := _contact_slope self |}.
Definition set_fuel (v : R) (self : Lander) : Lander :=
  {| img_w := img_w self; img_h := img_h self;
    crash_frames := crash_frames self; px_per_m := px_per_m self; x := x self;
    y := y self; world_x := world_x self; world_y := world_y self;
    vx := vx self; vy := vy self; ax := ax self; ay := ay self;
    angle := angle self; angular_velocity := angular_velocity self; fuel := v;
    oxygen := oxygen self; battery := battery self;
    temperature := temperature self; damage := damage self;
    gforce := gforce self; apu_on := apu_on self;
    engine_startup_count := engine_startup_count self;
    engine_out := engine_out self; engine_on := engine_on self;
    throttle := throttle self; crashed := crashed self; landed := landed self;
    crash_anim := crash_anim self; crash_index := crash_index self;
    crash_timer := crash_timer self; report := report self;
    science := science self; _gravity_center := _gravity_center self;
    _contact_screen := _contact_screen self;
    _contact_slope := _contact_slope self |}.
Definition set_oxygen (v : R) (self : Lander) : Lander :=
  {| img_w := img_w self; img_h := img_h self;
    crash_frames := crash_frames self; px_per_m := px_per_m self; x := x self;
    y := y self; world_x := world_x self; world_y := world_y self;
    vx := vx self; vy := vy self; ax := ax self; ay := ay self;
    angle := angle self; angular_velocity := angular_velocity self;
    fuel := fuel self; oxygen := v; battery := battery self;
    temperature := temperature self; damage := damage self;
    gforce := gforce self; apu_on := apu_on self;
    engine_startup_count := engine_startup_count self;
    engine_out := engine_out self; engine_on := engine_on self;
    throttle := throttle self; crashed := crashed self; landed := landed self;
    crash_anim := crash_anim self; crash_index := crash_index self;
    crash_timer := crash_timer self; report := report self;
    science := science self; _gravity_center := _gravity_center self;
    _contact_screen := _contact_screen self;
    _contact_slope := _contact_slope self |}.
Definition set_battery (v : R) (self : Lander) : Lander :=
  {| img_w := img_w self; img_h := img_h self;
    crash_frames := crash_frames self; px_per_m := px_per_m self; x := x self;
    y := y self; world_x := world_x self; world_y := world_y self;
    vx := vx self; vy := vy self; ax := ax self; ay := ay self;
    angle := angle self; angular_velocity := angular_velocity self;
    fuel := fuel self; oxygen := oxygen self; battery := v;
    temperature := temperature self; damage := damage self;
    gforce := gforce self; apu_on := apu_on self;
    engine_startup_count := engine_startup_count self;
    engine_out := engine_out self; engine_on := engine_on self;
    throttle := throttle self; crashed := crashed self; landed := landed self;
    crash_anim := crash_anim self; crash_index := crash_index self;
    crash_timer := crash_timer self; report := report self;
    science := science self; _gravity_center := _gravity_center self;
    _contact_screen := _contact_screen self;
    _contact_slope := _contact_slope self |}.
Definition set_temperature (v : R) (self : Lander) : Lander :=
  {| img_w := img_w self; img_h := img_h self;
    crash_frames := crash_frames self; px_per_m := px_per_m self; x := x self;
    y := y self; world_x := world_x self; world_y := world_y self;
    vx := vx self; vy := vy self; ax := ax self; ay := ay self;
    angle := angle self; angular_velocity := angular_velocity self;
    fuel := fuel self; oxygen := oxygen self; battery := battery self;
    temperature := v; damage := damage self; gforce := gforce self;
    apu_on := apu_on self; engine_startup_count := engine_startup_count self;
    engine_out := engine_out self; engine_on := engine_on self;
    throttle := throttle self; crashed := crashed self; landed := landed self;
    crash_anim := crash_anim self; crash_index := crash_index self;
    crash_timer := crash_timer self; report := report self;
    science := science self; _gravity_center := _gravity_center self;
    _contact_screen := _contact_screen self;
    _contact_slope := _contact_slope self |}.
Definition set_damage (v : R) (self : Lander) : Lander :=
  {| img_w := img_w self; img_h := img_h self;
    crash_frames := crash_frames self; px_per_m := px_per_m self; x := x self;
    y := y self; world_x := world_x self; world_y := world_y self;
    vx := vx self; vy := vy self; ax := ax self; ay := ay self;
    angle := angle self; angular_velocity := angular_velocity self;
    fuel := fuel self; oxygen := oxygen self; battery := battery self;
    temperature := temperature self; damage := v; gforce := gforce self;
    apu_on := apu_on self; engine_startup_count := engine_startup_count self;
    engine_out := engine_out self; engine_on := engine_on self;
    throttle := throttle self; crashed := crashed self; landed := landed self;
    crash_anim := crash_anim self; crash_index := crash_index self;
    crash_timer := crash_timer self; report := report self;
    science := science self; _gravity_center := _gravity_center self;
    _contact_screen := _contact_screen self;
    _contact_slope := _contact_slope self |}.
Definition set_gforce (v : R) (self : Lander) : Lander :=
  {| img_w := img_w self; img_h := img_h self;
    crash_frames := crash_frames self; px_per_m := px_per_m self; x := x self;
    y := y self; world_x := world_x self; world_y := world_y self;
    vx := vx self; vy := vy self; ax := ax self; ay := ay self;
    angle := angle self; angular_velocity := angular_velocity self;
    fuel := fuel self; oxygen := oxygen self; battery := battery self;
    temperature := temperature self; damage := damage self; gforce := v;
    apu_on := apu_on self; engine_startup_count := engine_startup_count self;
    engine_out := engine_out self; engine_on := engine_on self;
    throttle := throttle self; crashed := crashed self; landed := landed self;
    crash_anim := crash_anim self; crash_index := crash_index self;
    crash_timer := crash_timer self; report := report self;
    science := science self; _gravity_center := _gravity_center self;
    _contact_screen := _contact_screen self;
    _contact_slope := _contact_slope self |}.
Definition set_apu_on (v : bool) (self : Lander) : Lander :=
  {| img_w := img_w self; img_h := img_h self;
    crash_frames := crash_frames self; px_per_m := px_per_m self; x := x self;
    y := y self; world_x := world_x self; world_y := world_y self;
    vx := vx self; vy := vy self; ax := ax self; ay := ay self;
    angle := angle self; angular_velocity := angular_velocity self;
    fuel := fuel self; oxygen := oxygen self; battery := battery self;
    temperature := temperature self; damage := damage self;
    gforce := gforce self; apu_on := v;
    engine_startup_count := engine_startup_count self;
    engine_out := engine_out self; engine_on := engine_on self;
    throttle := throttle self; crashed := crashed self; landed := landed self;
    crash_anim := crash_anim self; crash_index := crash_index self;
    crash_timer := crash_timer self; report := report self;
    science := science self; _gravity_center := _gravity_center self;
    _contact_screen := _contact_screen self;
    _contact_slope := _contact_slope self |}.
Definition set_engine_startup_count (v : Z) (self : Lander) : Lander :=
  {| img_w := img_w self; img_h := img_h self;
    crash_frames := crash_frames self; px_per_m := px_per_m self; x := x self;
    y := y self; world_x := world_x self; world_y := world_y self;
    vx := vx self; vy := vy self; ax := ax self; ay := ay self;
    angle := angle self; angular_velocity := angular_velocity self;
    fuel := fuel self; oxygen := oxygen self; battery := battery self;
    temperature := temperature self; damage := damage self;
    gforce := gforce self; apu_on := apu_on self; engine_startup_count := v;
    engine_out := engine_out self; engine_on := engine_on self;
    throttle := throttle self; crashed := crashed self; landed := landed self;
    crash_anim := crash_anim self; crash_index := crash_index self;
    crash_timer := crash_timer self; report := report self;
    science := science self; _gravity_center := _gravity_center self;
    _contact_screen := _contact_screen self;
    _contact_slope := _contact_slope self |}.
Definition set_engine_out (v : bool) (self : Lander) : Lander :=
  {| img_w := img_w self; img_h := img_h self;
    crash_frames := crash_frames self; px_per_m := px_per_m self; x := x self;
    y := y self; world_x := world_x self; world_y := world_y self;
    vx := vx self; vy := vy self; ax := ax self; ay := ay self;
    angle := angle self; angular_velocity := angular_velocity self;
    fuel := fuel self; oxygen := oxygen self; battery := battery self;
    temperature := temperature self; damage := damage self;
    gforce := gforce self; apu_on := apu_on self;
    engine_startup_count := engine_startup_count self; engine_out := v;
    engine_on := engine_on self; throttle := throttle self;
    crashed := crashed self; landed := landed self;
    crash_anim := crash_anim self; crash_index := crash_index self;
    crash_timer := crash_timer self; report := report self;
    science := science self; _gravity_center := _gravity_center self;
    _contact_screen := _contact_screen self;
    _contact_slope := _contact_slope self |}.
Definition set_engine_on (v : bool) (self : Lander) : Lander :=
  {| img_w := img_w self; img_h := img_h self;
    crash_frames := crash_frames self; px_per_m := px_per_m self; x := x self;
    y := y self; world_x := world_x self; world_y := world_y self;
    vx := vx self; vy := vy self; ax := ax self; ay := ay self;
    angle := angle self; angular_velocity := angular_velocity self;
    fuel := fuel self; oxygen := oxygen self; battery := battery self;
    temperature := temperature self; damage := damage self;
    gforce := gforce self; apu_on := apu_on self;
    engine_startup_count := engine_startup_count self;
    engine_out := engine_out self; engine_on := v; throttle := throttle self;
    crashed := crashed self; landed := landed self;
    crash_anim := crash_anim self; crash_index := crash_index self;
    crash_timer := crash_timer self; report := report self;
    science := science self; _gravity_center := _gravity_center self;
    _contact_screen := _contact_screen self;
    _contact_slope := _contact_slope self |}.
Definition set_throttle (v : R) (self : Lander) : Lander :=
  {| img_w := img_w self; img_h := img_h self;
    crash_frames := crash_frames self; px_per_m := px_per_m self; x := x self;
    y := y self; world_x := world_x self; world_y := world_y self;
    vx := vx self; vy := vy self; ax := ax self; ay := ay self;
    angle := angle self; angular_velocity := angular_velocity self;
    fuel := fuel self; oxygen := oxygen self; battery := battery self;
    temperature := temperature self; damage := damage self;
    gforce := gforce self; apu_on := apu_on self;
    engine_startup_count := engine_startup_count self;
    engine_out := engine_out self; engine_on := engine_on self; throttle := v;
    crashed := crashed self; landed := landed self;
    crash_anim := crash_anim self; crash_index := crash_index self;
    crash_timer := crash_timer self; report := report self;
    science := science self; _gravity_center := _gravity_center self;
    _contact_screen := _contact_screen self;
    _contact_slope := _contact_slope self |}.
Definition set_crashed (v : bool) (self : Lander) : Lander :=
  {| img_w := img_w self; img_h := img_h self;
    crash_frames := crash_frames self; px_per_m := px_per_m self; x := x self;
    y := y self; world_x := world_x self; world_y := world_y self;
    vx := vx self; vy := vy self; ax := ax self; ay := ay self;
    angle := angle self; angular_velocity := angular_velocity self;
    fuel := fuel self; oxygen := oxygen self; battery := battery self;
    temperature := temperature self; damage := damage self;
    gforce := gforce self; apu_on := apu_on self;
    engine_startup_count := engine_startup_count self;
    engine_out := engine_out self; engine_on := engine_on self;
    throttle := throttle self; crashed := v; landed := landed self;
    crash_anim := crash_anim self; crash_index := crash_index self;
    crash_timer := crash_timer self; report := report self;
    science := science self; _gravity_center := _gravity_center self;
    _contact_screen := _contact_screen self;
    _contact_slope := _contact_slope self |}.
Definition set_landed (v : bool) (self : Lander) : Lander :=
  {| img_w := img_w self; img_h := img_h self;
    crash_frames := crash_frames self; px_per_m := px_per_m self; x := x self;
    y := y self; world_x := world_x self; world_y := world_y self;
    vx := vx self; vy := vy self; ax := ax self; ay := ay self;
    angle := angle self; angular_velocity := angular_velocity self;
    fuel := fuel self; oxygen := oxygen self; battery := battery self;
    temperature := temperature self; damage := damage self;
    gforce := gforce self; apu_on := apu_on self;
    engine_startup_count := engine_startup_count self;
    engine_out := engine_out self; engine_on := engine_on self;
    throttle := throttle self; crashed := crashed self; landed := v;
    crash_anim := crash_anim self; crash_index := crash_index self;
    crash_timer := crash_timer self; report := report self;
    science := science self; _gravity_center := _gravity_center self;
    _contact_screen := _contact_screen self;
    _contact_slope := _contact_slope self |}.
Definition set_crash_anim (v : bool) (self : Lander) : Lander :=
  {| img_w := img_w self; img_h := img_h self;
    crash_frames := crash_frames self; px_per_m := px_per_m self; x := x self;
    y := y self; world_x := world_x self; world_y := world_y self;
    vx := vx self; vy := vy self; ax := ax self; ay := ay self;
    angle := angle self; angular_velocity := angular_velocity self;
    fuel := fuel self; oxygen := oxygen self; battery := battery self;
    temperature := temperature self; damage := damage self;
    gforce := gforce self; apu_on := apu_on self;
    engine_startup_count := engine_startup_count self;
    engine_out := engine_out self; engine_on := engine_on self;
    throttle := throttle self; crashed := crashed self; landed := landed self;
    crash_anim := v; crash_index := crash_index self;
    crash_timer := crash_timer self; report := report self;
    science := science self; _gravity_center := _gravity_center self;
    _contact_screen := _contact_screen self;
    _contact_slope := _contact_slope self |}.
Definition set_crash_index (v : Z) (self : Lander) : Lander :=
  {| img_w := img_w self; img_h := img_h self;
    crash_frames := crash_frames self; px_per_m := px_per_m self; x := x self;
    y := y self; world_x := world_x self; world_y := world_y self;
    vx := vx self; vy := vy self; ax := ax self; ay := ay self;
    angle := angle self; angular_velocity := angular_velocity self;
    fuel := fuel self; oxygen := oxygen self; battery := battery self;
    temperature := temperature self; damage := damage self;
    gforce := gforce self; apu_on := apu_on self;
    engine_startup_count := engine_startup_count self;
    engine_out := engine_out self; engine_on := engine_on self;
    throttle := throttle self; crashed := crashed self; landed := landed self;
    crash_anim := crash_anim self; crash_index := v;
    crash_timer := crash_timer self; report := report self;
    science := science self; _gravity_center := _gravity_center self;
    _contact_screen := _contact_screen self;
    _contact_slope := _contact_slope self |}.
Definition set_crash_timer (v : Z) (self : Lander) : Lander :=
  {| img_w := img_w self; img_h := img_h self;
    crash_frames := crash_frames self; px_per_m := px_per_m self; x := x self;
    y := y self; world_x := world_x self; world_y := world_y self;
    vx := vx self; vy := vy self; ax := ax self; ay := ay self;
    angle := angle self; angular_velocity := angular_velocity self;
    fuel := fuel self; oxygen := oxygen self; battery := battery self;
    temperature := temperature self; damage := damage self;
    gforce := gforce self; apu_on := apu_on self;
    engine_startup_count := engine_startup_count self;
    engine_out := engine_out self; engine_on := engine_on self;
    throttle := throttle self; crashed := crashed self; landed := landed self;
    crash_anim := crash_anim self; crash_index := crash_index self;
    crash_timer := v; report := report self; science := science self;
    _gravity_center := _gravity_center self;
    _contact_screen := _contact_screen self;
    _contact_slope := _contact_slope self |}.
Definition set_report (v : option dict) (self : Lander) : Lander :=
  {| img_w := img_w self; img_h := img_h self;
    crash_frames := crash_frames self; px_per_m := px_per_m self; x := x self;
    y := y self; world_x := world_x self; world_y := world_y self;
    vx := vx self; vy := vy self; ax := ax self; ay := ay self;
    angle := angle self; angular_velocity := angular_velocity self;
    fuel := fuel self; oxygen := oxygen self; battery := battery self;
    temperature := temperature self; damage := damage self;
    gforce := gforce self; apu_on := apu_on self;
    engine_startup_count := engine_startup_count self;
    engine_out := engine_out self; engine_on := engine_on self;
    throttle := throttle self; crashed := crashed self; landed := landed self;
    crash_anim := crash_anim self; crash_index := crash_index self;
    crash_timer := crash_timer self; report := v; science := science self;
    _gravity_center := _gravity_center self;
    _contact_screen := _contact_screen self;
    _contact_slope := _contact_slope self |}.
Definition set_science (v : Z) (self : Lander) : Lander :=
  {| img_w := img_w self; img_h := img_h self;
    crash_frames := crash_frames self; px_per_m := px_per_m self; x := x self;
    y := y self; world_x := world_x self; world_y := world_y self;
    vx := vx self; vy := vy self; ax := ax self; ay := ay self;
    angle := angle self; angular_velocity := angular_velocity self;
    fuel := fuel self; oxygen := oxygen self; battery := battery self;
    temperature := temperature self; damage := damage self;
    gforce := gforce self; apu_on := apu_on self;
    engine_startup_count := engine_startup_count self;
    engine_out := engine_out self; engine_on := engine_on self;
    throttle := throttle self; crashed := crashed self; landed := landed self;
    crash_anim := crash_anim self; crash_index := crash_index self;
    crash_timer := crash_timer self; report := report self; science := v;
    _gravity_center := _gravity_center self;
    _contact_screen := _contact_screen self;
    _contact_slope := _contact_slope self |}.
Definition set__gravity_center (v : Z * Z) (self : Lander) : Lander :=
  {| img_w := img_w self; img_h := img_h self;
    crash_frames := crash_frames self; px_per_m := px_per_m self; x := x self;
    y := y self; world_x := world_x self; world_y := world_y self;
    vx := vx self; vy := vy self; ax := ax self; ay := ay self;
    angle := angle self; angular_velocity := angular_velocity self;
    fuel := fuel self; oxygen := oxygen self; battery := battery self;
    temperature := temperature self; damage := damage self;
    gforce := gforce self; apu_on := apu_on self;
    engine_startup_count := engine_startup_count self;
    engine_out := engine_out self; engine_on := engine_on self;
    throttle := throttle self; crashed := crashed self; landed := landed self;
    crash_anim := crash_anim self; crash_index := crash_index self;
    crash_timer := crash_timer self; report := report self;
    science := science self; _gravity_center := v;
    _contact_screen := _contact_screen self;
    _contact_slope := _contact_slope self |}.
Definition set__contact_screen (v : option (Z * Z)) (self : Lander) : Lander :=
  {| img_w := img_w self; img_h := img_h self;
    crash_frames := crash_frames self; px_per_m := px_per_m self; x := x self;
    y := y self; world_x := world_x self; world_y := world_y self;
    vx := vx self; vy := vy self; ax := ax self; ay := ay self;
    angle := angle self; angular_velocity := angular_velocity self;
    fuel := fuel self; oxygen := oxygen self; battery := battery self;
    temperature := temperature self; damage := damage self;
    gforce := gforce self; apu_on := apu_on self;
    engine_startup_count := engine_startup_count self;
    engine_out := engine_out self; engine_on := engine_on self;
    throttle := throttle self; crashed := crashed self; landed := landed self;
    crash_anim := crash_anim self; crash_index := crash_index self;
    crash_timer := crash_timer self; report := report self;
    science := science self; _gravity_center := _gravity_center self;
    _contact_screen := v; _contact_slope := _contact_slope self |}.
Definition set__contact_slope (v : option R) (self : Lander) : Lander :=
  {| img_w := img_w self; img_h := img_h self;
    crash_frames := crash_frames self; px_per_m := px_per_m self; x := x self;
    y := y self; world_x := world_x self; world_y := world_y self;
    vx := vx self; vy := vy self; ax := ax self; ay := ay self;
    angle := angle self; angular_velocity := angular_velocity self;
    fuel := fuel self; oxygen := oxygen self; battery := battery self;
    temperature := temperature self; damage := damage self;
    gforce := gforce self; apu_on := apu_on self;
    engine_startup_count := engine_startup_count self;
    engine_out := engine_out self; engine_on := engine_on self;
    throttle := throttle self; crashed := crashed self; landed := landed self;
    crash_anim := crash_anim self; crash_index := crash_index self;
    crash_timer := crash_timer self; report := report self;
    science := science self; _gravity_center := _gravity_center self;
    _contact_screen := _contact_screen self; _contact_slope := v |}.

(** A lander object before its first [reset]: the sprite's size, the number
    of crash frames and the pixel scale are set, the rest is not yet. *)
Definition blank (w h frames : Z) (ppm : R) : Lander :=
  {| img_w := w; img_h := h; crash_frames := frames; px_per_m := ppm;
     x := 0; y := 0; world_x := None; world_y := None;
     vx := 0; vy := 0; ax := 0; ay := 0; angle := 0;
     angular_velocity := 0; fuel := 0; oxygen := 0; battery := 0;
     temperature := 0; damage := 0; gforce := 0; apu_on := false;
     engine_startup_count := 0; engine_out := false;
     engine_on := false; throttle := 0; crashed := false;
     landed := false; crash_anim := false; crash_index := 0;
     crash_timer := 0; report := None; science := 0;
     _gravity_center := (0, 0)%Z; _contact_screen := None;
     _contact_slope := None |}.

(** [_angle_diff]: the signed difference [target - source] in degrees,
    wrapped by [% 360] around -180. *)
Definition _angle_diff (target source : R) : R :=
  Py.fmod (target - source + 180) 360 - 180.

Section Core.

Variable cfg : Config.

(** *** Construction and reset *)

(** [Lander.reset] *)
Definition reset (self : Lander) : Lander :=
  let x0 := (SCREEN_SIZE cfg / 2)%Z in
  let y0 := (SCREEN_SIZE cfg / 4)%Z in
  {| img_w := img_w self;
     img_h := img_h self;
     crash_frames := crash_frames self;
     px_per_m := px_per_m self;
     x := IZR x0;
     y := IZR y0;
     world_x := None;
     world_y := None;
     vx := LANDER_VX_ENTRY cfg;
     vy := 0;
     ax := 0;
     ay := 0;
     angle := 0;
     angular_velocity := lander_angular_velocity cfg;
     fuel := FUEL_START cfg;
     oxygen := MAX_OXYGEN cfg;
     battery := MAX_BATTERY cfg;
     temperature := 20;
     damage := 0;
     gforce := 0;
     apu_on := false;
     engine_startup_count := 0;
     engine_out := false;
     engine_on := false;
     throttle := 1;
     crashed := false;
     landed := false;
     crash_anim := false;
     crash_index := 0;
     crash_timer := 0;
     report := None;
     science := 0;
     _gravity_center :=
       (Py.int (IZR x0 + IZR (img_w self) / 2),
        Py.int (IZR y0 + IZR (img_h self) / 2));
     _contact_screen := None;
     _contact_slope := None |}.

(** [Lander.__init__], for a sprite of [w] by [h] pixels and [frames]
    crash frames. *)
Definition __init__ (w h frames : Z) : result Lander :=
  ppm <- IZR h /? LANDER_HEIGHT_M cfg ;;
  Ok (reset (blank w h frames ppm)).

(** The properties [Lander.mass] and [Lander.base_coords]. *)
Definition mass (self : Lander) : R := DRY_MASS cfg + fuel self.

Definition base_coords (self : Lander) : R * R :=
  (x self + IZR (img_w self) / 2, y self + IZR (img_h self) - 29).

(** *** The surface sensor *)

(** [SurfaceSensor._terrain_height_at] *)
Definition _terrain_height_at (terrain : Terrain) (x_world : R) : result R :=
  let pix_per_step := IZR (PIXEL_SIZE cfg) in
  idx_float <- x_world /? pix_per_step ;;
  let left_i := Py.floor idx_float in
  let right_i := Py.ceil idx_float in
  let max_i := (Py.len (topo terrain) - 1)%Z in
  let left_i_clamped := Z.max 0 (Z.min left_i max_i) in
  let right_i_clamped := Z.max 0 (Z.min right_i max_i) in
  y_left <- getitem (topo terrain) left_i_clamped ;;
  y_right <- getitem (topo terrain) right_i_clamped ;;
  if (left_i_clamped =? right_i_clamped)%Z then Ok (IZR y_left)
  else
    let t := idx_float - IZR left_i_clamped in
    Ok (IZR y_left * (1 - t) + IZR y_right * t).

(** [SurfaceSensor.altitude_at]: the altitude in metres and the
    coordinates of the reading. *)
Definition altitude_at (self : Lander) (terrain : Terrain) (offset : R)
    (reading_offset : option R) : result (R * (R * R)) :=
  let reading_offset :=
    match reading_offset with
    | None => fst (base_coords self)
    | Some r => r
    end in
  let '(base_x, base_y) := base_coords self in
  surface_y <- _terrain_height_at terrain (base_x + reading_offset) ;;
  let reading_coords := (base_x - offset + reading_offset, surface_y) in
  let altitude_pixels := surface_y - base_y in
  alt <- altitude_pixels /? px_per_m self ;;
  Ok (alt, reading_coords).

(** [Lander.compute_surface_slope] *)
Definition compute_surface_slope (terrain : Terrain) (self : Lander)
    : result R :=
  centre <- floordiv (x self + IZR (img_w self) / 2) (IZR (PIXEL_SIZE cfg)) ;;
  let half := 5%Z in
  let left_i := Z.max 0 (centre - half) in
  let right_i := Z.min (Py.len (topo terrain) - 1) (centre + half) in
  y_left <- getitem (topo terrain) left_i ;;
  y_right <- getitem (topo terrain) right_i ;;
  let dx := ((right_i - left_i) * PIXEL_SIZE cfg)%Z in
  let dy := (y_left - y_right)%Z in
  Ok (Py.degrees (Py.atan2 (IZR dy) (IZR dx))).

(** *** [Lander.update_physics] *)

(** Life support and power: the oxygen and battery drains, the APU switch
    and the APU recharge. *)
Definition life_support (dt_sim : R) (self : Lander) : Lander :=
  let self :=
    set_oxygen (Rmax (oxygen self - OXYGEN_DRAIN_RATE cfg * dt_sim) 0) self in
  let self :=
    set_battery (Rmax (battery self - BATTERY_DRAIN_RATE cfg * dt_sim) 0) self in
  let self :=
    if (battery self <=? 0) && negb (apu_on self) then set_apu_on true self
    else if (battery self >=? 50) && apu_on self then set_apu_on false self
    else self in
  if apu_on self && (battery self <? MAX_BATTERY cfg) then
    let fuel_used := APU_FUEL_RATE cfg * dt_sim in
    let self := set_fuel (Rmax (fuel self - fuel_used) 0) self in
    set_battery
      (Rmin (battery self + APU_RECHARGE_RATE cfg * dt_sim) (MAX_BATTERY cfg))
      self
  else self.

(** Rotational dynamics: the torque of the rotate keys, then the angle. *)
Definition rotational_dynamics (keys : Keys) (dt_sim : R) (self : Lander)
    : result Lander :=
  let has_power := battery self >? 0 in
  self <-
    (if has_power && negb (landed self) then
       let net_torque := 0 in
       let net_torque :=
         if K_LEFT keys then net_torque + ROTATION_TORQUE cfg
         else net_torque in
       let net_torque :=
         if K_RIGHT keys then net_torque - ROTATION_TORQUE cfg
         else net_torque in
       angular_accel <- net_torque /? ANGULAR_INERTIA cfg ;;
       Ok (set_angular_velocity
             (angular_velocity self + angular_accel * dt_sim) self)
     else Ok self) ;;
  Ok (set_angle (Py.fmod (angle self + angular_velocity self * dt_sim) 360)
        self).

(** The main engine in flight: the start-up counter, the fuel burn and the
    thrust acceleration; gives the lander and the acceleration [(ax, ay)]. *)
Definition main_engine (keys : Keys) (dt_sim : R) (ax0 ay0 : R)
    (self : Lander) : result (Lander * (R * R)) :=
  if K_UP keys && (fuel self >? 0) && negb (engine_out self) then
    let self :=
      if negb (engine_on self) && negb (engine_out self) then
        let self :=
          set_engine_startup_count (engine_startup_count self + 1) self in
        if (engine_startup_count self >=? ENGINE_STARTUP_LIMIT cfg)%Z then
          let self :=
            set_report (Some [("ENGINE FAILURE", Str "START_UP")]%string)
              self in
          let self := set_engine_out true self in
          set_engine_on false self
        else set_engine_on true self
      else self in
    let thrust := MAX_THRUST cfg * throttle self in
    mflow <- thrust /? (ISP cfg * G0_MOON cfg) ;;
    let fuel_used := mflow * dt_sim * throttle self in
    let self := set_fuel (Rmax (fuel self - fuel_used) 0) self in
    let rad := Py.radians (angle self) in
    acc <- thrust /? mass self ;;
    Ok (self, (ax0 + acc * - sin rad, ay0 + acc * - cos rad))
  else if fuel self <=? 0 then
    Ok (set_engine_on false (set_engine_out true self), (ax0, ay0))
  else Ok (set_engine_on false self, (ax0, ay0)).

(** Integration of the translational motion in flight, and the heating
    by the g-load. *)
Definition integrate (dt_sim ax1 ay1 : R) (self : Lander) : Lander :=
  let self := set_ay ay1 (set_ax ax1 self) in
  let self := set_vx (vx self + ax1 * dt_sim) self in
  let self := set_vy (vy self + ay1 * dt_sim) self in
  let self := set_gforce (Py.hypot ax1 ay1 / 9.81) self in
  let self := set_x (x self + vx self * dt_sim * px_per_m self) self in
  let self := set_y (y self + vy self * dt_sim * px_per_m self) self in
  set_temperature
    (Rmin (temperature self + 0.01 * gforce self * dt_sim)
       (MAX_TEMPERATURE cfg))
    self.

(** Flight: no contact point and not landed. *)
Definition flight (keys : Keys) (dt_sim : R) (self : Lander)
    : result Lander :=
  let ax0 := 0 in
  let ay0 := G0_MOON cfg in
  let self :=
    if K_1 keys then set_throttle 1 self
    else if K_2 keys then set_throttle 0.5 self
    else if K_3 keys then set_throttle 0.33 self
    else self in
  '(self, (ax1, ay1)) <- main_engine keys dt_sim ax0 ay0 self ;;
  Ok (integrate dt_sim ax1 ay1 self).

(** Lift-off thrust from the ground: the thrust key with fuel and a
    working engine, while a contact point is set. *)
Definition lift_off (dt_sim : R) (self : Lander) : result Lander :=
  let ax0 := 0 in
  let ay0 := 0 in
  let self := set_engine_on true self in
  let self := set_landed false self in
  let thrust := MAX_THRUST cfg * throttle self in
  mflow <- thrust /? (ISP cfg * G0_MOON cfg) ;;
  let fuel_used := mflow * dt_sim * throttle self in
  let self := set_fuel (Rmax (fuel self - fuel_used) 0) self in
  let rad := Py.radians (angle self) in
  acc <- thrust /? mass self ;;
  let ax1 := ax0 + acc * - sin rad in
  let ay1 := ay0 + acc * - cos rad in
  let self := set_ay ay1 (set_ax ax1 self) in
  let self := set_vx (vx self + ax1 * dt_sim) self in
  let self := set_vy (vy self + - Rabs (ay1 * dt_sim)) self in
  let self := set_gforce (Py.hypot ax1 ay1 / 9.81) self in
  let self := set_x (x self + vx self * dt_sim * px_per_m self) self in
  Ok (set_y (y self + vy self * dt_sim * px_per_m self) self).

(** Pivot physics around the contact point. *)
Definition pivot (dt_sim : R) (self : Lander) : result Lander :=
  '(pivot_x, pivot_y) <-
    match _contact_screen self with
    | Some p => Ok p
    | None => Raise TypeError
    end ;;
  let '(cg_x, cg_y) := _gravity_center self in
  dx0 <- IZR (cg_x - pivot_x) /? px_per_m self ;;
  dy0 <- IZR (cg_y - pivot_y) /? px_per_m self ;;
  let arm0 := Py.atan2 dy0 dx0 in
  let R := Py.hypot dx0 dy0 in
  tx <- - dy0 /? R ;;
  ty <- dx0 /? R ;;
  let g := G0_MOON cfg in
  let tang_acc := g * ty * 2 in
  let ax1 := tang_acc * tx in
  let ay1 := tang_acc * ty in
  let self := set_ay ay1 (set_ax ax1 self) in
  let self := set_vx (vx self + ax1 * dt_sim) self in
  let self := set_vy (vy self + ay1 * dt_sim) self in
  let self := set_x (x self + vx self * dt_sim * px_per_m self) self in
  let self := set_y (y self + vy self * dt_sim * px_per_m self) self in
  let cg2_x := IZR cg_x + vx self * dt_sim * px_per_m self in
  let cg2_y := IZR cg_y + vy self * dt_sim * px_per_m self in
  dx1 <- (cg2_x - IZR pivot_x) /? px_per_m self ;;
  dy1 <- (cg2_y - IZR pivot_y) /? px_per_m self ;;
  let arm1 := Py.atan2 dy1 dx1 in
  let delta_arm := Py.fmod (Py.degrees (arm1 - arm0) + 180) 360 - 180 in
  Ok (set_angle (Py.fmod (angle self - delta_arm) 360) self).

(** Settlement complete: at rest on the slope. *)
Definition settled (target_slope : R) (self : Lander) : Lander :=
  let self := set_ay 0 (set_ax 0 self) in
  let self := set_vy 0 (set_vx 0 self) in
  let self := set_angle (Py.fmod target_slope 360) self in
  set_landed true self.

(** On the ground: a contact point is set and the lander has not crashed. *)
Definition on_ground (keys : Keys) (dt_sim : R) (terrain : Terrain)
    (self : Lander) : result Lander :=
  target_slope <- compute_surface_slope terrain self ;;
  let rotation_step := ROTATION_SPEED cfg * dt_sim in
  let angle_diff := _angle_diff target_slope (angle self) in
  let self := set_angular_velocity 0 self in
  let self := set_engine_on false self in
  let self := set_ay 0 (set_ax 0 self) in
  if K_UP keys && (fuel self >? 0) && negb (engine_out self) then
    lift_off dt_sim self
  else if Rabs angle_diff >=? rotation_step then pivot dt_sim self
  else Ok (settled target_slope self).

Definition update_physics (keys : Keys) (dt : R) (terrain : Terrain)
    (self : Lander) : result Lander :=
  let dt_sim := dt * TIME_SCALE cfg in
  if crashed self then Ok self
  else
    let self := life_support dt_sim self in
    self <- rotational_dynamics keys dt_sim self ;;
    if negb (is_some (_contact_screen self)) && negb (landed self) then
      flight keys dt_sim self
    else if is_some (_contact_screen self) && negb (crashed self) then
      on_ground keys dt_sim terrain self
    else Ok self.

(** *** [Lander.collision_check] *)

(** [Lander._crash] *)
Definition _crash (pg : Pygame) (reason : string) (self : Lander) : Lander :=
  let self := set_crashed true self in
  let self := set_crash_anim true self in
  let self := set_crash_index 0 self in
  let self := set_engine_on false self in
  let self := set_crash_timer (get_ticks pg) self in
  let impact_speed := Py.hypot (vx self) (vy self) in
  set_report
    (Some [("CAUSE:", Str reason);
           ("impact_speed", Num (Py.round impact_speed 2));
           ("impact_angle", Num (Py.round (angle self) 1))]%string)
    self.

(** The combined risk score of a first contact, [vel_ratio + angle_ratio]. *)
Definition ratio_sum (slope : R) (self : Lander) : result R :=
  let vel_abs := Py.hypot (vy self) (vx self) in
  let angle_diff := _angle_diff slope (angle self) in
  vel_ratio <- vel_abs /? LAND_DAMAGE_SPEED cfg ;;
  angle_ratio <- Rabs angle_diff /? MAX_LANDING_ANGLE cfg ;;
  Ok (vel_ratio + angle_ratio).

Definition collision_check (pg : Pygame) (keys : Keys) (terrain : Terrain)
    (offset_x : R) (special_hit : bool) (self : Lander) : result Lander :=
  if rock_hit pg then Ok (_crash pg "CRASHED INTO ROCKS" self)
  else
    let orig_vy := vy self in
    let abs_vy := Rabs orig_vy in
    slope <- compute_surface_slope terrain self ;;
    let self := set__contact_slope (Some slope) self in
    let world_x0 := IZR (rect_left pg) + offset_x in
    let world_y0 := rect_top pg in
    let self := set_world_x (Some world_x0) self in
    let self := set_world_y (Some world_y0) self in
    match overlap pg with
    | None =>
        if is_some (_contact_screen self) && K_UP keys then
          Ok (set__contact_screen None self)
        else Ok self
    | Some (cx_mask, cy_mask) =>
        if negb (is_some (_contact_screen self)) then
          let screen_x := Py.int (world_x0 - offset_x + IZR cx_mask) in
          let screen_y := (world_y0 + cy_mask)%Z in
          let self := set__contact_screen (Some (screen_x, screen_y)) self in
          ratio <- ratio_sum slope self ;;
          if ratio >? 0.25 then
            let damage_amount := ratio * 100 in
            let self :=
              set_damage (Rmin (damage self + damage_amount) 100) self in
            if (damage self >=? 100) && (ratio >? 0.75) then
              Ok (_crash pg "STRUCTURAL DAMAGE" self)
            else if ratio >? 1.5 then Ok (_crash pg "HARD LANDING" self)
            else Ok self
          else
            let self :=
              set_report (Some [("landing_speed", Num abs_vy)]%string) self in
            if special_hit then
              let self := set_science (science self + 10) self in
              let self := set_report (Some (or_empty (report self))) self in
              Ok (set_report
                    (Some (dict_set (or_empty (report self)) "sample"
                             (Str "cool rock")))
                    self)
            else Ok self
        else Ok self
    end.

(** *** One frame of the simulation loop ([main]) *)

(** [compute_camera_offset] *)
Definition compute_camera_offset (x0 : R) : R :=
  let off := x0 - IZR (SCREEN_SIZE cfg / 2) in
  Rmax 0 (Rmin off (IZR (TERRAIN_LENGTH cfg - SCREEN_SIZE cfg))).

(** [Lander.draw], as far as it changes the lander: in flight it records
    the sprite's centre as the gravity centre. *)
Definition draw (offset : R) (self : Lander) : Lander :=
  if crashed self then self
  else if landed self || is_some (_contact_screen self) then self
  else
    set__gravity_center
      (Py.int (x self - offset + IZR (img_w self) / 2),
       Py.int (y self + IZR (img_h self) / 2))
      self.

(** The simulation step of the main loop: physics, drawing, and the
    collision check unless the lander has landed or crashed. *)
Definition frame (keys : Keys) (dt : R) (terrain : Terrain) (pg : Pygame)
    (special_hit : bool) (self : Lander) : result Lander :=
  self <- update_physics keys dt terrain self ;;
  let offset := compute_camera_offset (x self) in
  let self := draw offset self in
  if negb (landed self || crashed self) then
    collision_check pg keys terrain offset special_hit self
  else Ok self.

End Core.

(** ** The older lander ([src/entities/lander.py], [src/systems/physics.py]) *)

Module Legacy.
Section Legacy.

Variable cfg : Config.

(** The older [Lander._crash]: it leaves [engine_on] as it is. *)
Definition _crash (pg : Pygame) (reason : string) (self : Lander) : Lander :=
  let self := set_crashed true self in
  let self := set_crash_anim true self in
  let self := set_crash_index 0 self in
  let self := set_crash_timer (get_ticks pg) self in
  let impact_speed := Py.hypot (vx self) (vy self) in
  set_report
    (Some [("CAUSE:", Str reason);
           ("impact_speed", Num (Py.round impact_speed 2));
           ("impact_angle", Num (Py.round (angle self) 1))]%string)
    self.

(** The older risk score: the speed is [sqrt(vy**2 + vx**2)]. *)
Definition ratio_sum (slope : R) (self : Lander) : result R :=
  let vel_abs := sqrt (vy self ^ 2 + vx self ^ 2) in
  let angle_diff := Py.fmod (slope - angle self + 180) 360 - 180 in
  vel_ratio <- vel_abs /? LAND_DAMAGE_SPEED cfg ;;
  angle_ratio <- Rabs angle_diff /? MAX_LANDING_ANGLE cfg ;;
  Ok (vel_ratio + angle_ratio).

(** The older [Lander.collision_check]: the rock test is an argument, and
    the structural-damage crash asks for a risk score below 1. *)
Definition collision_check (pg : Pygame) (keys : Keys) (terrain : Terrain)
    (offset_x : R) (rock_hit special_hit : bool) (self : Lander)
    : result Lander :=
  if rock_hit then Ok (_crash pg "CRASHED INTO ROCKS" self)
  else
    let orig_vy := vy self in
    let abs_vy := Rabs orig_vy in
    slope <- compute_surface_slope cfg terrain self ;;
    let self := set__contact_slope (Some slope) self in
    let world_x0 := IZR (rect_left pg) + offset_x in
    let world_y0 := rect_top pg in
    match overlap pg with
    | None =>
        if is_some (_contact_screen self) && K_UP keys then
          Ok (set__contact_screen None self)
        else Ok self
    | Some (cx_mask, cy_mask) =>
        if negb (is_some (_contact_screen self)) then
          let screen_x := Py.int (world_x0 - offset_x + IZR cx_mask) in
          let screen_y := (world_y0 + cy_mask)%Z in
          let self := set__contact_screen (Some (screen_x, screen_y)) self in
          ratio <- ratio_sum slope self ;;
          if ratio >? 0.25 then
            let damage_amount := ratio * 100 in
            let self :=
              set_damage (Rmin (damage self + damage_amount) 100) self in
            if (damage self >=? 100) && (ratio <? 1) then
              Ok (_crash pg "STRUCTURAL DAMAGE" self)
            else if ratio >? 1.5 then Ok (_crash pg "HARD LANDING" self)
            else Ok self
          else
            let self :=
              set_report (Some [("landing_speed", Num abs_vy)]%string) self in
            if special_hit then
              let self := set_science (science self + 10) self in
              let self := set_report (Some (or_empty (report self))) self in
              Ok (set_report
                    (Some (dict_set (or_empty (report self)) "sample"
                             (Str "cool rock")))
                    self)
            else Ok self
        else Ok self
    end.

(** The main engine of the older [update_physics] in flight.  The older
    lander keeps [engine_out] as a number, 1 while the engine works and 0
    once the start-up limit is reached, and multiplies the thrust by it; the
    number is carried next to the lander record, whose boolean [engine_out]
    is not read here. *)
Definition main_engine (keys : Keys) (dt_sim ax0 ay0 : R) (engine_out : Z)
    (self : Lander) : result (Lander * Z * (R * R)) :=
  if K_UP keys && (fuel self >? 0) then
    let '(self, engine_out) :=
      if negb (engine_on self) then
        let self :=
          set_engine_startup_count (engine_startup_count self + 1) self in
        if (engine_startup_count self >=? ENGINE_STARTUP_LIMIT cfg)%Z then
          let self :=
            set_report (Some [("ENGINE FAILURE", Str "START_UP")]%string)
              self in
          (set_engine_on false self, 0%Z)
        else (set_engine_on true self, engine_out)
      else (self, engine_out) in
    let thrust := MAX_THRUST cfg * IZR engine_out in
    let mass := DRY_MASS cfg + fuel self in
    mflow <- thrust /? (ISP cfg * G0_MOON cfg) ;;
    let fuel_used := mflow * dt_sim in
    let self := set_fuel (Rmax (fuel self - fuel_used) 0) self in
    let rad := Py.radians (angle self) in
    acc <- thrust /? mass ;;
    Ok (self, engine_out, (ax0 + acc * - sin rad, ay0 + acc * - cos rad))
  else Ok (set_engine_on false self, engine_out, (ax0, ay0)).

(** [compute_altitude] of [systems/physics.py]; [rect_bottom] is the
    bottom edge of the rotated sprite's rectangle, from pygame. *)
Definition compute_altitude (rect_bottom : Z) (lander : Lander)
    (terrain : Terrain) : result R :=
  idx <- floordiv (x lander + IZR (img_w lander) / 2) (IZR (PIXEL_SIZE cfg)) ;;
  if ((0 <=? idx) && (idx <? Py.len (topo terrain)))%Z then
    ground_y <- getitem (topo terrain) idx ;;
    let alt_px := Z.max 0 (ground_y - rect_bottom) in
    IZR alt_px /? px_per_m lander
  else Ok 0.

(** The older lift-off from the ground ([update_physics], the branch of
    the thrust key under a contact point): it stops a descending lander
    first, keeps gravity in the acceleration, fires at full thrust and takes
    the mass before the burn.  It does not read [engine_out]. *)
Definition lift_off (dt_sim : R) (self : Lander) : result Lander :=
  let self :=
    if vy self >? 0 then set_vx 0 (set_vy 0 self) else self in
  let ax0 := 0 in
  let ay0 := G0_MOON cfg in
  let self := set_landed false self in
  let self := set_engine_on true self in
  let thrust := MAX_THRUST cfg in
  let mass := DRY_MASS cfg + fuel self in
  mflow <- thrust /? (ISP cfg * G0_MOON cfg) ;;
  let fuel_used := mflow * dt_sim in
  let self := set_fuel (Rmax (fuel self - fuel_used) 0) self in
  let rad := Py.radians (angle self) in
  acc <- thrust /? mass ;;
  let ax1 := ax0 + acc * - sin rad in
  let ay1 := ay0 + acc * - cos rad in
  let self := set_ay ay1 (set_ax ax1 self) in
  let self := set_vx (vx self + ax1 * dt_sim) self in
  let self := set_vy (vy self + ay1 * dt_sim) self in
  let self := set_gforce (Py.hypot ax1 ay1 / 9.81) self in
  let self := set_x (x self + vx self * dt_sim * px_per_m self) self in
  Ok (set_y (y self + vy self * dt_sim * px_per_m self) self).

(** The older ground branch of [update_physics]: a contact point is set and
    the lander has not crashed.  Its pivot and its settlement are, line for
    line, those of the newer lander. *)
Definition on_ground (keys : Keys) (dt_sim : R) (terrain : Terrain)
    (self : Lander) : result Lander :=
  target_slope <- compute_surface_slope cfg terrain self ;;
  let rotation_step := ROTATION_SPEED cfg * dt_sim in
  let angle_diff := Py.fmod (target_slope - angle self + 180) 360 - 180 in
  let self := set_angular_velocity 0 self in
  let self := set_engine_on false self in
  if K_UP keys && (fuel self >? 0) then lift_off dt_sim self
  else if Rabs angle_diff >=? rotation_step then pivot cfg dt_sim self
  else Ok (settled target_slope self).

End Legacy.
End Legacy.

(** ** The angle on IEEE doubles

    Python's floats are IEEE doubles, Rocq's primitive [float]s.  The lines
    of [Lander.update_physics] that write the angle in flight, once more,
    with every operation rounded as Python rounds it. *)

Module Binary64.
Import PrimFloat SpecFloat.

(** C's [fmod], which CPython calls: [x - n * y] for the integer [n] that
    is [x / y] truncated, computed without rounding, with the sign of
    [x]. *)
Definition fmod (x y : float) : float :=
  match FloatOps.Prim2SF x, FloatOps.Prim2SF y with
  | S754_nan, _ | _, S754_nan => nan
  | S754_infinity _, _ => nan
  | _, S754_zero _ => nan
  | S754_zero _, _ => x
  | S754_finite _ _ _, S754_infinity _ => x
  | S754_finite sx mx ex, S754_finite _ my ey =>
      let e := Z.min ex ey in
      let r :=
        Z.rem (Z.shiftl (Zpos mx) (ex - e)) (Z.shiftl (Zpos my) (ey - e)) in
      FloatOps.SF2Prim
        (binary_normalize FloatOps.prec FloatOps.emax (cond_Zopp sx r) e sx)
  end.

(** [v % w] on floats (CPython's [float_rem]): [ZeroDivisionError] on a
    zero modulus; else the [fmod], to which the modulus is added, in
    floating point, when it is not zero and its sign is not the
    modulus'. *)
Definition modulo (v w : float) : result float :=
  if (w =? 0)%float then Raise ZeroDivisionError
  else
    let m := fmod v w in
    if negb (m =? 0)%float then
      Ok (if xorb (w <? 0)%float (m <? 0)%float then (m + w)%float else m)
    else Ok (if (w <? 0)%float then (-0)%float else 0%float).

(** [a / b] on floats. *)
Definition truediv (a b : float) : result float :=
  if (b =? 0)%float then Raise ZeroDivisionError else Ok (a / b)%float.

(** The rotational dynamics of [Lander.update_physics] on doubles: from
    the battery charge after the life-support lines, the landed flag, the
    angle and the angular velocity to the new angular velocity and the
    new angle. *)
Definition rotational_dynamics (ROTATION_TORQUE ANGULAR_INERTIA : float)
    (keys : Keys) (dt_sim battery : float) (landed : bool)
    (angle angular_velocity : float) : result (float * float) :=
  let has_power := (0 <? battery)%float in
  angular_velocity <-
    (if has_power && negb landed then
       let net_torque := 0%float in
       let net_torque :=
         if K_LEFT keys then (net_torque + ROTATION_TORQUE)%float
         else net_torque in
       let net_torque :=
         if K_RIGHT keys then (net_torque - ROTATION_TORQUE)%float
         else net_torque in
       angular_accel <- truediv net_torque ANGULAR_INERTIA ;;
       Ok (angular_velocity + angular_accel * dt_sim)%float
     else Ok angular_velocity) ;;
  angle <- modulo (angle + angular_velocity * dt_sim)%float 360 ;;
  Ok (angular_velocity, angle).

(** The negative powers of two from [-2^-45] down to the smallest double,
    [-2^-1074]. *)
Definition tiny_steps : list float :=
  map (fun k => FloatOps.Z.ldexp (-1)%float (- Z.of_nat k)) (seq 45 1030).

End Binary64.

(** ** The crash animation ([Lander.tick_crash_anim], [Lander.draw_crash]) *)

(** [Lander.tick_crash_anim]; [FRAME_DELAY_MS] is the constant of
    [config.py] (250 ms), and the clock is pygame's. *)
Definition tick_crash_anim (FRAME_DELAY_MS : Z) (pg : Pygame)
    (self : Lander) : Lander :=
  if negb (crash_anim self) then self
  else
    let now := get_ticks pg in
    if (now - crash_timer self >=? FRAME_DELAY_MS)%Z then
      let self := set_crash_timer now self in
      let self := set_crash_index (crash_index self + 1) self in
      if (crash_index self >=? crash_frames self)%Z then
        let self := set_crash_anim false self in
        set_crash_index (crash_frames self - 1) self
      else self
    else self.

(** The list [self.crash_frames], each frame named by its position. *)
Definition frame_numbers (self : Lander) : list Z :=
  List.map Z.of_nat (seq 0 (Z.to_nat (crash_frames self))).

(** [Lander.draw_crash]: the frame it blits. *)
Definition draw_crash (self : Lander) : result Z :=
  let idx := Z.min (crash_index self) (Py.len (frame_numbers self) - 1) in
  getitem (frame_numbers self) idx.

(** The lander after the ticks of a sequence of frames, given the clock
    of each. *)
Definition crash_animation (FRAME_DELAY_MS : Z) (clock : list Pygame)
    (self : Lander) : Lander :=
  fold_left (fun s pg => tick_crash_anim FRAME_DELAY_MS pg s) clock self.

(** ** The rock sensor ([RockSensor]) *)

(** A rock as the sensor reads it: a Python [dict] with string keys whose
    values are numbers, strings or [None] (here [None : option value]). *)
Definition Rock : Type := list (string * option value).

(** [rock[k]], or nothing when the key is absent ([k in rock] is false). *)
Fixpoint rock_item (rock : Rock) (k : string) : option (option value) :=
  match rock with
  | [] => None
  | (k', v) :: rest => if String.eqb k' k then Some v else rock_item rest k
  end.

(** [rock.get(k, default)] *)
Definition rock_get (rock : Rock) (k : string) (default : option value)
    : option value :=
  match rock_item rock k with
  | Some v => v
  | None => default
  end.

(** [rock[k] = v] *)
Fixpoint rock_set (rock : Rock) (k : string) (v : option value) : Rock :=
  match rock with
  | [] => [(k, v)]
  | (k', v') :: rest =>
      if String.eqb k' k then (k', v) :: rest
      else (k', v') :: rock_set rest k v
  end.

(** A value of a rock in float arithmetic or compared with a float: a
    string or [None] there raises [TypeError]. *)
Definition as_float (v : option value) : result R :=
  match v with
  | Some (Num a) => Ok a
  | _ => Raise TypeError
  end.

(** [RockSensor._to_pixels] *)
Definition _to_pixels (self : Lander) (radius_m : R) : R :=
  radius_m * px_per_m self.

(** The body of the loop of [rocks_near_x]: the entry appended to [found]
    for a rock, if any ([rock_info] is a copy of the rock). *)
Definition sense_rock (self : Lander) (x_world tol_pixels : R) (rock : Rock)
    : result (option Rock) :=
  let rock_x := rock_get rock "x" (Some (Num 0)) in
  match rock_x with
  | None => Ok None
  | Some _ =>
      radius_px <-
        match rock_item rock "radius_m" with
        | Some radius_m =>
            r <- as_float radius_m ;; Ok (Some (Num (_to_pixels self r)))
        | None => Ok (rock_get rock "radius" (Some (Num 0)))
        end ;;
      rock_x <- as_float rock_x ;;
      let dx := Rabs (rock_x - x_world) in
      radius_px <- as_float radius_px ;;
      if dx <=? radius_px + tol_pixels then
        let base_y := snd (base_coords self) in
        rock_y <- as_float (rock_get rock "y" (Some (Num 0))) ;;
        let dy := rock_y - base_y in
        let dist_pixels := Py.hypot dx dy in
        dist_m <- dist_pixels /? px_per_m self ;;
        let rock_info := rock in
        Ok (Some (rock_set rock_info "distance_m" (Some (Num dist_m))))
      else Ok None
  end.

(** The loop of [rocks_near_x] over the rocks, appending to [found]. *)
Fixpoint sense_rocks (self : Lander) (x_world tol_pixels : R)
    (rocks found : list Rock) : result (list Rock) :=
  match rocks with
  | [] => Ok found
  | rock :: rest =>
      entry <- sense_rock self x_world tol_pixels rock ;;
      sense_rocks self x_world tol_pixels rest
        match entry with
        | Some rock_info => found ++ [rock_info]
        | None => found
        end
  end.

(** [RockSensor.rocks_near_x] *)
Definition rocks_near_x (self : Lander) (rocks : option (list Rock))
    (x_world : option R) (horizontal_tol_m : R) : result (list Rock) :=
  match rocks with
  | None => Ok []
  | Some rocks =>
      let x_world :=
        match x_world with
        | None => fst (base_coords self)
        | Some x_world => x_world
        end in
      let tol_pixels := horizontal_tol_m * px_per_m self in
      sense_rocks self x_world tol_pixels rocks []
  end.

(** The sort key of [nearest_rock], [r.get("distance_m", float("inf"))]. *)
Inductive distance : Type :=
| Metres (d : R)
| Infinity.

(** A key that is not a number makes the comparisons of [min], or the
    comparison with [max_distance_m] after it, raise [TypeError]. *)
Definition distance_key (r : Rock) : result distance :=
  match rock_item r "distance_m" with
  | None => Ok Infinity
  | Some v => d <- as_float v ;; Ok (Metres d)
  end.

Definition distance_ltb (a b : distance) : bool :=
  match a, b with
  | Metres x, Metres y => x <? y
  | Metres _, Infinity => true
  | Infinity, _ => false
  end.

(** [min(rocks, key=...)] from the second rock on: the first of the rocks
    with the smallest key, and its key. *)
Fixpoint min_by_distance (best : Rock * distance) (rocks : list Rock)
    : result (Rock * distance) :=
  match rocks with
  | [] => Ok best
  | r :: rest =>
      k <- distance_key r ;;
      min_by_distance (if distance_ltb k (snd best) then (r, k) else best)
        rest
  end.

(** [RockSensor.nearest_rock] *)
Definition nearest_rock (self : Lander) (rocks : option (list Rock))
    (x_world : option R) (max_distance_m : R) : result (option Rock) :=
  rocks <- rocks_near_x self rocks x_world max_distance_m ;;
  match rocks with
  | [] => Ok None
  | first :: rest =>
      k <- distance_key first ;;
      best <- min_by_distance (first, k) rest ;;
      let nearest := fst best in
      k <- distance_key nearest ;;
      match k with
      | Metres d => if d <=? max_distance_m then Ok (Some nearest) else Ok None
      | Infinity => Ok None
      end
  end.

(** [RockSensor.rock_in_path] *)
Definition rock_in_path (self : Lander) (rocks : option (list Rock))
    (x_world : option R) (max_distance_m : R) : result bool :=
  nearest <- nearest_rock self rocks x_world max_distance_m ;;
  Ok (is_some nearest).

(** A rock with a numeric position and size: [x], [y] and [radius_m]. *)
Definition plain_rock (rock : Rock) (x0 y0 radius_m : R) : Prop :=
  rock_item rock "x" = Some (Some (Num x0)) /\
  rock_item rock "y" = Some (Some (Num y0)) /\
  rock_item rock "radius_m" = Some (Some (Num radius_m)).

(** The distance the sensor has recorded in an entry. *)
Definition recorded_distance (rock : Rock) (d : R) : Prop :=
  rock_item rock "distance_m" = Some (Some (Num d)).

(** The entry the sensor makes for a rock at [(x0, y0)], read from
    [x_world]: the rock with its straight-line distance to the lander's
    base, in metres. *)
Definition sensed (self : Lander) (x_world : R) (rock : Rock) (x0 y0 : R)
    : Rock :=
  rock_set rock "distance_m"
    (Some (Num (Py.hypot (Rabs (x0 - x_world)) (y0 - snd (base_coords self))
                / px_per_m self))).

(** ** The status line ([determine_status] of [main.py]) *)

(** The status line of the HUD.  The sounds it starts and stops are
    pygame's.  The function reads a name [special_hit] that it does not
    define; the read stands behind [lander.landed and], which is false
    there, so it is never evaluated, and the model takes it as an
    argument. *)
Definition determine_status (cfg : Config) (special_hit : bool)
    (lander : Lander) (alt_m : R) : result string :=
  let status_msg := ""%string in
  if landed lander then Ok "LANDED SUCCESSFULLY!"%string
  else if crashed lander then Ok "*** CRASHED ***"%string
  else
    let status_msg :=
      if (fuel lander <? 200) && negb (crashed lander)
      then "**WARNING**: LOW FUEL!"%string
      else status_msg in
    let mass := DRY_MASS cfg + fuel lander in
    q <- MAX_THRUST cfg /? mass ;;
    let max_acc := q - G0_MOON cfg in
    (* [stop_dist]: [None] is [float('inf')] *)
    stop_dist <-
      (if max_acc <=? 0 then Ok None
       else d <- vy lander ^ 2 /? (2 * max_acc) ;; Ok (Some d)) ;;
    let buffer := 5 in
    let within_stop_dist :=
      match stop_dist with
      | None => true
      | Some d => alt_m <=? d + buffer
      end in
    let status_msg :=
      if (alt_m >? buffer) && within_stop_dist && (vy lander >? 0)
      then "**WARNING**: BRAKING DISTANCE!"%string
      else status_msg in
    let status_msg :=
      if (alt_m <? 5) && negb (landed lander) && (vy lander >? 2)
      then "**WARNING**: LOW ALT!"%string
      else status_msg in
    let status_msg :=
      if damage lander >? 75
      then "**WARNING**: STRUCTURAL DAMAGE!"%string
      else status_msg in
    let status_msg :=
      if engine_out lander
      then "**WARNING**: ENGINE OUT!"%string
      else status_msg in
    let status_msg :=
      if landed lander && special_hit && negb (crashed lander)
      then "COLLECTED COOL ROCK!!"%string
      else status_msg in
    Ok status_msg.

(** The test of the braking-distance warning: descending more than
    [buffer = 5] metres up, with full thrust no longer able to stop the
    descent above the buffer (or not able to decelerate at all). *)
Definition braking_late (cfg : Config) (lander : Lander) (alt_m : R) : Prop :=
  let max_acc := MAX_THRUST cfg / (DRY_MASS cfg + fuel lander) - G0_MOON cfg in
  5 < alt_m /\ 0 < vy lander /\
  (max_acc <= 0 \/ alt_m <= vy lander ^ 2 / (2 * max_acc) + 5).

(** ** Reading a lander's report *)

(** [self.report[k]], when there is a report and it has the key. *)
Definition report_get (k : string) (self : Lander) : option value :=
  match report self with
  | Some d => dict_get d k
  | None => None
  end.

(** The cause of a crash, as the report gives it. *)
Definition crashed_with (reason : string) (self : Lander) : Prop :=
  crashed self = true /\ report_get "CAUSE:" self = Some (Str reason).

(** ** The resource limits *)

(** Oxygen, battery, fuel and damage within their configured ranges. *)
Definition within_limits (cfg : Config) (self : Lander) : Prop :=
  0 <= oxygen self <= MAX_OXYGEN cfg /\
  0 <= battery self <= MAX_BATTERY cfg /\
  0 <= fuel self <= FUEL_START cfg /\
  0 <= damage self <= 100.

(** ** Runs of the simulation *)

(** One call on the lander: a step of physics over a time that is not
    negative, a drawing, or a collision check. *)
Inductive step (cfg : Config) : Lander -> Lander -> Prop :=
| step_physics (keys : Keys) (dt : R) (terrain : Terrain) (self self' : Lander) :
    0 <= dt ->
    update_physics cfg keys dt terrain self = Ok self' ->
    step cfg self self'
| step_draw (offset : R) (self : Lander) :
    step cfg self (draw offset self)
| step_collision (pg : Pygame) (keys : Keys) (terrain : Terrain)
    (offset_x : R) (special_hit : bool) (self self' : Lander) :
    collision_check cfg pg keys terrain offset_x special_hit self = Ok self' ->
    step cfg self self'.

(** Any finite sequence of such calls; the frames of the main loop are
    sequences of this kind. *)
Inductive reachable (cfg : Config) (self : Lander) : Lander -> Prop :=
| reach_here : reachable cfg self self
| reach_step (mid self' : Lander) :
    reachable cfg self mid -> step cfg mid self' -> reachable cfg self self'.

(** The frames of a session: the simulation step of the main loop,
    repeated, each over a time that is not negative. *)
Inductive played (cfg : Config) (self : Lander) : Lander -> Prop :=
| played_none : played cfg self self
| played_frame (keys : Keys) (dt : R) (terrain : Terrain) (pg : Pygame)
    (special_hit : bool) (mid self' : Lander) :
    played cfg self mid ->
    0 <= dt ->
    frame cfg keys dt terrain pg special_hit mid = Ok self' ->
    played cfg self self'.

(** ** States of the lander *)

(** The start-up counter of a working engine is below the limit, and the
    counter is never above it. *)
Definition startups_bounded (cfg : Config) (self : Lander) : Prop :=
  (engine_out self = false ->
   (engine_startup_count self < ENGINE_STARTUP_LIMIT cfg)%Z) /\
  (engine_startup_count self <= ENGINE_STARTUP_LIMIT cfg)%Z.

(** At rest on the ground: landed, not moving, and lying along the slope
    under the lander. *)
Definition at_rest (cfg : Config) (terrain : Terrain) (self : Lander)
    : Prop :=
  crashed self = false /\
  landed self = true /\
  is_some (_contact_screen self) = true /\
  angular_velocity self = 0 /\
  vx self = 0 /\
  vy self = 0 /\
  exists slope,
    compute_surface_slope cfg terrain self = Ok slope /\
    angle self = Py.fmod slope 360.

(** ** Example data *)

(** Three height samples, one per [PIXEL_SIZE]-wide column. *)
Definition ridge : Terrain := {| topo := [900; 910; 930]%Z |}.

(** A lander with a 64 by 70 pixel sprite (10 pixels per metre), as
    [reset] leaves it under the medium configuration. *)
Definition lander0 : Lander := reset medium (blank 64 70 3 10).

(** The same lander, flown 1000 pixels to the left of the terrain's start. *)
Definition far_left : Lander := set_x (-1000) lander0.

(** Flat ground: 200 columns at height 900. *)
Definition flat : Terrain := {| topo := repeat 900%Z 200 |}.

(** The lander upright over the flat ground, descending at [v] m/s with no
    horizontal speed. *)
Definition descending (v : R) : Lander := set_vy v (set_vx 0 lander0).

(** The example lander after four starts of its engine. *)
Definition worn : Lander := set_engine_startup_count 4 lander0.

(** The example lander at rest and upright on the flat ground, which it
    touches at the screen point (532, 899). *)
Definition grounded : Lander :=
  set__contact_screen (Some (532, 899)%Z) (descending 0).

(** The example lander on its side, with the contact point recorded on its
    gravity centre. *)
Definition wedged : Lander :=
  set_angle 90
    (set__gravity_center (532, 285)%Z
       (set__contact_screen (Some (532, 285)%Z) (descending 0))).

(** A frame in which the sprite overlaps a rock. *)
Definition rock : Pygame :=
  {| rock_hit := true; rect_left := 500; rect_top := 250;
     overlap := None; get_ticks := 1000 |}.

(** A frame in which the sprite touches the terrain at the pixel (32, 69) of
    its mask and no rock. *)
Definition touch : Pygame :=
  {| rock_hit := false; rect_left := 500; rect_top := 830;
     overlap := Some (32, 69)%Z; get_ticks := 1000 |}.

(** The example lander landed and at rest on the flat ground. *)
Definition resting : Lander := set_landed true grounded.

(** The example lander on the ground with a failed engine. *)
Definition stranded : Lander := set_engine_out true grounded.

(** The example lander after a crash into a rock. *)
Definition wreck : Lander := _crash rock "CRASHED INTO ROCKS" lander0.

(** Two rocks level with the example lander's base (at (532, 291)), 20 and
    400 pixels to its right. *)
Definition pebble : Rock :=
  [("x", Some (Num 552)); ("y", Some (Num 291)); ("radius_m", Some (Num 1))]
  %string.

Definition boulder : Rock :=
  [("x", Some (Num 932)); ("y", Some (Num 291)); ("radius_m", Some (Num 3))]
  %string.

(** * Properties *)

(** ** Numerics *)

Lemma Rltb_true (a b : R) : (a <? b) = true <-> a < b.
Proof. unfold Py.Rltb. destruct (Rlt_dec a b); split; intros; try easy. Qed.

Lemma Rltb_false (a b : R) : (a <? b) = false <-> b <= a.
Proof.
  unfold Py.Rltb. destruct (Rlt_dec a b); split; intros; try easy; lra.
Qed.

Lemma Rleb_true (a b : R) : (a <=? b) = true <-> a <= b.
Proof. unfold Py.Rleb. destruct (Rle_dec a b); split; intros; try easy. Qed.

Lemma Rleb_false (a b : R) : (a <=? b) = false <-> b < a.
Proof.
  unfold Py.Rleb. destruct (Rle_dec a b); split; intros; try easy; lra.
Qed.

Lemma Rltb_spec (a b : R) : BoolSpec (a < b) (b <= a) (a <? b).
Proof.
  unfold Py.Rltb. destruct (Rlt_dec a b); constructor; lra.
Qed.

Lemma Rleb_spec (a b : R) : BoolSpec (a <= b) (b < a) (a <=? b).
Proof.
  unfold Py.Rleb. destruct (Rle_dec a b); constructor; lra.
Qed.

Lemma floor_bounds (a : R) : IZR (Py.floor a) <= a < IZR (Py.floor a) + 1.
Proof. unfold Py.floor. destruct (base_Int_part a). lra. Qed.

Lemma floor_unique (a : R) (z : Z) : IZR z <= a < IZR z + 1 -> Py.floor a = z.
Proof.
  intros H. unfold Py.floor. symmetry. apply Int_part_spec. lra.
Qed.

Lemma floor_IZR (z : Z) : Py.floor (IZR z) = z.
Proof. apply floor_unique. lra. Qed.

Lemma ceil_bounds (a : R) : IZR (Py.ceil a) - 1 < a <= IZR (Py.ceil a).
Proof.
  unfold Py.ceil. rewrite opp_IZR. generalize (floor_bounds (- a)).
  unfold Py.floor. lra.
Qed.

Lemma ceil_unique (a : R) (z : Z) : IZR z - 1 < a <= IZR z -> Py.ceil a = z.
Proof.
  intros H. unfold Py.ceil.
  replace (Int_part (- a)) with (- z)%Z; [lia |].
  apply Int_part_spec. rewrite opp_IZR. lra.
Qed.

Lemma ceil_IZR (z : Z) : Py.ceil (IZR z) = z.
Proof. apply ceil_unique. lra. Qed.


Lemma floor_mono (a b : R) : a <= b -> (Py.floor a <= Py.floor b)%Z.
Proof.
  intros H. apply Z.lt_succ_r, lt_IZR. rewrite succ_IZR.
  generalize (floor_bounds a) (floor_bounds b). lra.
Qed.

Lemma ceil_mono (a b : R) : a <= b -> (Py.ceil a <= Py.ceil b)%Z.
Proof.
  intros H. apply Z.lt_succ_r, lt_IZR. rewrite succ_IZR.
  generalize (ceil_bounds a) (ceil_bounds b). lra.
Qed.

(** Over the reals [a % m] lies in [[0, m)] for a positive modulus. *)
Lemma fmod_range (a m : R) : 0 < m -> 0 <= Py.fmod a m < m.
Proof.
  intros Hm. unfold Py.fmod.
  destruct (floor_bounds (a / m)) as [Hlo Hhi].
  assert (Ha : a = a / m * m) by (field; lra).
  set (q := IZR (Py.floor (a / m))) in *.
  assert (q * m <= a / m * m) by (apply Rmult_le_compat_r; lra).
  assert (a / m * m < (q + 1) * m) by (apply Rmult_lt_compat_r; lra).
  lra.
Qed.

Lemma fmod_small (a m : R) : 0 <= a < m -> Py.fmod a m = a.
Proof.
  intros H. unfold Py.fmod.
  rewrite (floor_unique (a / m) 0).
  - lra.
  - assert (Hm : 0 < m) by lra.
    assert (0 <= a / m) by (apply Rmult_le_pos; [lra | left; now apply Rinv_0_lt_compat]).
    assert (a / m < 1) by (apply (Rmult_lt_reg_r m); [lra |]; field_simplify; lra).
    lra.
Qed.

Lemma int_IZR (z : Z) : Py.int (IZR z) = z.
Proof.
  unfold Py.int. destruct (Rle_dec 0 (IZR z)); [apply floor_IZR | apply ceil_IZR].
Qed.

Lemma Rmax_sub_bounds (f u : R) :
  0 <= u -> 0 <= f -> 0 <= Rmax (f - u) 0 <= f.
Proof. intros Hu Hf. unfold Rmax. destruct (Rle_dec (f - u) 0); lra. Qed.

Lemma hypot_nonneg (a b : R) : 0 <= Py.hypot a b.
Proof. apply sqrt_pos. Qed.

Lemma hypot_0_r (a : R) : Py.hypot a 0 = Rabs a.
Proof.
  unfold Py.hypot. replace (a * a + 0 * 0) with (Rsqr a) by (unfold Rsqr; ring).
  apply sqrt_Rsqr_abs.
Qed.

Lemma hypot_0_l (a : R) : Py.hypot 0 a = Rabs a.
Proof.
  unfold Py.hypot. replace (0 * 0 + a * a) with (Rsqr a) by (unfold Rsqr; ring).
  apply sqrt_Rsqr_abs.
Qed.

Lemma hypot_zero_iff (a b : R) : Py.hypot a b = 0 <-> a = 0 /\ b = 0.
Proof.
  unfold Py.hypot. split.
  - intros H. apply sqrt_eq_0 in H; nra.
  - intros [-> ->]. replace (0 * 0 + 0 * 0) with 0 by ring. apply sqrt_0.
Qed.

Lemma atan2_0_pos (a : R) : 0 < a -> Py.atan2 0 a = 0.
Proof.
  intros H. unfold Py.atan2. destruct (Rlt_dec 0 a); [| lra].
  replace (0 / a) with 0 by (field; lra). apply atan_0.
Qed.

(** Evaluates the closed integer expressions under [IZR]. *)
Ltac eval_IZR :=
  repeat match goal with
    | |- context [IZR ?z] =>
        lazymatch z with
        | Z0 => fail
        | Zpos _ => fail
        | Zneg _ => fail
        | _ => let z' := eval vm_compute in z in
               progress change (IZR z) with (IZR z')
        end
    end.

(** ** The error monad *)

Lemma fdiv_Ok (a b : R) : b <> 0 -> a /? b = Ok (a / b).
Proof. intros H. unfold fdiv. destruct (Req_dec_T b 0); easy. Qed.

Lemma fdiv_Raise (a : R) : a /? 0 = Raise ZeroDivisionError.
Proof. unfold fdiv. destruct (Req_dec_T 0 0); easy. Qed.

Lemma bind_Ok_inv {A B} (r : result A) (k : A -> result B) (b : B) :
  bind r k = Ok b -> exists a, r = Ok a /\ k a = Ok b.
Proof. destruct r; simpl; [eauto | discriminate]. Qed.

Lemma unless_raised_bind {A B} (P : B -> Prop) (r : result A)
    (k : A -> result B) :
  (forall a, r = Ok a -> unless_raised P (k a)) -> unless_raised P (bind r k).
Proof. destruct r; simpl; auto. Qed.

Lemma returns_unless_raised {A} (P : A -> Prop) (r : result A) :
  returns P r -> unless_raised P r.
Proof. destruct r; simpl; tauto. Qed.

(** [l[i]] for an index in range. *)
Lemma getitem_Ok_inv {A} (l : list A) (i : Z) (a : A) :
  (0 <= i)%Z -> getitem l i = Ok a ->
  (i < Py.len l)%Z /\ nth_error l (Z.to_nat i) = Some a.
Proof.
  intros Hi. unfold getitem.
  destruct (Z.ltb_spec i 0); [lia |].
  destruct (Z.ltb_spec i 0); [lia |].
  destruct (nth_error l (Z.to_nat i)) eqn:E; [| discriminate].
  intros [= ->]. split; [| reflexivity].
  assert (Z.to_nat i < List.length l)%nat by (apply nth_error_Some; congruence).
  unfold Py.len. lia.
Qed.

Lemma getitem_in_range {A} (l : list A) (i : Z) :
  (0 <= i < Py.len l)%Z -> exists a, getitem l i = Ok a.
Proof.
  intros Hi. unfold getitem.
  destruct (Z.ltb_spec i 0); [lia |].
  destruct (Z.ltb_spec i 0); [lia |].
  destruct (nth_error l (Z.to_nat i)) eqn:E; [eauto |].
  apply nth_error_None in E. unfold Py.len in Hi. lia.
Qed.

(** ** Tactics for paths through the code *)

(** Splits on the condition of the first conditional of the goal. *)
Ltac split_if :=
  match goal with
  | |- context [if ?c then _ else _] => destruct c eqn:?
  end.

Tactic Notation "split_if_in" hyp(H) :=
  match type of H with
  | context [if ?c then _ else _] => destruct c eqn:?
  end.

(** Takes apart a hypothesis [H : r = Ok a], where [r] is built from
    conditionals, divisions and binds: one goal per path that returns, with
    [a] replaced by the value returned on it. *)
Ltac returned H :=
  repeat first
    [ progress cbn [bind] in H
    | match type of H with
      | Raise _ = Ok _ => discriminate H
      | Ok _ = Ok _ => injection H as H
      | context [fdiv ?a ?b] =>
          unfold fdiv in H at 1; destruct (Req_dec_T b 0)
      | context [if ?c then _ else _] => destruct c eqn:?
      | context [match ?o with Some _ => _ | None => _ end] =>
          destruct o eqn:?
      | context [let '(_, _) := ?p in _] => destruct p eqn:?
      | bind ?r _ = Ok _ => destruct r eqn:?
      end ];
  try subst.

(** Bounds of [Rmax] and [Rmin] expressions, by cases. *)
Ltac minmax :=
  unfold Rmax, Rmin in *; repeat destruct (Rle_dec _ _); try lra.

(** ** Attribute reads after attribute writes *)

(** Reduces the reads of attributes of a lander built by assignments. *)
Ltac attrs :=
  cbn [
img_w img_h crash_frames px_per_m x y world_x world_y vx vy ax ay
      angle angular_velocity fuel oxygen battery temperature damage
      gforce apu_on engine_startup_count engine_out engine_on throttle
      crashed landed crash_anim crash_index crash_timer report science
      _gravity_center _contact_screen _contact_slope set_x set_y
      set_world_x set_world_y set_vx set_vy set_ax set_ay set_angle
      set_angular_velocity set_fuel set_oxygen set_battery
      set_temperature set_damage set_gforce set_apu_on
      set_engine_startup_count set_engine_out set_engine_on set_throttle
      set_crashed set_landed set_crash_anim set_crash_index
      set_crash_timer set_report set_science set__gravity_center
      set__contact_screen set__contact_slope ] in *.

(** ** The terrain height query *)

Section TerrainHeight.

Variable cfg : Config.
Variable terrain : Terrain.
Hypothesis HPIXEL : (0 < PIXEL_SIZE cfg)%Z.

Let P : R := IZR (PIXEL_SIZE cfg).
Let last : Z := (Py.len (topo terrain) - 1)%Z.

Lemma pixel_step_pos : 0 < P.
Proof. unfold P. now apply IZR_lt. Qed.

(** The query, once the two clamped indices and their samples are known. *)
Lemma terrain_height_at_unfold (x0 : R) (l r a b : Z) :
  Z.max 0 (Z.min (Py.floor (x0 / P)) last) = l ->
  Z.max 0 (Z.min (Py.ceil (x0 / P)) last) = r ->
  getitem (topo terrain) l = Ok a ->
  getitem (topo terrain) r = Ok b ->
  _terrain_height_at cfg terrain x0 =
    if (l =? r)%Z then Ok (IZR a)
    else Ok (IZR a * (1 - (x0 / P - IZR l)) + IZR b * (x0 / P - IZR l)).
Proof.
  intros Hl Hr Ha Hb. unfold _terrain_height_at.
  rewrite fdiv_Ok by (generalize pixel_step_pos; unfold P; lra).
  cbn [bind]. fold P last. rewrite Hl, Hr, Ha, Hb. reflexivity.
Qed.

Lemma height_at_sample (i v : Z) :
  (0 <= i)%Z -> getitem (topo terrain) i = Ok v ->
  _terrain_height_at cfg terrain (IZR i * P) = Ok (IZR v).
Proof.
  intros Hi Hv. destruct (getitem_Ok_inv _ _ _ Hi Hv) as [Hlen _].
  assert (Hq : IZR i * P / P = IZR i) by (field; generalize pixel_step_pos; lra).
  rewrite (terrain_height_at_unfold _ i i v v); rewrite ?Hq, ?floor_IZR, ?ceil_IZR;
    unfold last; try lia; try assumption.
  now rewrite Z.eqb_refl.
Qed.

Lemma height_at_between (x0 : R) (i v w : Z) :
  (0 <= i)%Z ->
  getitem (topo terrain) i = Ok v ->
  getitem (topo terrain) (i + 1) = Ok w ->
  IZR i * P <= x0 <= IZR (i + 1) * P ->
  _terrain_height_at cfg terrain x0 =
    Ok (IZR v * (1 - (x0 / P - IZR i)) + IZR w * (x0 / P - IZR i)).
Proof.
  intros Hi Hv Hw [Hlo Hhi].
  destruct (getitem_Ok_inv _ _ _ Hi Hv) as [Hlen _].
  assert (Hi' : (0 <= i + 1)%Z) by lia.
  destruct (getitem_Ok_inv _ _ _ Hi' Hw) as [Hlen' _].
  pose proof pixel_step_pos as HP. rewrite plus_IZR in Hhi.
  assert (Hq1 : IZR i <= x0 / P).
  { apply (Rmult_le_reg_r P); [assumption |]. field_simplify; lra. }
  assert (Hq2 : x0 / P <= IZR i + 1).
  { apply (Rmult_le_reg_r P); [assumption |]. field_simplify; lra. }
  destruct (Req_dec_T (x0 / P) (IZR i)) as [E | NE];
    [| destruct (Req_dec_T (x0 / P) (IZR i + 1)) as [E' | NE']].
  - (* on the left sample *)
    rewrite (terrain_height_at_unfold _ i i v v);
      rewrite ?E, ?floor_IZR, ?ceil_IZR; unfold last; try lia; try assumption.
    rewrite Z.eqb_refl. f_equal. ring.
  - (* on the right sample *)
    rewrite <- plus_IZR in E'.
    rewrite (terrain_height_at_unfold _ (i + 1) (i + 1) w w);
      rewrite ?E', ?floor_IZR, ?ceil_IZR; unfold last; try lia; try assumption.
    rewrite Z.eqb_refl. f_equal. rewrite plus_IZR. ring.
  - (* strictly between the two *)
    assert (Hf : Py.floor (x0 / P) = i) by (apply floor_unique; lra).
    assert (Hc : Py.ceil (x0 / P) = (i + 1)%Z)
      by (apply ceil_unique; rewrite plus_IZR; lra).
    rewrite (terrain_height_at_unfold _ i (i + 1) v w);
      rewrite ?Hf, ?Hc; unfold last; try lia; try assumption.
    destruct (Z.eqb_spec i (i + 1)); [lia | reflexivity].
Qed.

Lemma height_at_midpoint (i v w : Z) :
  (0 <= i)%Z ->
  getitem (topo terrain) i = Ok v ->
  getitem (topo terrain) (i + 1) = Ok w ->
  _terrain_height_at cfg terrain ((IZR i + 1 / 2) * P) =
    Ok ((IZR v + IZR w) / 2).
Proof.
  intros Hi Hv Hw. pose proof pixel_step_pos as HP.
  rewrite (height_at_between _ i v w Hi Hv Hw).
  - f_equal. field. lra.
  - rewrite plus_IZR. split; nra.
Qed.

Lemma height_at_below (x0 : R) (v : Z) :
  x0 <= 0 -> getitem (topo terrain) 0 = Ok v ->
  _terrain_height_at cfg terrain x0 = Ok (IZR v).
Proof.
  intros Hx Hv. pose proof pixel_step_pos as HP.
  destruct (getitem_Ok_inv _ _ _ (Z.le_refl 0) Hv) as [Hlen _].
  assert (Hq : x0 / P <= 0).
  { apply (Rmult_le_reg_r P); [assumption |]. field_simplify; lra. }
  pose proof (floor_mono _ _ Hq) as Hf. pose proof (ceil_mono _ _ Hq) as Hc.
  change 0 with (IZR 0) in Hf, Hc. rewrite floor_IZR in Hf. rewrite ceil_IZR in Hc.
  rewrite (terrain_height_at_unfold _ 0 0 v v); unfold last; try lia; try assumption.
  reflexivity.
Qed.

Lemma height_at_above (x0 : R) (v : Z) :
  IZR last * P <= x0 -> getitem (topo terrain) last = Ok v ->
  _terrain_height_at cfg terrain x0 = Ok (IZR v).
Proof.
  intros Hx Hv. pose proof pixel_step_pos as HP.
  assert (Hlast : (0 <= last)%Z).
  { destruct (Z.le_gt_cases 0 last) as [H | H]; [assumption | exfalso].
    revert Hv. unfold getitem. fold last.
    destruct (Z.ltb_spec last 0); [| lia].
    replace (last + Py.len (topo terrain))%Z with (2 * last + 1)%Z
      by (unfold last; lia).
    destruct (Z.ltb_spec (2 * last + 1) 0); [discriminate | lia]. }
  assert (Hq : IZR last <= x0 / P).
  { apply (Rmult_le_reg_r P); [assumption |]. field_simplify; lra. }
  pose proof (floor_mono _ _ Hq) as Hf. pose proof (ceil_mono _ _ Hq) as Hc.
  rewrite floor_IZR in Hf. rewrite ceil_IZR in Hc.
  rewrite (terrain_height_at_unfold _ last last v v); try lia; try assumption.
  now rewrite Z.eqb_refl.
Qed.

End TerrainHeight.

(** C7.  The terrain height query [_terrain_height_at] interpolates linearly
    between the two samples that bracket [x], and clamps at the edges:
    between samples [i] and [i + 1] it returns their linear interpolation;
    at a sample index it returns that sample's value; at the midpoint of two
    adjacent samples it returns their arithmetic mean; at or below the first
    sample it returns the first value and at or above the last sample the
    last value. *)
Theorem terrain_height_query (cfg : Config) (terrain : Terrain) :
  (0 < PIXEL_SIZE cfg)%Z ->
  let P := IZR (PIXEL_SIZE cfg) in
  let last := (Py.len (topo terrain) - 1)%Z in
  (forall x0 i v w,
      (0 <= i)%Z ->
      getitem (topo terrain) i = Ok v ->
      getitem (topo terrain) (i + 1) = Ok w ->
      IZR i * P <= x0 <= IZR (i + 1) * P ->
      _terrain_height_at cfg terrain x0 =
        Ok (IZR v * (1 - (x0 / P - IZR i)) + IZR w * (x0 / P - IZR i))) /\
  (forall i v,
      (0 <= i)%Z ->
      getitem (topo terrain) i = Ok v ->
      _terrain_height_at cfg terrain (IZR i * P) = Ok (IZR v)) /\
  (forall i v w,
      (0 <= i)%Z ->
      getitem (topo terrain) i = Ok v ->
      getitem (topo terrain) (i + 1) = Ok w ->
      _terrain_height_at cfg terrain ((IZR i + 1 / 2) * P) =
        Ok ((IZR v + IZR w) / 2)) /\
  (forall x0 v,
      x0 <= 0 ->
      getitem (topo terrain) 0 = Ok v ->
      _terrain_height_at cfg terrain x0 = Ok (IZR v)) /\
  (forall x0 v,
      IZR last * P <= x0 ->
      getitem (topo terrain) last = Ok v ->
      _terrain_height_at cfg terrain x0 = Ok (IZR v)).
Proof.
  intros HP P last. repeat split; intros.
  - now apply height_at_between.
  - now apply height_at_sample.
  - now apply height_at_midpoint.
  - now apply height_at_below.
  - now apply height_at_above.
Qed.

(** On the three-sample ridge, with 8-pixel columns: at sample 1, halfway
    between samples 1 and 2, a quarter of the way, left of the terrain and
    right of it. *)
Lemma terrain_height_query_witness :
  _terrain_height_at medium ridge 8 = Ok 910 /\
  _terrain_height_at medium ridge 12 = Ok 920 /\
  _terrain_height_at medium ridge 10 = Ok 915 /\
  _terrain_height_at medium ridge (-5) = Ok 900 /\
  _terrain_height_at medium ridge 100 = Ok 930.
Proof.
  destruct (terrain_height_query medium ridge eq_refl)
    as (Hbetween & Hsample & Hmid & Hbelow & Habove).
  repeat split.
  - replace 8 with (IZR 1 * IZR (PIXEL_SIZE medium)) by (simpl; lra).
    apply Hsample; [lia | reflexivity].
  - replace 12 with ((IZR 1 + 1 / 2) * IZR (PIXEL_SIZE medium)) by (simpl; lra).
    replace 920 with ((IZR 910 + IZR 930) / 2) by lra.
    apply Hmid; [lia | reflexivity | reflexivity].
  - rewrite (Hbetween 10 1%Z 910%Z 930%Z);
      [f_equal; simpl; lra | lia | reflexivity | reflexivity | simpl; lra].
  - apply (Hbelow (-5) 900%Z); [lra | reflexivity].
  - apply (Habove 100 930%Z); [simpl; lra | reflexivity].
Defined.

(** ** The altitude queries *)

Section Altitude.

Variable cfg : Config.
Variable terrain : Terrain.
Hypothesis HPIXEL : (0 < PIXEL_SIZE cfg)%Z.
Hypothesis Hsamples : topo terrain <> [].

Let P : R := IZR (PIXEL_SIZE cfg).
Let last : Z := (Py.len (topo terrain) - 1)%Z.

Lemma last_nonneg : (0 <= last)%Z.
Proof.
  unfold last, Py.len. destruct (topo terrain); [congruence | cbn [List.length]; lia].
Qed.

(** With at least one sample the height query never raises. *)
Lemma terrain_height_at_total (x0 : R) :
  exists h, _terrain_height_at cfg terrain x0 = Ok h.
Proof.
  pose proof last_nonneg as Hlast.
  set (l := Z.max 0 (Z.min (Py.floor (x0 / P)) last)).
  set (r := Z.max 0 (Z.min (Py.ceil (x0 / P)) last)).
  destruct (getitem_in_range (topo terrain) l) as [a Ha];
    [unfold l; fold last; lia |].
  destruct (getitem_in_range (topo terrain) r) as [b Hb];
    [unfold r; fold last; lia |].
  rewrite (terrain_height_at_unfold cfg terrain HPIXEL x0 l r a b eq_refl eq_refl Ha Hb).
  destruct (l =? r)%Z; eauto.
Qed.

Variable self : Lander.
Hypothesis Hscale : px_per_m self <> 0.

Let base_x : R := fst (base_coords self).
Let base_y : R := snd (base_coords self).

(** The position read: [base_x + reading_offset], the offset defaulting to
    [base_x]. *)
Let x_read (reading_offset : option R) : R :=
  base_x + match reading_offset with Some r => r | None => base_x end.

Lemma altitude_at_unfold (offset : R) (reading_offset : option R) (h : R) :
  _terrain_height_at cfg terrain (x_read reading_offset) = Ok h ->
  altitude_at cfg self terrain offset reading_offset =
    Ok ((h - base_y) / px_per_m self,
        (x_read reading_offset - offset, h)).
Proof.
  intros Hh. unfold altitude_at, base_coords.
  unfold x_read, base_x, base_y, base_coords in *. cbn [fst snd] in *.
  rewrite Hh. cbn [bind]. rewrite fdiv_Ok by assumption. cbn [bind].
  do 3 f_equal. destruct reading_offset; lra.
Qed.

Lemma altitude_at_total (offset : R) (reading_offset : option R) :
  exists r, altitude_at cfg self terrain offset reading_offset = Ok r.
Proof.
  destruct (terrain_height_at_total (x_read reading_offset)) as [h Hh].
  rewrite (altitude_at_unfold offset reading_offset h Hh). eauto.
Qed.

Lemma altitude_at_left (offset : R) (reading_offset : option R) (v : Z) :
  x_read reading_offset / P < 0 ->
  getitem (topo terrain) 0 = Ok v ->
  altitude_at cfg self terrain offset reading_offset =
    Ok ((IZR v - base_y) / px_per_m self,
        (x_read reading_offset - offset, IZR v)).
Proof.
  intros Hx Hv. apply altitude_at_unfold.
  apply height_at_below; try assumption.
  pose proof (pixel_step_pos cfg HPIXEL) as HP. fold P in HP.
  assert (E : x_read reading_offset = x_read reading_offset / P * P)
    by (field; lra).
  rewrite E. nra.
Qed.

Lemma altitude_at_right (offset : R) (reading_offset : option R) (v : Z) :
  IZR last < x_read reading_offset / P ->
  getitem (topo terrain) last = Ok v ->
  altitude_at cfg self terrain offset reading_offset =
    Ok ((IZR v - base_y) / px_per_m self,
        (x_read reading_offset - offset, IZR v)).
Proof.
  intros Hx Hv. apply altitude_at_unfold.
  apply height_at_above; try assumption. fold last P.
  pose proof (pixel_step_pos cfg HPIXEL) as HP. fold P in HP.
  assert (E : x_read reading_offset = x_read reading_offset / P * P)
    by (field; lra).
  rewrite E. nra.
Qed.

(** The older query gives 0 whenever its column index is out of range. *)
Lemma compute_altitude_out_of_range (rect_bottom : Z) :
  let idx := Py.floor (base_x / P) in
  (idx < 0 \/ Py.len (topo terrain) <= idx)%Z ->
  Legacy.compute_altitude cfg rect_bottom self terrain = Ok 0.
Proof.
  intros idx Hidx. unfold Legacy.compute_altitude, floordiv.
  pose proof (pixel_step_pos cfg HPIXEL) as HP.
  rewrite fdiv_Ok by lra. cbn [bind].
  change (Py.floor _) with idx.
  destruct (Z.leb_spec 0 idx); destruct (Z.ltb_spec idx (Py.len (topo terrain)));
    cbn [andb]; try reflexivity; lia.
Qed.

End Altitude.

(** C8, amended.  Out of range, the surface sensor's [altitude_at] clamps
    to the nearest sample and never raises (for a terrain with at least one
    sample and a non-zero pixel scale): left of the terrain it measures
    against the first sample and right of it against the last one.  The
    older [compute_altitude] does not clamp: for a column index outside the
    height array it returns 0. *)
Theorem out_of_range_altitude (cfg : Config) (terrain : Terrain)
    (self : Lander) (offset : R) (reading_offset : option R) (rect_bottom : Z) :
  (0 < PIXEL_SIZE cfg)%Z ->
  topo terrain <> [] ->
  px_per_m self <> 0 ->
  let P := IZR (PIXEL_SIZE cfg) in
  let last := (Py.len (topo terrain) - 1)%Z in
  let base_x := fst (base_coords self) in
  let base_y := snd (base_coords self) in
  let x_read :=
    base_x + match reading_offset with Some r => r | None => base_x end in
  (exists r, altitude_at cfg self terrain offset reading_offset = Ok r) /\
  (forall v,
      x_read / P < 0 ->
      getitem (topo terrain) 0 = Ok v ->
      altitude_at cfg self terrain offset reading_offset =
        Ok ((IZR v - base_y) / px_per_m self, (x_read - offset, IZR v))) /\
  (forall v,
      IZR last < x_read / P ->
      getitem (topo terrain) last = Ok v ->
      altitude_at cfg self terrain offset reading_offset =
        Ok ((IZR v - base_y) / px_per_m self, (x_read - offset, IZR v))) /\
  ((Py.floor (base_x / P) < 0 \/
    Py.len (topo terrain) <= Py.floor (base_x / P))%Z ->
   Legacy.compute_altitude cfg rect_bottom self terrain = Ok 0).
Proof.
  intros HP Hs Hm P last base_x base_y x_read. repeat split.
  - now apply altitude_at_total.
  - intros v Hx Hv. now apply altitude_at_left.
  - intros v Hx Hv. now apply altitude_at_right.
  - intros Hidx. now apply compute_altitude_out_of_range.
Qed.

(** 1000 pixels left of the ridge: the sensor reads against the first sample
    (900, which is 60.9 m below the base), the older query gives 0. *)
Lemma out_of_range_altitude_witness :
  altitude_at medium far_left ridge 0 (Some 0) = Ok (60.9, (-968, 900)) /\
  Legacy.compute_altitude medium 300 far_left ridge = Ok 0.
Proof.
  assert (Hs : topo ridge <> []) by discriminate.
  assert (Hm : px_per_m far_left <> 0) by (simpl; lra).
  assert (Hf : Py.floor (fst (base_coords far_left) / IZR (PIXEL_SIZE medium))
               = (-121)%Z) by (apply floor_unique; simpl; lra).
  destruct (out_of_range_altitude medium ridge far_left 0 (Some 0) 300
              eq_refl Hs Hm) as (_ & Hleft & _ & Hold).
  split.
  - rewrite (Hleft 900%Z); [| simpl; lra | reflexivity].
    simpl. eval_IZR. repeat f_equal; lra.
  - apply Hold. rewrite Hf. left. lia.
Defined.

(** C8 as stated fails on the older [compute_altitude]: 1000 pixels left of
    the ridge the column index is -121, outside the height array; the
    nearest sample is the first one, 900, which is 60 m under a sprite whose
    bottom edge is at 300; the query returns the sentinel 0. *)
Lemma compute_altitude_sentinel :
  Py.floor ((x far_left + IZR (img_w far_left) / 2) / IZR (PIXEL_SIZE medium))
    = (-121)%Z /\
  getitem (topo ridge) 0 = Ok 900%Z /\
  IZR (Z.max 0 (900 - 300)) / px_per_m far_left = 60 /\
  Legacy.compute_altitude medium 300 far_left ridge = Ok 0.
Proof.
  assert (Hf : Py.floor ((x far_left + IZR (img_w far_left) / 2)
                         / IZR (PIXEL_SIZE medium)) = (-121)%Z)
    by (apply floor_unique; simpl; lra).
  repeat split.
  - exact Hf.
  - simpl. eval_IZR. lra.
  - apply compute_altitude_out_of_range; [reflexivity |].
    unfold base_coords. cbn [fst]. rewrite Hf. left. lia.
Qed.

(** ** First contact *)

(** The report of a crash names its cause. *)
Lemma crashed_with_crash (pg : Pygame) (reason reason' : string)
    (self : Lander) :
  crashed_with reason' (_crash pg reason self) <-> reason' = reason.
Proof.
  unfold crashed_with, report_get. cbn. split.
  - intros [_ H]. congruence.
  - intros ->. split; reflexivity.
Qed.

Lemma not_crashed_with (reason : string) (self : Lander) :
  crashed self = false -> ~ crashed_with reason self.
Proof. intros H [H' _]. congruence. Qed.

Section FirstContact.

Variable cfg : Config.
Variables (pg : Pygame) (keys : Keys) (terrain : Terrain).
Variables (offset_x : R) (special_hit : bool) (self : Lander).
Variables (cx_mask cy_mask : Z) (slope : R).

Hypothesis Hspeed : LAND_DAMAGE_SPEED cfg <> 0.
Hypothesis Hangle : MAX_LANDING_ANGLE cfg <> 0.
Hypothesis Hrock : rock_hit pg = false.
Hypothesis Hoverlap : overlap pg = Some (cx_mask, cy_mask).
Hypothesis Hfirst : _contact_screen self = None.
Hypothesis Hslope : compute_surface_slope cfg terrain self = Ok slope.

(** The risk score of the contact. *)
Let r : R :=
  Py.hypot (vy self) (vx self) / LAND_DAMAGE_SPEED cfg
  + Rabs (_angle_diff slope (angle self)) / MAX_LANDING_ANGLE cfg.

(** The lander with the contact recorded. *)
Let touched : Lander :=
  set__contact_screen
    (Some (Py.int (IZR (rect_left pg) + offset_x - offset_x + IZR cx_mask),
           (rect_top pg + cy_mask)%Z))
    (set_world_y (Some (rect_top pg))
       (set_world_x (Some (IZR (rect_left pg) + offset_x))
          (set__contact_slope (Some slope) self))).

Lemma ratio_sum_touched : ratio_sum cfg slope touched = Ok r.
Proof.
  unfold ratio_sum. rewrite !fdiv_Ok by assumption. reflexivity.
Qed.

(** [collision_check] on a first contact, branch by branch. *)
Lemma collision_check_first_contact :
  collision_check cfg pg keys terrain offset_x special_hit self =
    if r >? 0.25 then
      let hit := set_damage (Rmin (damage self + r * 100) 100) touched in
      if (damage hit >=? 100) && (r >? 0.75) then
        Ok (_crash pg "STRUCTURAL DAMAGE" hit)
      else if r >? 1.5 then Ok (_crash pg "HARD LANDING" hit)
      else Ok hit
    else
      let soft :=
        set_report (Some [("landing_speed", Num (Rabs (vy self)))]%string)
          touched in
      if special_hit then
        Ok (set_report
              (Some [("landing_speed", Num (Rabs (vy self)));
                     ("sample", Str "cool rock")]%string)
              (set_science (science self + 10) soft))
      else Ok soft.
Proof.
  unfold collision_check. rewrite Hrock, Hslope. cbn [bind].
  rewrite Hoverlap. cbn [_contact_screen set_world_x set_world_y
    set__contact_slope]. rewrite Hfirst. cbn [is_some negb].
  fold touched. rewrite ratio_sum_touched. cbn [bind].
  destruct (r >? 0.25); [reflexivity |].
  destruct special_hit; reflexivity.
Qed.

(** A risk score above 0.75 that takes the damage to 100: the crash is a
    structural one, whatever the score is beyond that. *)
Lemma first_contact_structural :
  100 <= damage self + r * 100 -> 0.75 < r ->
  collision_check cfg pg keys terrain offset_x special_hit self =
    Ok (_crash pg "STRUCTURAL DAMAGE" (set_damage 100 touched)).
Proof.
  intros Hd Hr. rewrite collision_check_first_contact.
  destruct (Rltb_spec 0.25 r) as [_ | H]; [| lra]. cbv zeta. attrs.
  assert (E : Rmin (damage self + r * 100) 100 = 100)
    by (apply Rmin_right; lra).
  rewrite E.
  destruct (Rleb_spec 100 100) as [_ | H]; [| lra].
  destruct (Rltb_spec 0.75 r) as [_ | H]; [| lra].
  reflexivity.
Qed.

(** A first contact at the pixel that [draw] recorded as the gravity centre
    (the centre of the rotated sprite's rectangle) leaves the contact point
    on the gravity centre. *)
Lemma first_contact_on_centre (self' : Lander) :
  (rect_left pg + cx_mask, rect_top pg + cy_mask)%Z = _gravity_center self ->
  collision_check cfg pg keys terrain offset_x special_hit self = Ok self' ->
  _contact_screen self' = Some (_gravity_center self').
Proof.
  intros Hg H. rewrite collision_check_first_contact in H. cbv zeta in H.
  assert (Hp : Py.int (IZR (rect_left pg) + offset_x - offset_x + IZR cx_mask)
               = (rect_left pg + cx_mask)%Z).
  { replace (IZR (rect_left pg) + offset_x - offset_x + IZR cx_mask)
      with (IZR (rect_left pg + cx_mask)) by (rewrite plus_IZR; ring).
    apply int_IZR. }
  unfold touched in H. rewrite Hp, Hg in H.
  repeat split_if_in H; injection H as <-; reflexivity.
Qed.

(** The hard-landing crash is out of reach of a lander whose damage is not
    below -50: a risk score above 1.5 takes the damage to 100, and the
    structural crash is tested first. *)
Lemma hard_landing_unreachable (self' : Lander) :
  crashed self = false -> -50 <= damage self ->
  collision_check cfg pg keys terrain offset_x special_hit self = Ok self' ->
  ~ crashed_with "HARD LANDING" self'.
Proof.
  intros Halive Hd H. rewrite collision_check_first_contact in H.
  cbv zeta in H. attrs.
  destruct (Rltb_spec 0.25 r) as [Hr | Hr].
  - destruct (Rleb_spec 100 (Rmin (damage self + r * 100) 100)) as [Hm | Hm];
      destruct (Rltb_spec 0.75 r) as [Hr' | Hr']; cbn [andb] in H;
      try (injection H as <-; rewrite crashed_with_crash; discriminate);
      destruct (Rltb_spec 1.5 r) as [Hr'' | Hr''];
      first [ injection H as <-; apply not_crashed_with; exact Halive
            | exfalso; lra
            | exfalso; rewrite Rmin_right in Hm by lra; lra ].
  - destruct special_hit; injection H as <-; apply not_crashed_with;
      exact Halive.
Qed.

End FirstContact.

(** [_angle_diff] of two angles less than half a turn apart. *)
Lemma _angle_diff_small (target source : R) :
  -180 <= target - source < 180 -> _angle_diff target source = target - source.
Proof.
  intros H. unfold _angle_diff. rewrite fmod_small; lra.
Qed.

(** The slope of the flat ground under the example lander. *)
Lemma flat_slope (v : R) :
  compute_surface_slope medium flat (descending v) = Ok 0.
Proof.
  unfold compute_surface_slope, floordiv.
  rewrite fdiv_Ok by (simpl; lra). cbn [bind].
  rewrite (floor_unique _ 66) by (simpl; eval_IZR; lra).
  simpl. f_equal. eval_IZR. rewrite atan2_0_pos by lra.
  unfold Py.degrees, Rdiv. ring.
Qed.

(** The risk score of the example lander on flat ground: a tenth of its
    speed of descent. *)
Lemma descending_risk (v : R) :
  Py.hypot (vy (descending v)) (vx (descending v)) / LAND_DAMAGE_SPEED medium
  + Rabs (_angle_diff 0 (angle (descending v))) / MAX_LANDING_ANGLE medium
  = Rabs v / 10.
Proof.
  simpl. rewrite hypot_0_r. rewrite _angle_diff_small by lra.
  replace (0 - 0) with 0 by ring. rewrite Rabs_R0. lra.
Qed.

(** C1.  On the first detected terrain overlap (no rock hit, no contact
    point recorded before, lander not crashed) [collision_check] records the
    contact point and classifies the contact by the risk score
    [r = |velocity| / LAND_DAMAGE_SPEED + |angle_diff| / MAX_LANDING_ANGLE].
    If [r > 0.25] the damage becomes [min(damage + r * 100, 100)]; the
    lander then crashes with cause "STRUCTURAL DAMAGE" iff the damage has
    reached 100 and [r > 0.75], else crashes with cause "HARD LANDING" iff
    [r > 1.5], else it does not crash and no landing is recorded (the
    report, the landed flag and the science score are as before): it has
    not crashed exactly when neither test holds.  If [r <= 0.25] the
    report is a landing report with [landing_speed = |vy|], the damage is
    unchanged, the lander has not crashed, and a touched special rock adds
    10 to the science score and the entry [sample] to the report. *)
Theorem first_contact_classification
    (cfg : Config) (pg : Pygame) (keys : Keys) (terrain : Terrain)
    (offset_x : R) (special_hit : bool) (self : Lander)
    (cx_mask cy_mask : Z) (slope : R) :
  LAND_DAMAGE_SPEED cfg <> 0 ->
  MAX_LANDING_ANGLE cfg <> 0 ->
  rock_hit pg = false ->
  overlap pg = Some (cx_mask, cy_mask) ->
  _contact_screen self = None ->
  crashed self = false ->
  compute_surface_slope cfg terrain self = Ok slope ->
  let r :=
    Py.hypot (vy self) (vx self) / LAND_DAMAGE_SPEED cfg
    + Rabs (_angle_diff slope (angle self)) / MAX_LANDING_ANGLE cfg in
  exists self',
    collision_check cfg pg keys terrain offset_x special_hit self = Ok self' /\
    is_some (_contact_screen self') = true /\
    (r > 0.25 ->
     damage self' = Rmin (damage self + r * 100) 100 /\
     (crashed_with "STRUCTURAL DAMAGE" self' <->
      100 <= damage self' /\ r > 0.75) /\
     (crashed_with "HARD LANDING" self' <->
      ~ (100 <= damage self' /\ r > 0.75) /\ r > 1.5) /\
     (crashed self' = false <->
      ~ (100 <= damage self' /\ r > 0.75) /\ ~ r > 1.5) /\
     (crashed self' = false ->
      report self' = report self /\
      landed self' = landed self /\
      science self' = science self)) /\
    (r <= 0.25 ->
     damage self' = damage self /\
     crashed self' = false /\
     report_get "landing_speed" self' = Some (Num (Rabs (vy self))) /\
     if special_hit then
       science self' = (science self + 10)%Z /\
       report_get "sample" self' = Some (Str "cool rock")
     else
       science self' = science self /\
       report_get "sample" self' = None).
Proof.
  intros Hspeed Hangle Hrock Hoverlap Hfirst Halive Hslope r.
  rewrite (collision_check_first_contact cfg pg keys terrain offset_x
             special_hit self cx_mask cy_mask slope
             Hspeed Hangle Hrock Hoverlap Hfirst Hslope).
  fold r. cbv zeta.
  destruct (Rltb_spec 0.25 r) as [Hr | Hr].
  - (* damaging contact *)
    cbn [damage set_damage].
    set (d := Rmin (damage self + r * 100) 100).
    destruct ((d >=? 100) && (r >? 0.75)) eqn:E.
    + (* structural damage *)
      apply andb_true_iff in E as [Hd Hr']. apply Rleb_true in Hd.
      apply Rltb_true in Hr'.
      eexists. split; [reflexivity |]. split; [reflexivity |].
      split; [| intros; lra]. intros _. split; [reflexivity |].
      rewrite !crashed_with_crash. unfold _crash. attrs.
      split; [| split; [| split]].
      * split; [intros _; split; lra | reflexivity].
      * split; [discriminate | intros [H _]; contradict H; split; lra].
      * split; [discriminate | intros [H _]; contradict H; split; lra].
      * discriminate.
    + assert (Hn : ~ (100 <= d /\ r > 0.75)).
      { intros [Hd Hr']. apply Rleb_true in Hd. apply Rltb_true in Hr'.
        rewrite Hd, Hr' in E. discriminate. }
      destruct (Rltb_spec 1.5 r) as [Hr'' | Hr''].
      * (* hard landing *)
        eexists. split; [reflexivity |]. split; [reflexivity |].
        split; [| intros; lra]. intros _. split; [reflexivity |].
        rewrite !crashed_with_crash. unfold _crash. attrs.
        split; [| split; [| split]].
        -- split; [discriminate | intros H; contradiction].
        -- split; [intros _; split; [assumption | lra] | reflexivity].
        -- split; [discriminate | intros [_ H]; lra].
        -- discriminate.
      * (* no landing recorded *)
        eexists. split; [reflexivity |]. split; [reflexivity |].
        split; [| intros; lra]. intros _. split; [reflexivity |].
        attrs. split; [| split; [| split]].
        -- split; [| intros H; contradiction].
           intros H. now apply (not_crashed_with _ _ Halive) in H.
        -- split; [| intros [_ H]; lra].
           intros H. now apply (not_crashed_with _ _ Halive) in H.
        -- split; [intros _; split; [assumption | lra] | intros _; assumption].
        -- intros _. repeat split.
  - (* soft landing *)
    destruct special_hit; eexists; (split; [reflexivity |]);
      (split; [reflexivity |]); (split; [intros; lra |]); intros _;
      repeat split; try reflexivity; assumption.
Qed.

(** A soft touch-down at 1 m/s on flat ground: the risk score is 0.1, the
    landing is reported with its speed and nothing is damaged.  A contact
    at 3 m/s: the risk score is 0.3, the damage is 30, the lander has not
    crashed and no landing is recorded. *)
Lemma first_contact_classification_witness :
  (exists self',
     collision_check medium touch no_keys flat 0 false (descending 1)
       = Ok self' /\
     is_some (_contact_screen self') = true /\
     damage self' = 0 /\
     crashed self' = false /\
     report_get "landing_speed" self' = Some (Num (Rabs 1)) /\
     science self' = 0%Z) /\
  (exists self',
     collision_check medium touch no_keys flat 0 false (descending 3)
       = Ok self' /\
     is_some (_contact_screen self') = true /\
     damage self' = 30 /\
     crashed self' = false /\
     report self' = None /\
     landed self' = false).
Proof.
  assert (Hs : LAND_DAMAGE_SPEED medium <> 0) by (simpl; lra).
  assert (Ha : MAX_LANDING_ANGLE medium <> 0) by (simpl; lra).
  split.
  - destruct (first_contact_classification medium touch no_keys flat 0 false
                (descending 1) 32 69 0 Hs Ha eq_refl eq_refl eq_refl eq_refl
                (flat_slope 1))
      as (self' & Hcheck & Hcontact & _ & Hsoft).
    rewrite descending_risk in Hsoft.
    assert (Hr : Rabs 1 / 10 <= 0.25) by (rewrite Rabs_R1; lra).
    destruct (Hsoft Hr) as (Hd & Hc & Hl & Hsc & _).
    exists self'. repeat split; assumption.
  - destruct (first_contact_classification medium touch no_keys flat 0 false
                (descending 3) 32 69 0 Hs Ha eq_refl eq_refl eq_refl eq_refl
                (flat_slope 3))
      as (self' & Hcheck & Hcontact & Hhard & _).
    rewrite descending_risk in Hhard.
    assert (H3 : Rabs 3 = 3) by (apply Rabs_right; lra).
    rewrite H3 in Hhard.
    assert (Hr : 3 / 10 > 0.25) by lra.
    destruct (Hhard Hr) as (Hd & _ & _ & Hc & Hrest).
    assert (Hd' : damage self' = 30).
    { rewrite Hd. cbn [damage descending set_vy set_vx lander0 reset].
      unfold Rmin. destruct (Rle_dec _ _); lra. }
    assert (Halive : crashed self' = false).
    { apply Hc. rewrite Hd'. split; [intros [H _]; lra | lra]. }
    destruct (Hrest Halive) as (Hrep & Hland & _).
    exists self'. repeat split; try assumption.
Defined.

(** ** The hard-landing scenario *)

(** C2, amended.  From the soft-landing setup (slope 0, orientation 0, no
    horizontal velocity, no negative damage) but descending at 12 m/s with
    [LAND_DAMAGE_SPEED = 10], the first contact has velocity ratio 1.2 and
    risk score 1.2, which is above 0.75 and not above 1.5; the damage
    saturates at 100 and the lander crashes with cause "STRUCTURAL DAMAGE". *)
Theorem hard_landing_scenario
    (cfg : Config) (pg : Pygame) (keys : Keys) (terrain : Terrain)
    (offset_x : R) (special_hit : bool) (self : Lander) (cx_mask cy_mask : Z) :
  LAND_DAMAGE_SPEED cfg = 10 ->
  MAX_LANDING_ANGLE cfg <> 0 ->
  rock_hit pg = false ->
  overlap pg = Some (cx_mask, cy_mask) ->
  _contact_screen self = None ->
  compute_surface_slope cfg terrain self = Ok 0 ->
  angle self = 0 ->
  vx self = 0 ->
  vy self = 12 ->
  0 <= damage self ->
  Py.hypot (vy self) (vx self) / LAND_DAMAGE_SPEED cfg = 1.2 /\
  ratio_sum cfg 0 self = Ok 1.2 /\
  exists self',
    collision_check cfg pg keys terrain offset_x special_hit self = Ok self' /\
    damage self' = 100 /\
    crashed_with "STRUCTURAL DAMAGE" self'.
Proof.
  intros Hspeed Hangle Hrock Hoverlap Hfirst Hslope Ha Hvx Hvy Hd.
  assert (Hv : Py.hypot (vy self) (vx self) / LAND_DAMAGE_SPEED cfg = 1.2).
  { rewrite Hvx, Hvy, Hspeed, hypot_0_r, Rabs_pos_eq; lra. }
  assert (Hr : Py.hypot (vy self) (vx self) / LAND_DAMAGE_SPEED cfg
               + Rabs (_angle_diff 0 (angle self)) / MAX_LANDING_ANGLE cfg
               = 1.2).
  { rewrite Hv, Ha, _angle_diff_small by lra.
    replace (0 - 0) with 0 by ring. rewrite Rabs_R0. unfold Rdiv. ring. }
  split; [exact Hv |]. split.
  - unfold ratio_sum. rewrite !fdiv_Ok by (rewrite ?Hspeed; lra || assumption).
    cbn [bind]. now rewrite Hr.
  - eexists. split.
    + apply (first_contact_structural cfg pg keys terrain offset_x special_hit
               self cx_mask cy_mask 0); try assumption.
      * rewrite Hspeed. lra.
      * rewrite Hr. lra.
      * rewrite Hr. lra.
    + split; [reflexivity | now apply crashed_with_crash].
Qed.

(** The scenario on the example lander and the flat ground. *)
Lemma hard_landing_scenario_witness :
  ratio_sum medium 0 (descending 12) = Ok 1.2 /\
  exists self',
    collision_check medium touch no_keys flat 0 false (descending 12)
      = Ok self' /\
    damage self' = 100 /\
    crashed_with "STRUCTURAL DAMAGE" self'.
Proof.
  assert (Ha : MAX_LANDING_ANGLE medium <> 0) by (simpl; lra).
  assert (Hd : 0 <= damage (descending 12)) by (simpl; lra).
  exact (proj2 (hard_landing_scenario medium touch no_keys flat 0 false
                  (descending 12) 32 69 eq_refl Ha eq_refl eq_refl eq_refl
                  (flat_slope 12) eq_refl eq_refl eq_refl Hd)).
Defined.

(** C2 as stated fails: at 12 m/s the risk score is 1.2, which does not
    exceed 1.5, and the crash is reported as "STRUCTURAL DAMAGE", not as
    "HARD LANDING". *)
Lemma hard_landing_reported_structural :
  ratio_sum medium 0 (descending 12) = Ok 1.2 /\
  1.2 <= 1.5 /\
  exists self',
    collision_check medium touch no_keys flat 0 false (descending 12)
      = Ok self' /\
    crashed_with "STRUCTURAL DAMAGE" self' /\
    ~ crashed_with "HARD LANDING" self'.
Proof.
  assert (Hr : Py.hypot (vy (descending 12)) (vx (descending 12))
               / LAND_DAMAGE_SPEED medium
               + Rabs (_angle_diff 0 (angle (descending 12)))
                 / MAX_LANDING_ANGLE medium = 1.2).
  { rewrite descending_risk, Rabs_pos_eq; lra. }
  split; [| split; [lra |]].
  - unfold ratio_sum. rewrite !fdiv_Ok by (simpl; lra). cbn [bind].
    now rewrite Hr.
  - eexists. split.
    + apply (first_contact_structural medium touch no_keys flat 0 false
               (descending 12) 32 69 0); try reflexivity;
        try apply flat_slope; try (simpl; lra); rewrite Hr; simpl; lra.
    + rewrite !crashed_with_crash. split; [reflexivity | discriminate].
Qed.

(** ** The older damage threshold *)

Section LegacyFirstContact.

Variable cfg : Config.
Variables (pg : Pygame) (keys : Keys) (terrain : Terrain).
Variables (offset_x : R) (special_hit : bool) (self : Lander).
Variables (cx_mask cy_mask : Z) (slope r : R).

Hypothesis Hoverlap : overlap pg = Some (cx_mask, cy_mask).
Hypothesis Hfirst : _contact_screen self = None.
Hypothesis Hslope : compute_surface_slope cfg terrain self = Ok slope.
Hypothesis Hratio : Legacy.ratio_sum cfg slope self = Ok r.

Let touched : Lander :=
  set__contact_screen
    (Some (Py.int (IZR (rect_left pg) + offset_x - offset_x + IZR cx_mask),
           (rect_top pg + cy_mask)%Z))
    (set__contact_slope (Some slope) self).

(** The older [collision_check] on a first contact with a risk score
    above 0.25. *)
Lemma legacy_first_contact :
  0.25 < r ->
  Legacy.collision_check cfg pg keys terrain offset_x false special_hit self =
    let hit := set_damage (Rmin (damage self + r * 100) 100) touched in
    if (damage hit >=? 100) && (r <? 1) then
      Ok (Legacy._crash pg "STRUCTURAL DAMAGE" hit)
    else if r >? 1.5 then Ok (Legacy._crash pg "HARD LANDING" hit)
    else Ok hit.
Proof.
  intros Hr. unfold Legacy.collision_check. rewrite Hslope. cbn [bind].
  rewrite Hoverlap. attrs. rewrite Hfirst. cbn [is_some negb].
  fold touched.
  replace (Legacy.ratio_sum cfg slope touched) with (Ok r)
    by (rewrite <- Hratio; reflexivity).
  cbn [bind]. destruct (Rltb_spec 0.25 r) as [_ | H]; [reflexivity | lra].
Qed.

End LegacyFirstContact.

(** The older risk score of the example lander on flat ground. *)
Lemma legacy_descending_risk (v : R) (s : Lander) :
  vx s = 0 -> vy s = v -> angle s = 0 -> 0 <= v ->
  Legacy.ratio_sum medium 0 s = Ok (v / 10).
Proof.
  intros Hvx Hvy Ha Hv. unfold Legacy.ratio_sum.
  rewrite !fdiv_Ok by (simpl; lra). cbn [bind]. f_equal.
  rewrite Hvx, Hvy, Ha.
  replace (v ^ 2 + 0 ^ 2) with (Rsqr v) by (unfold Rsqr; ring).
  rewrite sqrt_Rsqr by assumption.
  replace (Py.fmod (0 - 0 + 180) 360 - 180) with (_angle_diff 0 0)
    by reflexivity.
  rewrite _angle_diff_small by lra.
  replace (0 - 0) with 0 by ring. rewrite Rabs_R0. simpl. lra.
Qed.

Lemma legacy_crashed_with_crash (pg : Pygame) (reason reason' : string)
    (self : Lander) :
  crashed_with reason' (Legacy._crash pg reason self) <-> reason' = reason.
Proof.
  unfold crashed_with, report_get. cbn. split.
  - intros [_ H]. congruence.
  - intros ->. split; reflexivity.
Qed.

(** C6.  The two versions of the first-contact damage evaluation diverge:
    there is a first contact (the same lander, terrain and inputs for both)
    on which the newer [collision_check] crashes the lander with cause
    "STRUCTURAL DAMAGE" while the older one does not crash it, and another
    on which the older one crashes it with that cause while the newer one
    does not. *)
Theorem damage_thresholds_diverge :
  (exists cfg pg keys terrain offset_x special_hit self,
      rock_hit pg = false /\
      is_some (overlap pg) = true /\
      _contact_screen self = None /\
      crashed self = false /\
      (exists newer,
          collision_check cfg pg keys terrain offset_x special_hit self
            = Ok newer /\
          crashed_with "STRUCTURAL DAMAGE" newer) /\
      (exists older,
          Legacy.collision_check cfg pg keys terrain offset_x (rock_hit pg)
            special_hit self = Ok older /\
          crashed older = false)) /\
  (exists cfg pg keys terrain offset_x special_hit self,
      rock_hit pg = false /\
      is_some (overlap pg) = true /\
      _contact_screen self = None /\
      crashed self = false /\
      (exists newer,
          collision_check cfg pg keys terrain offset_x special_hit self
            = Ok newer /\
          crashed newer = false) /\
      (exists older,
          Legacy.collision_check cfg pg keys terrain offset_x (rock_hit pg)
            special_hit self = Ok older /\
          crashed_with "STRUCTURAL DAMAGE" older)).
Proof.
  split.
  - (* 12 m/s, no prior damage: the risk score is 1.2 *)
    exists medium, touch, no_keys, flat, 0, false, (descending 12).
    repeat (split; [reflexivity |]). split.
    + eexists. split.
      * apply (first_contact_structural medium touch no_keys flat 0 false
                 (descending 12) 32 69 0); try reflexivity;
          try apply flat_slope; try (simpl; lra);
          rewrite descending_risk, Rabs_pos_eq; simpl; lra.
      * now apply crashed_with_crash.
    + eexists. split.
      * change (rock_hit touch) with false.
        rewrite (legacy_first_contact medium touch no_keys flat 0 false
                   (descending 12) 32 69 0 (12 / 10) eq_refl eq_refl
                   (flat_slope 12)
                   (legacy_descending_risk 12 (descending 12) eq_refl eq_refl eq_refl
                      ltac:(lra)) ltac:(lra)).
        cbv zeta. attrs.
        destruct (Rltb_spec (12 / 10) 1) as [H | _]; [lra |].
        rewrite andb_false_r.
        destruct (Rltb_spec 1.5 (12 / 10)) as [H | _]; [lra |].
        reflexivity.
      * reflexivity.
  - (* 3 m/s, prior damage 80: the risk score is 0.3 *)
    exists medium, touch, no_keys, flat, 0, false,
      (set_damage 80 (descending 3)).
    repeat (split; [reflexivity |]). split.
    + eexists. split.
      * rewrite (collision_check_first_contact medium touch no_keys flat 0
                   false (set_damage 80 (descending 3)) 32 69 0);
          try reflexivity; try (simpl; lra); try apply (flat_slope 3).
        attrs.
        rewrite !descending_risk, Rabs_pos_eq by lra.
        destruct (Rltb_spec 0.25 (3 / 10)) as [_ | H]; [| lra].
        destruct (Rltb_spec 0.75 (3 / 10)) as [H | _]; [lra |].
        rewrite andb_false_r.
        destruct (Rltb_spec 1.5 (3 / 10)) as [H | _]; [lra |].
        reflexivity.
      * reflexivity.
    + eexists. split.
      * change (rock_hit touch) with false.
        rewrite (legacy_first_contact medium touch no_keys flat 0 false
                   (set_damage 80 (descending 3)) 32 69 0 (3 / 10) eq_refl
                   eq_refl (flat_slope 3)
                   (legacy_descending_risk 3 (set_damage 80 (descending 3)) eq_refl eq_refl eq_refl
                      ltac:(lra)) ltac:(lra)).
        cbv zeta. attrs.
        replace (Rmin (80 + 3 / 10 * 100) 100) with 100
          by (symmetry; apply Rmin_right; lra).
        destruct (Rleb_spec 100 100) as [_ | H]; [| lra].
        destruct (Rltb_spec (3 / 10) 1) as [_ | H]; [| lra].
        reflexivity.
      * now apply legacy_crashed_with_crash.
Qed.

(** ** The stages of [update_physics] *)

Section Stages.

Variable cfg : Config.

(** Life support changes the oxygen, the battery, the APU switch and the
    fuel, and nothing else. *)
Lemma life_support_eq (dt_sim : R) (self : Lander) :
  let o := Rmax (oxygen self - OXYGEN_DRAIN_RATE cfg * dt_sim) 0 in
  let b0 := Rmax (battery self - BATTERY_DRAIN_RATE cfg * dt_sim) 0 in
  let a :=
    if (b0 <=? 0) && negb (apu_on self) then true
    else if (b0 >=? 50) && apu_on self then false
    else apu_on self in
  let recharge := a && (b0 <? MAX_BATTERY cfg) in
  let f :=
    if recharge then Rmax (fuel self - APU_FUEL_RATE cfg * dt_sim) 0
    else fuel self in
  let b :=
    if recharge
    then Rmin (b0 + APU_RECHARGE_RATE cfg * dt_sim) (MAX_BATTERY cfg)
    else b0 in
  life_support cfg dt_sim self =
    set_battery b (set_fuel f (set_apu_on a (set_oxygen o self))).
Proof.
  destruct self. unfold life_support. cbv zeta. attrs.
  repeat (split_if; attrs; cbn [andb negb] in * ); try reflexivity;
    try discriminate.
Qed.

(** The rotation stage sets the angular velocity and the angle, and
    nothing else; the new angle is reduced modulo 360. *)
Lemma rotational_dynamics_eq (keys : Keys) (dt_sim : R) (self self' : Lander) :
  rotational_dynamics cfg keys dt_sim self = Ok self' ->
  exists w,
    self' =
      set_angle (Py.fmod (angle self + w * dt_sim) 360)
        (set_angular_velocity w self).
Proof.
  unfold rotational_dynamics. intros H. returned H;
    first [ eexists; reflexivity
          | exists (angular_velocity self); destruct self; reflexivity ].
Qed.

Lemma rotational_dynamics_total (keys : Keys) (dt_sim : R) (self : Lander) :
  ANGULAR_INERTIA cfg <> 0 ->
  exists self', rotational_dynamics cfg keys dt_sim self = Ok self'.
Proof.
  intros HI. unfold rotational_dynamics.
  rewrite fdiv_Ok by assumption. split_if; cbn [bind]; eauto.
Qed.

(** The fuel burnt by the main engine over a step is not negative. *)
Lemma burn_nonneg (t dt_sim : R) :
  config_ok cfg -> 0 <= dt_sim ->
  0 <= MAX_THRUST cfg * t / (ISP cfg * G0_MOON cfg) * dt_sim * t.
Proof.
  intros [] Hdt.
  assert (Hk : 0 <= MAX_THRUST cfg / (ISP cfg * G0_MOON cfg)).
  { apply Rmult_le_pos; [assumption |]. left. apply Rinv_0_lt_compat. nra. }
  replace (MAX_THRUST cfg * t / (ISP cfg * G0_MOON cfg) * dt_sim * t)
    with (MAX_THRUST cfg / (ISP cfg * G0_MOON cfg) * dt_sim * (t * t))
    by (unfold Rdiv; ring).
  apply Rmult_le_pos; [apply Rmult_le_pos; assumption | nra].
Qed.

(** What the main engine leaves alone, and what it does to the fuel and to
    a failed engine. *)
Lemma main_engine_inv (keys : Keys) (dt_sim ax0 ay0 : R)
    (self self' : Lander) (acc : R * R) :
  main_engine cfg keys dt_sim ax0 ay0 self = Ok (self', acc) ->
  oxygen self' = oxygen self /\
  battery self' = battery self /\
  damage self' = damage self /\
  angle self' = angle self /\
  crashed self' = crashed self /\
  landed self' = landed self /\
  _contact_screen self' = _contact_screen self /\
  vx self' = vx self /\
  vy self' = vy self /\
  (engine_out self = true -> engine_out self' = true) /\
  (config_ok cfg -> 0 <= dt_sim -> 0 <= fuel self ->
   0 <= fuel self' <= fuel self).
Proof.
  unfold main_engine. intros H.
  returned H; cbn; repeat split; try reflexivity; intros;
    try assumption; try lra;
    match goal with
    | |- context [Rmax (?f - ?u) 0] =>
        assert (Hu : 0 <= u) by (now apply burn_nonneg);
        pose proof (Rmax_sub_bounds f u Hu ltac:(assumption))
    end; lra.
Qed.

(** What a step of flight leaves alone, and what it does to the fuel and
    to a failed engine. *)
Lemma flight_inv (keys : Keys) (dt_sim : R) (self self' : Lander) :
  flight cfg keys dt_sim self = Ok self' ->
  oxygen self' = oxygen self /\
  battery self' = battery self /\
  damage self' = damage self /\
  angle self' = angle self /\
  crashed self' = crashed self /\
  landed self' = landed self /\
  _contact_screen self' = _contact_screen self /\
  (engine_out self = true -> engine_out self' = true) /\
  (config_ok cfg -> 0 <= dt_sim -> 0 <= fuel self ->
   0 <= fuel self' <= fuel self).
Proof.
  unfold flight. cbv zeta. intros H.
  match type of H with
  | bind (main_engine _ _ _ _ _ ?s) _ = _ =>
      destruct (main_engine cfg keys dt_sim 0 (G0_MOON cfg) s)
        as [[s1 [ax1 ay1]] |] eqn:E; cbn [bind] in H; [| discriminate]
  end.
  injection H as <-. apply main_engine_inv in E.
  destruct E as (Ho & Hb & Hd & Ha & Hc & Hl & Hs & _ & _ & He & Hf).
  unfold integrate. cbv zeta. attrs.
  rewrite Ho, Hb, Hd, Ha, Hc, Hl, Hs.
  destruct (K_1 keys), (K_2 keys), (K_3 keys); attrs; repeat split;
    intros; solve [reflexivity | auto | apply Hf; assumption].
Qed.

(** What a lift-off step leaves alone, and what it does. *)
Lemma lift_off_inv (dt_sim : R) (self self' : Lander) :
  lift_off cfg dt_sim self = Ok self' ->
  oxygen self' = oxygen self /\
  battery self' = battery self /\
  damage self' = damage self /\
  angle self' = angle self /\
  crashed self' = crashed self /\
  _contact_screen self' = _contact_screen self /\
  engine_out self' = engine_out self /\
  landed self' = false /\
  engine_on self' = true /\
  (config_ok cfg -> 0 <= dt_sim -> 0 <= fuel self ->
   0 <= fuel self' <= fuel self).
Proof.
  unfold lift_off. intros H.
  returned H; cbn; repeat split; try reflexivity; intros;
    match goal with
    | |- context [Rmax (?f - ?u) 0] =>
        assert (Hu : 0 <= u) by (now apply burn_nonneg);
        pose proof (Rmax_sub_bounds f u Hu ltac:(assumption))
    end; lra.
Qed.

(** What a pivot step leaves alone; the angle it sets is reduced modulo
    360. *)
Lemma pivot_inv (dt_sim : R) (self self' : Lander) :
  pivot cfg dt_sim self = Ok self' ->
  oxygen self' = oxygen self /\
  battery self' = battery self /\
  damage self' = damage self /\
  fuel self' = fuel self /\
  crashed self' = crashed self /\
  landed self' = landed self /\
  _contact_screen self' = _contact_screen self /\
  engine_out self' = engine_out self /\
  0 <= angle self' < 360.
Proof.
  unfold pivot. intros H.
  returned H; cbn; repeat split; try reflexivity; try assumption;
    apply fmod_range; lra.
Qed.

(** What a step on the ground leaves alone, and what it does to the fuel
    and the angle. *)
Lemma on_ground_inv (keys : Keys) (dt_sim : R) (terrain : Terrain)
    (self self' : Lander) :
  on_ground cfg keys dt_sim terrain self = Ok self' ->
  oxygen self' = oxygen self /\
  battery self' = battery self /\
  damage self' = damage self /\
  crashed self' = crashed self /\
  _contact_screen self' = _contact_screen self /\
  engine_out self' = engine_out self /\
  (0 <= angle self < 360 -> 0 <= angle self' < 360) /\
  (config_ok cfg -> 0 <= dt_sim -> 0 <= fuel self ->
   0 <= fuel self' <= fuel self).
Proof.
  unfold on_ground. intros H.
  destruct (compute_surface_slope cfg terrain self) as [slope |] eqn:E;
    cbn [bind] in H; [| discriminate].
  cbv zeta in H. attrs.
  destruct (K_UP keys && (fuel self >? 0) && negb (engine_out self)).
  - apply lift_off_inv in H. attrs.
    destruct H as (Ho & Hb & Hd & Ha & Hc & Hs & He & _ & _ & Hf).
    rewrite Ho, Hb, Hd, Ha, Hc, Hs, He.
    repeat split; intros; auto; try lra; apply Hf; assumption.
  - destruct (Rabs (_angle_diff slope (angle self)) >=?
              ROTATION_SPEED cfg * dt_sim).
    + apply pivot_inv in H. attrs.
      destruct H as (Ho & Hb & Hd & Hf & Hc & _ & Hs & He & Ha).
      rewrite Ho, Hb, Hd, Hf, Hc, Hs, He.
      repeat split; intros; auto; lra.
    + injection H as <-. unfold settled. cbn.
      repeat split; intros; auto; try lra; apply fmod_range; lra.
Qed.

(** Life support keeps the resources within their limits. *)
Lemma life_support_limits (dt_sim : R) (self : Lander) :
  config_ok cfg -> 0 <= dt_sim ->
  within_limits cfg self -> within_limits cfg (life_support cfg dt_sim self).
Proof.
  intros [] Hdt (Ho & Hb & Hf & Hd).
  rewrite life_support_eq. cbv zeta. unfold within_limits. attrs.
  assert (0 <= OXYGEN_DRAIN_RATE cfg * dt_sim) by (now apply Rmult_le_pos).
  assert (0 <= BATTERY_DRAIN_RATE cfg * dt_sim) by (now apply Rmult_le_pos).
  assert (0 <= APU_FUEL_RATE cfg * dt_sim) by (now apply Rmult_le_pos).
  assert (0 <= APU_RECHARGE_RATE cfg * dt_sim) by (now apply Rmult_le_pos).
  pose proof (Rmax_sub_bounds (oxygen self) _ H (proj1 Ho)).
  pose proof (Rmax_sub_bounds (battery self) _ H0 (proj1 Hb)).
  pose proof (Rmax_sub_bounds (fuel self) _ H1 (proj1 Hf)).
  repeat split; try lra; repeat split_if; try lra;
    unfold Rmin; destruct (Rle_dec _ _); lra.
Qed.

(** What a step of physics leaves alone, and the ranges it keeps. *)
Lemma update_physics_inv (keys : Keys) (dt : R) (terrain : Terrain)
    (self self' : Lander) :
  update_physics cfg keys dt terrain self = Ok self' ->
  damage self' = damage self /\
  crashed self' = crashed self /\
  _contact_screen self' = _contact_screen self /\
  (engine_out self = true -> engine_out self' = true) /\
  (crashed self = false -> 0 <= angle self' < 360) /\
  (config_ok cfg -> 0 <= dt ->
   within_limits cfg self -> within_limits cfg self').
Proof.
  unfold update_physics. cbv zeta. intros H.
  destruct (crashed self) eqn:Hc.
  { injection H as <-.
    repeat (split; [solve [auto | intros; congruence] |]).
    intros; assumption. }
  set (dt_sim := dt * TIME_SCALE cfg) in *.
  assert (Hlim : config_ok cfg -> 0 <= dt -> within_limits cfg self ->
                 within_limits cfg (life_support cfg dt_sim self)).
  { intros Hok Hdt. apply life_support_limits; [assumption |].
    destruct Hok. now apply Rmult_le_pos. }
  assert (Hsim : config_ok cfg -> 0 <= dt -> 0 <= dt_sim).
  { intros [] Hdt. now apply Rmult_le_pos. }
  revert Hlim. rewrite life_support_eq in *. cbv zeta in *.
  match goal with
  | |- context [within_limits cfg (set_battery ?b (set_fuel ?f
                  (set_apu_on ?a (set_oxygen ?o self))))] =>
      set (b1 := b) in *; set (f1 := f) in *; set (a1 := a) in *;
      set (o1 := o) in *
  end.
  intros Hlim.
  destruct (rotational_dynamics cfg keys dt_sim _) as [s2 |] eqn:Er;
    cbn [bind] in H; [| discriminate].
  apply rotational_dynamics_eq in Er as [w ->]. attrs.
  assert (Hrange : 0 <= Py.fmod (angle self + w * dt_sim) 360 < 360)
    by (apply fmod_range; lra).
  unfold within_limits in *. attrs.
  destruct (negb (is_some (_contact_screen self)) && negb (landed self)).
  - apply flight_inv in H. attrs.
    destruct H as (Ho & Hb & Hd & Ha & Hcr & _ & Hs & He & Hf).
    repeat (split; [solve [auto | congruence | intros; lra] |]).
    intros Hok Hdt Hw. destruct (Hlim Hok Hdt Hw) as (? & ? & ? & ?).
    assert (0 <= fuel self' <= f1) by (apply Hf; auto; lra).
    rewrite Ho, Hb, Hd. repeat split; lra.
  - rewrite Hc in H. destruct (is_some (_contact_screen self) && negb false).
    + apply on_ground_inv in H. attrs.
      destruct H as (Ho & Hb & Hd & Hcr & Hs & He & Ha & Hf).
      repeat (split; [solve [auto | congruence | intros; lra] |]).
      intros Hok Hdt Hw. destruct (Hlim Hok Hdt Hw) as (? & ? & ? & ?).
      assert (0 <= fuel self' <= f1) by (apply Hf; auto; lra).
      rewrite Ho, Hb, Hd. repeat split; lra.
    + injection H as <-. attrs.
      repeat (split; [solve [auto | congruence | intros; lra] |]).
      intros Hok Hdt Hw. destruct (Hlim Hok Hdt Hw) as (? & ? & ? & ?).
      repeat split; lra.
Qed.

(** In flight the physics never raises. *)
Lemma flight_total (keys : Keys) (dt_sim : R) (self : Lander) :
  config_ok cfg -> exists self', flight cfg keys dt_sim self = Ok self'.
Proof.
  intros []. unfold flight, main_engine. cbv zeta.
  rewrite fdiv_Ok by nra.
  repeat split_if; cbn [bind]; eauto;
    (rewrite fdiv_Ok; [cbn [bind]; eauto |]);
    unfold mass; cbn;
    match goal with
    | |- context [Rmax ?a 0] => pose proof (Rmax_r a 0)
    end; lra.
Qed.

Lemma update_physics_total_in_flight (keys : Keys) (dt : R)
    (terrain : Terrain) (self : Lander) :
  config_ok cfg -> _contact_screen self = None ->
  exists self', update_physics cfg keys dt terrain self = Ok self'.
Proof.
  intros Hok Hc. unfold update_physics. cbv zeta.
  destruct (crashed self); [eauto |].
  destruct (rotational_dynamics_total keys (dt * TIME_SCALE cfg)
              (life_support cfg (dt * TIME_SCALE cfg) self)) as [s2 Hr].
  { destruct Hok. lra. }
  rewrite Hr. cbn [bind].
  apply rotational_dynamics_eq in Hr as [w ->].
  rewrite life_support_eq. cbv zeta. attrs. rewrite Hc. cbn [is_some negb andb].
  destruct (negb (landed self)); [now apply flight_total | eauto].
Qed.

(** What a collision check leaves alone, and what it does to the damage. *)
Lemma collision_check_inv (pg : Pygame) (keys : Keys) (terrain : Terrain)
    (offset_x : R) (special_hit : bool) (self self' : Lander) :
  collision_check cfg pg keys terrain offset_x special_hit self = Ok self' ->
  oxygen self' = oxygen self /\
  battery self' = battery self /\
  fuel self' = fuel self /\
  angle self' = angle self /\
  engine_out self' = engine_out self /\
  (damage self <= 100 -> damage self <= damage self' <= 100).
Proof.
  unfold collision_check, ratio_sum, _crash. intros H.
  returned H; attrs; repeat split; try reflexivity; intros; try lra;
    repeat match goal with
      | E : (_ <? _) = true |- _ => apply Rltb_true in E
      end;
    unfold Rmin; destruct (Rle_dec _ _); lra.
Qed.

Lemma draw_inv (offset : R) (self : Lander) :
  oxygen (draw offset self) = oxygen self /\
  battery (draw offset self) = battery self /\
  fuel (draw offset self) = fuel self /\
  damage (draw offset self) = damage self /\
  angle (draw offset self) = angle self /\
  engine_out (draw offset self) = engine_out self.
Proof.
  unfold draw. repeat split_if; repeat split; reflexivity.
Qed.

(** A call keeps the resources within their limits and does not repair
    damage. *)
Lemma step_limits (self self' : Lander) :
  config_ok cfg -> step cfg self self' ->
  within_limits cfg self ->
  within_limits cfg self' /\ damage self <= damage self'.
Proof.
  intros Hok Hstep Hw. destruct Hstep as [keys dt terrain s s' Hdt H | offset s
    | pg keys terrain offset_x special_hit s s' H].
  - apply update_physics_inv in H.
    destruct H as (Hd & _ & _ & _ & _ & Hlim).
    split; [now apply Hlim | lra].
  - destruct (draw_inv offset s) as (Ho & Hb & Hf & Hd & _).
    unfold within_limits. rewrite Ho, Hb, Hf, Hd. split; [exact Hw | lra].
  - apply collision_check_inv in H.
    destruct H as (Ho & Hb & Hf & _ & _ & Hd).
    destruct Hw as (? & ? & ? & ?).
    unfold within_limits. rewrite Ho, Hb, Hf.
    repeat split; try lra; apply Hd; lra.
Qed.

(** A frame of the main loop is a sequence of calls. *)
Lemma frame_reachable (keys : Keys) (dt : R) (terrain : Terrain)
    (pg : Pygame) (special_hit : bool) (self self' : Lander) :
  0 <= dt ->
  frame cfg keys dt terrain pg special_hit self = Ok self' ->
  reachable cfg self self'.
Proof.
  intros Hdt H. unfold frame in H.
  destruct (update_physics cfg keys dt terrain self) as [s1 |] eqn:E;
    cbn [bind] in H; [| discriminate].
  cbv zeta in H.
  assert (H1 : reachable cfg self s1).
  { eapply reach_step; [apply reach_here | eapply step_physics; eassumption]. }
  assert (H2 : reachable cfg self (draw (compute_camera_offset cfg (x s1)) s1)).
  { eapply reach_step; [exact H1 | apply step_draw]. }
  split_if_in H.
  - eapply reach_step; [exact H2 | eapply step_collision; eassumption].
  - injection H as <-. exact H2.
Qed.

End Stages.

(** ** Resource limits and angle normalisation *)

Lemma medium_ok : config_ok medium.
Proof. constructor; simpl; lra || lia. Qed.

Lemma easy_ok (c : Config) : config_ok c -> config_ok (easy c).
Proof. intros []. constructor; simpl; lra || lia. Qed.

Lemma hard_ok (c : Config) : config_ok c -> config_ok (hard c).
Proof. intros []. constructor; simpl; lra || lia. Qed.

Lemma lander0_within_limits : within_limits medium lander0.
Proof. unfold within_limits. simpl. lra. Qed.

(** The example lander is the one constructed for a 64 by 70 sprite. *)
Lemma lander0_constructed : __init__ medium 64 70 3 = Ok lander0.
Proof.
  unfold __init__. rewrite fdiv_Ok by (simpl; lra). cbn [bind].
  replace (IZR 70 / LANDER_HEIGHT_M medium) with 10 by (simpl; lra).
  reflexivity.
Qed.

(** C9.  Resource clamping: from a state whose oxygen, battery, fuel and
    damage are within [[0, MAX_OXYGEN]], [[0, MAX_BATTERY]],
    [[0, FUEL_START]] and [[0, 100]], every finite sequence of calls of
    [update_physics] (with [dt >= 0]), [draw] and [collision_check] that
    return, in any order and so every sequence of frames of the main loop,
    leads to a state within the same limits, and the damage has not
    decreased. *)
Theorem resource_clamping (cfg : Config) (self self' : Lander) :
  config_ok cfg ->
  within_limits cfg self ->
  reachable cfg self self' ->
  within_limits cfg self' /\ damage self <= damage self'.
Proof.
  intros Hok Hw Hreach. induction Hreach as [| mid self' _ [IHw IHd] Hstep].
  - split; [assumption | lra].
  - destruct (step_limits cfg mid self' Hok Hstep IHw) as [Hw' Hd'].
    split; [assumption | lra].
Qed.

(** A frame flown with the thrust key down, then a frame that ends on a
    rock: the physics returns, and after the physics, the drawing and the
    crash the resources are within their limits. *)
Lemma resource_clamping_witness :
  exists flown,
    update_physics medium thrust_key (1 / 30) flat lander0 = Ok flown /\
    exists crashed',
      collision_check medium rock thrust_key flat 0 false (draw 0 flown)
        = Ok crashed' /\
      crashed crashed' = true /\
      within_limits medium crashed' /\
      damage lander0 <= damage crashed'.
Proof.
  destruct (update_physics_total_in_flight medium thrust_key (1 / 30) flat
              lander0 medium_ok eq_refl) as [flown Hflown].
  exists flown. split; [exact Hflown |].
  eexists. split; [reflexivity |]. split; [reflexivity |].
  apply (resource_clamping medium lander0 _ medium_ok lander0_within_limits).
  eapply reach_step; [eapply reach_step; [eapply reach_step |] |].
  - apply reach_here.
  - apply (step_physics medium thrust_key (1 / 30) flat lander0 flown);
      [lra | exact Hflown].
  - apply (step_draw medium 0 flown).
  - apply (step_collision medium rock thrust_key flat 0 false (draw 0 flown)).
    reflexivity.
Defined.

(** Over the reals every branch of [update_physics] leaves the angle of a
    lander that has not crashed in [[0, 360)]: each assigns a value of
    [% 360]. *)
Lemma angle_normalized (cfg : Config) (keys : Keys) (dt : R)
    (terrain : Terrain) (self self' : Lander) :
  crashed self = false ->
  update_physics cfg keys dt terrain self = Ok self' ->
  0 <= angle self' < 360.
Proof.
  intros Hc H. apply update_physics_inv in H.
  destruct H as (_ & _ & _ & _ & Ha & _). now apply Ha.
Qed.

(** ** The angle on doubles *)

Section AngleOnDoubles.
Import PrimFloat.

(** C10.  On doubles the angle can leave [[0, 360)].  The rotational
    dynamics of [update_physics] take a lander in flight with a charged
    battery, the angle 0.0 and the angular velocity [-2^-61] degrees per
    second, no key pressed, over a frame of 1/30 s at [TIME_SCALE = 1.0],
    to the angle 360.0: the step is negative, [fmod] returns it as it is,
    and the sum with 360.0 rounds to 360.0, which is not below 360.  With
    [dt_sim = 1.0] the same holds for every negative power of two from
    [-2^-45] down to the smallest double. *)
Theorem angle_reaches_360 :
  (exists angle',
     Binary64.rotational_dynamics 250 2 no_keys (1 / 30 * 1) 100 false
       0 (-0x1p-61)
     = Ok ((-0x1p-61)%float, angle') /\
     angle' = 360%float /\
     (angle' <? 360)%float = false) /\
  Forall
    (fun w =>
       Binary64.rotational_dynamics 250 2 no_keys 1 100 false 0 w
       = Ok (w, 360%float))
    Binary64.tiny_steps.
Proof.
  split.
  - exists 360%float. repeat split; vm_compute; reflexivity.
  - set (l := Binary64.tiny_steps). vm_compute in l. subst l.
    repeat (apply Forall_cons; [vm_compute; reflexivity |]).
    apply Forall_nil.
Qed.

End AngleOnDoubles.

(** ** The branches of [update_physics], one at a time *)

(** The attributes life support does not write. *)
Section LifeSupportFrame.

Variables (cfg : Config) (dt_sim : R) (self : Lander).

Let after : Lander := life_support cfg dt_sim self.

Lemma life_support_img_w : img_w after = img_w self.
Proof. unfold after. now rewrite life_support_eq. Qed.

Lemma life_support_img_h : img_h after = img_h self.
Proof. unfold after. now rewrite life_support_eq. Qed.

Lemma life_support_px_per_m : px_per_m after = px_per_m self.
Proof. unfold after. now rewrite life_support_eq. Qed.

Lemma life_support_x : x after = x self.
Proof. unfold after. now rewrite life_support_eq. Qed.

Lemma life_support_y : y after = y self.
Proof. unfold after. now rewrite life_support_eq. Qed.

Lemma life_support_vx : vx after = vx self.
Proof. unfold after. now rewrite life_support_eq. Qed.

Lemma life_support_vy : vy after = vy self.
Proof. unfold after. now rewrite life_support_eq. Qed.

Lemma life_support_ax : ax after = ax self.
Proof. unfold after. now rewrite life_support_eq. Qed.

Lemma life_support_ay : ay after = ay self.
Proof. unfold after. now rewrite life_support_eq. Qed.

Lemma life_support_angle : angle after = angle self.
Proof. unfold after. now rewrite life_support_eq. Qed.

Lemma life_support_angular_velocity : angular_velocity after = angular_velocity self.
Proof. unfold after. now rewrite life_support_eq. Qed.

Lemma life_support_temperature : temperature after = temperature self.
Proof. unfold after. now rewrite life_support_eq. Qed.

Lemma life_support_damage : damage after = damage self.
Proof. unfold after. now rewrite life_support_eq. Qed.

Lemma life_support_gforce : gforce after = gforce self.
Proof. unfold after. now rewrite life_support_eq. Qed.

Lemma life_support_engine_startup_count : engine_startup_count after = engine_startup_count self.
Proof. unfold after. now rewrite life_support_eq. Qed.

Lemma life_support_engine_out : engine_out after = engine_out self.
Proof. unfold after. now rewrite life_support_eq. Qed.

Lemma life_support_engine_on : engine_on after = engine_on self.
Proof. unfold after. now rewrite life_support_eq. Qed.

Lemma life_support_throttle : throttle after = throttle self.
Proof. unfold after. now rewrite life_support_eq. Qed.

Lemma life_support_crashed : crashed after = crashed self.
Proof. unfold after. now rewrite life_support_eq. Qed.

Lemma life_support_landed : landed after = landed self.
Proof. unfold after. now rewrite life_support_eq. Qed.

Lemma life_support_report : report after = report self.
Proof. unfold after. now rewrite life_support_eq. Qed.

Lemma life_support_science : science after = science self.
Proof. unfold after. now rewrite life_support_eq. Qed.

Lemma life_support_gravity_center : _gravity_center after = _gravity_center self.
Proof. unfold after. now rewrite life_support_eq. Qed.

Lemma life_support_contact_screen : _contact_screen after = _contact_screen self.
Proof. unfold after. now rewrite life_support_eq. Qed.

Lemma life_support_contact_slope : _contact_slope after = _contact_slope self.
Proof. unfold after. now rewrite life_support_eq. Qed.

End LifeSupportFrame.

Create Rewrite HintDb life_support.
#[export] Hint Rewrite
  life_support_img_w life_support_img_h life_support_px_per_m
  life_support_x life_support_y life_support_vx life_support_vy
  life_support_ax life_support_ay life_support_angle
  life_support_angular_velocity life_support_temperature
  life_support_damage life_support_gforce
  life_support_engine_startup_count life_support_engine_out
  life_support_engine_on life_support_throttle life_support_crashed
  life_support_landed life_support_report life_support_science
  life_support_gravity_center life_support_contact_screen
  life_support_contact_slope
  : life_support.

Section Branches.

Variable cfg : Config.
Hypothesis Hok : config_ok cfg.

(** The rotation stage, with the angular velocity it computes. *)
Lemma rotational_dynamics_value (keys : Keys) (dt_sim : R) (self : Lander) :
  let net_torque :=
    (if K_RIGHT keys
     then (if K_LEFT keys then 0 + ROTATION_TORQUE cfg else 0)
          - ROTATION_TORQUE cfg
     else (if K_LEFT keys then 0 + ROTATION_TORQUE cfg else 0)) in
  let w :=
    if (battery self >? 0) && negb (landed self)
    then angular_velocity self + net_torque / ANGULAR_INERTIA cfg * dt_sim
    else angular_velocity self in
  rotational_dynamics cfg keys dt_sim self =
    Ok (set_angle (Py.fmod (angle self + w * dt_sim) 360)
          (set_angular_velocity w self)).
Proof.
  cbv zeta. unfold rotational_dynamics.
  rewrite fdiv_Ok by (destruct Hok; lra).
  destruct ((battery self >? 0) && negb (landed self)); cbn [bind].
  - reflexivity.
  - destruct self. reflexivity.
Qed.

(** [update_physics] on a lander that has not crashed: life support, then
    the rotation (to an angular velocity [w], which is 0 for a lander that
    does not rotate and no rotation key), then flight or the ground. *)
Lemma update_physics_eq (keys : Keys) (dt : R) (terrain : Terrain)
    (self : Lander) :
  crashed self = false ->
  exists w,
    let dt_sim := dt * TIME_SCALE cfg in
    let turned :=
      set_angle (Py.fmod (angle self + w * dt_sim) 360)
        (set_angular_velocity w (life_support cfg dt_sim self)) in
    (K_LEFT keys = false -> K_RIGHT keys = false ->
     angular_velocity self = 0 -> w = 0) /\
    update_physics cfg keys dt terrain self =
      if negb (is_some (_contact_screen self)) && negb (landed self)
      then flight cfg keys dt_sim turned
      else if is_some (_contact_screen self)
           then on_ground cfg keys dt_sim terrain turned
           else Ok turned.
Proof.
  intros Hc. unfold update_physics. rewrite Hc. cbv zeta.
  rewrite rotational_dynamics_value. cbv zeta. cbn [bind]. attrs.
  autorewrite with life_support. rewrite Hc. cbn [negb].
  rewrite andb_true_r.
  eexists. split; [| reflexivity].
  intros -> -> ->.
  destruct (_ && negb (landed self)); [unfold Rdiv; ring | reflexivity].
Qed.

(** The slope query reads the lander's position and sprite width only. *)
Lemma compute_surface_slope_ext (terrain : Terrain) (self other : Lander) :
  x other = x self -> img_w other = img_w self ->
  compute_surface_slope cfg terrain other =
  compute_surface_slope cfg terrain self.
Proof.
  intros Hx Hw. unfold compute_surface_slope. now rewrite Hx, Hw.
Qed.

(** Without the APU, and with charge left after the drain, life support
    burns no fuel. *)
Lemma life_support_no_apu (dt_sim : R) (self : Lander) :
  apu_on self = false ->
  0 < battery self - BATTERY_DRAIN_RATE cfg * dt_sim ->
  fuel (life_support cfg dt_sim self) = fuel self.
Proof.
  intros Ha Hb. rewrite life_support_eq. cbv zeta. attrs. rewrite Ha.
  rewrite Rmax_left by lra.
  destruct (Rleb_spec (battery self - BATTERY_DRAIN_RATE cfg * dt_sim) 0);
    [lra |].
  cbn [andb negb]. rewrite andb_false_r. reflexivity.
Qed.

(** On the ground with the thrust key down, fuel and a working engine:
    lift-off. *)
Lemma on_ground_lift_off (keys : Keys) (dt_sim : R) (terrain : Terrain)
    (self : Lander) (slope : R) :
  compute_surface_slope cfg terrain self = Ok slope ->
  K_UP keys = true -> 0 < fuel self -> engine_out self = false ->
  on_ground cfg keys dt_sim terrain self =
    lift_off cfg dt_sim
      (set_ay 0 (set_ax 0 (set_engine_on false
         (set_angular_velocity 0 self)))).
Proof.
  intros Hs Hk Hf He. unfold on_ground. rewrite Hs. cbn [bind]. cbv zeta.
  attrs. rewrite Hk, He.
  destruct (Rltb_spec 0 (fuel self)); [reflexivity | lra].
Qed.

(** On the ground without the thrust key, and a rotation step or more
    away from the slope: the pivot. *)
Lemma on_ground_pivot (keys : Keys) (dt_sim : R) (terrain : Terrain)
    (self : Lander) (slope : R) :
  compute_surface_slope cfg terrain self = Ok slope ->
  K_UP keys = false ->
  ROTATION_SPEED cfg * dt_sim <= Rabs (_angle_diff slope (angle self)) ->
  on_ground cfg keys dt_sim terrain self =
    pivot cfg dt_sim
      (set_ay 0 (set_ax 0 (set_engine_on false
         (set_angular_velocity 0 self)))).
Proof.
  intros Hs Hk Ha. unfold on_ground. rewrite Hs. cbn [bind]. cbv zeta.
  attrs. rewrite Hk. cbn [andb].
  destruct (Rleb_spec (ROTATION_SPEED cfg * dt_sim)
              (Rabs (_angle_diff slope (angle self)))); [reflexivity | lra].
Qed.

(** The mass is positive once the fuel has been clamped at 0. *)
Lemma clamped_mass_pos (a : R) : 0 < DRY_MASS cfg + Rmax a 0.
Proof. destruct Hok. pose proof (Rmax_r a 0). lra. Qed.

(** A lift-off step returns; the motion it computes. *)
Lemma lift_off_spec (dt_sim : R) (self : Lander) :
  exists lifted,
    lift_off cfg dt_sim self = Ok lifted /\
    landed lifted = false /\
    engine_on lifted = true /\
    crashed lifted = crashed self /\
    _contact_screen lifted = _contact_screen self /\
    angle lifted = angle self /\
    img_w lifted = img_w self /\
    fuel lifted =
      Rmax (fuel self
            - MAX_THRUST cfg * throttle self / (ISP cfg * G0_MOON cfg)
              * dt_sim * throttle self) 0 /\
    ax lifted =
      0 + MAX_THRUST cfg * throttle self / (DRY_MASS cfg + fuel lifted)
          * - sin (Py.radians (angle self)) /\
    ay lifted =
      0 + MAX_THRUST cfg * throttle self / (DRY_MASS cfg + fuel lifted)
          * - cos (Py.radians (angle self)) /\
    vx lifted = vx self + ax lifted * dt_sim /\
    vy lifted = vy self + - Rabs (ay lifted * dt_sim) /\
    x lifted = x self + vx lifted * dt_sim * px_per_m self.
Proof.
  unfold lift_off. cbv zeta.
  rewrite fdiv_Ok by (destruct Hok; nra). cbn [bind].
  rewrite fdiv_Ok
    by (unfold mass; attrs; pose proof (clamped_mass_pos
          (fuel self - MAX_THRUST cfg * throttle self
                       / (ISP cfg * G0_MOON cfg) * dt_sim * throttle self));
        lra).
  cbn [bind]. eexists. split; [reflexivity |]. unfold mass. attrs.
  repeat split; reflexivity.
Qed.

(** The pivot with the contact point on the gravity centre: the lever arm
    has length 0 and the division by it raises. *)
Lemma pivot_zero_arm (dt_sim : R) (self : Lander) (p : Z * Z) :
  _contact_screen self = Some p ->
  _gravity_center self = p ->
  px_per_m self <> 0 ->
  pivot cfg dt_sim self = Raise ZeroDivisionError.
Proof.
  intros Hc Hg Hm. unfold pivot. rewrite Hc, Hg. destruct p as [px py].
  cbn [bind]. rewrite !Z.sub_diag. rewrite !fdiv_Ok by assumption.
  cbn [bind]. cbv zeta.
  replace (Py.hypot (0 / px_per_m self) (0 / px_per_m self)) with 0.
  - now rewrite fdiv_Raise.
  - symmetry. apply hypot_zero_iff. split; unfold Rdiv; ring.
Qed.

(** Off the gravity centre the pivot returns. *)
Lemma pivot_total (dt_sim : R) (self : Lander) (p : Z * Z) :
  _contact_screen self = Some p ->
  _gravity_center self <> p ->
  px_per_m self <> 0 ->
  exists self', pivot cfg dt_sim self = Ok self'.
Proof.
  intros Hc Hg Hm. unfold pivot. rewrite Hc.
  destruct p as [px py]. destruct (_gravity_center self) as [gx gy].
  cbn [bind]. rewrite !fdiv_Ok by assumption. cbn [bind]. cbv zeta.
  assert (Hr : Py.hypot (IZR (gx - px) / px_per_m self)
                 (IZR (gy - py) / px_per_m self) <> 0).
  { intros H. apply hypot_zero_iff in H as [H1 H2].
    apply Hg. f_equal.
    - assert (E : IZR (gx - px) = 0).
      { apply (Rmult_eq_reg_r (/ px_per_m self));
          [unfold Rdiv in H1; lra | now apply Rinv_neq_0_compat]. }
      apply eq_IZR in E. lia.
    - assert (E : IZR (gy - py) = 0).
      { apply (Rmult_eq_reg_r (/ px_per_m self));
          [unfold Rdiv in H2; lra | now apply Rinv_neq_0_compat]. }
      apply eq_IZR in E. lia. }
  rewrite !fdiv_Ok by assumption. cbn [bind]. attrs.
  rewrite !fdiv_Ok by assumption. cbn [bind]. eauto.
Qed.

(** The main engine on a start attempt: the thrust key down, fuel, and an
    engine that is off and has not failed. *)
Lemma main_engine_start (keys : Keys) (dt_sim ax0 ay0 : R) (self : Lander) :
  K_UP keys = true -> 0 < fuel self ->
  engine_out self = false -> engine_on self = false ->
  let n := (engine_startup_count self + 1)%Z in
  let counted := set_engine_startup_count n self in
  let started :=
    if (n >=? ENGINE_STARTUP_LIMIT cfg)%Z then
      set_engine_on false
        (set_engine_out true
           (set_report (Some [("ENGINE FAILURE", Str "START_UP")]%string)
              counted))
    else set_engine_on true counted in
  let thrust := MAX_THRUST cfg * throttle self in
  let f :=
    Rmax (fuel self
          - thrust / (ISP cfg * G0_MOON cfg) * dt_sim * throttle self) 0 in
  let acc := thrust / (DRY_MASS cfg + f) in
  let rad := Py.radians (angle self) in
  main_engine cfg keys dt_sim ax0 ay0 self =
    Ok (set_fuel f started, (ax0 + acc * - sin rad, ay0 + acc * - cos rad)).
Proof.
  intros Hk Hf Ho He. cbv zeta. unfold main_engine.
  rewrite Hk, Ho, He. cbn [negb andb].
  destruct (Rltb_spec 0 (fuel self)); [| lra]. cbv zeta. attrs.
  destruct (engine_startup_count self + 1 >=? ENGINE_STARTUP_LIMIT cfg)%Z;
    attrs; (rewrite fdiv_Ok by (destruct Hok; nra)); cbn [bind];
    unfold mass; attrs;
    (rewrite fdiv_Ok by (pose proof (clamped_mass_pos
       (fuel self - MAX_THRUST cfg * throttle self
                    / (ISP cfg * G0_MOON cfg) * dt_sim * throttle self));
       lra));
    reflexivity.
Qed.

End Branches.

(** [l[i]] in a list of equal elements. *)
Lemma getitem_repeat {A} (a : A) (n : nat) (i : Z) :
  (0 <= i < Z.of_nat n)%Z -> getitem (repeat a n) i = Ok a.
Proof.
  intros Hi. unfold getitem.
  destruct (Z.ltb_spec i 0); [lia |].
  destruct (Z.ltb_spec i 0); [lia |].
  rewrite nth_error_repeat by lia. reflexivity.
Qed.

(** The flat ground has slope 0 under any lander over it. *)
Lemma slope_of_flat (cfg : Config) (self : Lander) :
  PIXEL_SIZE cfg = 8%Z ->
  img_w self = 64%Z ->
  0 <= x self + 32 < 1600 ->
  compute_surface_slope cfg flat self = Ok 0.
Proof.
  intros HP Hw Hx. unfold compute_surface_slope, floordiv.
  rewrite HP, Hw. rewrite fdiv_Ok by lra. cbn [bind].
  replace (IZR 64 / 2) with 32 by lra.
  set (c := Py.floor ((x self + 32) / 8)).
  assert (Hc : (0 <= c < 200)%Z).
  { pose proof (floor_bounds ((x self + 32) / 8)) as Hb. fold c in Hb.
    split.
    - apply Z.lt_succ_r, lt_IZR. rewrite succ_IZR. lra.
    - apply lt_IZR. lra. }
  change (topo flat) with (repeat 900%Z 200).
  change (Py.len (repeat 900%Z 200)) with 200%Z.
  rewrite !getitem_repeat by lia. cbn [bind].
  rewrite Z.sub_diag. f_equal.
  rewrite atan2_0_pos by (apply IZR_lt; lia).
  unfold Py.degrees, Rdiv. ring.
Qed.

(** ** The pivot's lever arm *)

(** C5, at a failing input.  The lander [wedged] has a contact point, has
    not crashed, gets no thrust command and is 90 degrees away from the
    slope, so [update_physics] takes the pivot branch; its contact point is
    its gravity centre, the lever arm [R] is 0, and the division by [R]
    raises [ZeroDivisionError]. *)
Theorem pivot_divides_by_zero :
  crashed wedged = false /\
  _contact_screen wedged = Some (_gravity_center wedged) /\
  K_UP no_keys = false /\
  update_physics medium no_keys (1 / 30) flat wedged
    = Raise ZeroDivisionError.
Proof.
  repeat split.
  destruct (update_physics_eq medium medium_ok no_keys (1 / 30) flat wedged
              eq_refl) as (w & Hw & E).
  cbv zeta in E. rewrite E. rewrite (Hw eq_refl eq_refl eq_refl).
  change (_contact_screen wedged) with (Some (532, 285)%Z).
  cbn [is_some negb andb].
  set (dt_sim := 1 / 30 * TIME_SCALE medium).
  assert (Hdt : dt_sim = 1 / 30) by (unfold dt_sim; simpl; lra).
  assert (Hangle : Py.fmod (angle wedged + 0 * dt_sim) 360 = 90).
  { rewrite fmod_small; simpl; lra. }
  rewrite Hangle.
  rewrite (on_ground_pivot medium no_keys dt_sim flat _ 0).
  - apply (pivot_zero_arm medium dt_sim _ (532, 285)%Z); attrs;
      autorewrite with life_support; try reflexivity. simpl. lra.
  - apply slope_of_flat; attrs; autorewrite with life_support;
      try reflexivity. simpl. eval_IZR. lra.
  - reflexivity.
  - attrs. rewrite _angle_diff_small by lra. rewrite Hdt. simpl.
    rewrite Rabs_left by lra. lra.
Qed.

(** ** The engine start-up limit *)

(** A failed engine stays failed along every run. *)
Lemma engine_out_permanent (cfg : Config) (self self' : Lander) :
  reachable cfg self self' -> engine_out self = true -> engine_out self' = true.
Proof.
  intros Hreach Hout. induction Hreach as [| mid self' _ IH Hstep];
    [assumption |].
  destruct Hstep as [keys dt terrain s s' _ H | offset s
    | pg keys terrain offset_x special_hit s s' H].
  - apply update_physics_inv in H. destruct H as (_ & _ & _ & He & _). auto.
  - destruct (draw_inv offset s) as (_ & _ & _ & _ & _ & He). now rewrite He.
  - apply collision_check_inv in H. destruct H as (_ & _ & _ & _ & He & _).
    now rewrite He.
Qed.

(** The older main engine on the same start attempt: the thrust is
    multiplied by the [engine_out] it has just set to 0, so no fuel is burnt
    and the acceleration is the one it was given. *)
Lemma legacy_startup_limit_does_not_fire :
  exists fired ax1 ay1,
    Legacy.main_engine medium thrust_key (1 / 30) 0 (G0_MOON medium) 1 worn
      = Ok (fired, 0%Z, (ax1, ay1)) /\
    engine_startup_count fired = ENGINE_STARTUP_LIMIT medium /\
    engine_on fired = false /\
    fuel fired = fuel worn /\
    ax1 = 0 /\
    ay1 = G0_MOON medium.
Proof.
  unfold Legacy.main_engine. cbn [K_UP thrust_key andb].
  destruct (Rltb_spec 0 (fuel worn)) as [_ | H]; [| simpl in H; lra].
  change (engine_on worn) with false. cbn [negb]. attrs.
  change (engine_startup_count worn + 1 >=? ENGINE_STARTUP_LIMIT medium)%Z
    with true.
  cbv iota beta.
  rewrite fdiv_Ok by (simpl; lra). cbn [bind]. attrs.
  rewrite fdiv_Ok by (simpl; lra). cbn [bind].
  do 3 eexists. split; [reflexivity |]. attrs.
  repeat split.
  - simpl. unfold Rmax. destruct (Rle_dec _ _); lra.
  - simpl. lra.
  - simpl. lra.
Qed.

(** C3, at a failing input.  The lander [worn] is in flight with four
    engine starts behind it, fuel, and the engine off; with the thrust key
    down the counter reaches [ENGINE_STARTUP_LIMIT = 5], the engine is
    disabled and the failure is reported, and yet fuel is burnt and the
    thrust acceleration is applied in that same step: the vertical
    acceleration is below gravity. *)
Theorem startup_limit_still_fires :
  exists fired,
    update_physics medium thrust_key (1 / 30) flat worn = Ok fired /\
    engine_startup_count fired = ENGINE_STARTUP_LIMIT medium /\
    engine_out fired = true /\
    engine_on fired = false /\
    report fired = Some [("ENGINE FAILURE", Str "START_UP")]%string /\
    fuel fired < fuel worn /\
    ay fired < G0_MOON medium.
Proof.
  destruct (update_physics_eq medium medium_ok thrust_key (1 / 30) flat worn
              eq_refl) as (w & Hw & E).
  cbv zeta in E. rewrite E. rewrite (Hw eq_refl eq_refl eq_refl). clear E Hw w.
  change (_contact_screen worn) with (@None (Z * Z)).
  change (landed worn) with false. cbn [is_some negb andb].
  set (dt_sim := 1 / 30 * TIME_SCALE medium).
  assert (Hdt : dt_sim = 1 / 30) by (unfold dt_sim; simpl; lra).
  assert (Hangle : Py.fmod (angle worn + 0 * dt_sim) 360 = 0).
  { rewrite fmod_small; simpl; lra. }
  rewrite Hangle.
  assert (Hfuel : fuel (life_support medium dt_sim worn) = 2000).
  { rewrite life_support_no_apu; [reflexivity | reflexivity |].
    rewrite Hdt. simpl. lra. }
  unfold flight. cbv zeta. cbn [K_1 K_2 K_3 thrust_key].
  rewrite main_engine_start;
    [| exact medium_ok | reflexivity | attrs; rewrite Hfuel; lra
     | attrs; now autorewrite with life_support
     | attrs; now autorewrite with life_support ].
  cbv zeta. cbn [bind]. eexists. split; [reflexivity |].
  unfold integrate. attrs. autorewrite with life_support. rewrite Hfuel.
  change (engine_startup_count worn + 1 >=? ENGINE_STARTUP_LIMIT medium)%Z
    with true.
  attrs. autorewrite with life_support.
  repeat split; try reflexivity.
  - (* the fuel burnt *)
    rewrite Hdt. simpl.
    assert (Hb : 0 < 45000 * 1 / (311 * 1.62) * (1 / 30) * 1).
    { apply Rmult_lt_0_compat; [| lra]. apply Rmult_lt_0_compat; [| lra].
      apply Rdiv_lt_0_compat; lra. }
    unfold Rmax. destruct (Rle_dec _ _); lra.
  - (* the thrust acceleration *)
    replace (Py.radians 0) with 0 by (unfold Py.radians, Rdiv; ring).
    rewrite cos_0. simpl.
    match goal with
    | |- context [45000 * 1 / ?m] =>
        assert (Hm : 0 < m) by (apply (clamped_mass_pos medium medium_ok));
        assert (Ha : 0 < 45000 * 1 / m) by (apply Rdiv_lt_0_compat; lra)
    end.
    lra.
Qed.

(** ** Lift-off from the ground *)

Section LiftOff.

Variable cfg : Config.
Hypothesis Hok : config_ok cfg.

(** With a contact point set, [draw] does not touch the lander. *)
Lemma draw_in_contact (offset : R) (self : Lander) (p : Z * Z) :
  _contact_screen self = Some p -> draw offset self = self.
Proof.
  intros Hc. unfold draw. rewrite Hc. cbn [is_some].
  rewrite orb_true_r. now destruct (crashed self).
Qed.

(** The collision check of a lander that has a contact point: the point is
    cleared when nothing overlaps and the thrust key is down, and kept
    otherwise. *)
Lemma collision_check_in_contact (pg : Pygame) (keys : Keys)
    (terrain : Terrain) (offset_x : R) (special_hit : bool)
    (self self' : Lander) (p : Z * Z) :
  rock_hit pg = false ->
  _contact_screen self = Some p ->
  collision_check cfg pg keys terrain offset_x special_hit self = Ok self' ->
  vy self' = vy self /\
  (overlap pg = None -> K_UP keys = true -> _contact_screen self' = None) /\
  (overlap pg = None -> K_UP keys = false -> _contact_screen self' = Some p) /\
  (overlap pg <> None -> _contact_screen self' = Some p).
Proof.
  intros Hr Hc H. unfold collision_check in H. rewrite Hr in H.
  destruct (compute_surface_slope cfg terrain self) as [slope |];
    cbn [bind] in H; [| discriminate].
  cbv zeta in H. attrs. rewrite Hc in H. cbn [is_some negb andb] in H.
  destruct (overlap pg) as [[cx cy] |].
  - injection H as <-. attrs. repeat split; congruence.
  - destruct (K_UP keys); injection H as <-; attrs; repeat split; congruence.
Qed.

(** A step of physics on the ground with the thrust key down, fuel left
    after life support and a working engine: the lift-off branch runs and
    returns.  [w] is the angular velocity of the rotation stage. *)
Lemma lift_off_step (keys : Keys) (dt : R) (terrain : Terrain)
    (self : Lander) (p : Z * Z) (slope : R) :
  let dt_sim := dt * TIME_SCALE cfg in
  crashed self = false ->
  _contact_screen self = Some p ->
  K_UP keys = true ->
  engine_out self = false ->
  0 < fuel (life_support cfg dt_sim self) ->
  compute_surface_slope cfg terrain self = Ok slope ->
  exists w lifted,
    (K_LEFT keys = false -> K_RIGHT keys = false ->
     angular_velocity self = 0 -> w = 0) /\
    update_physics cfg keys dt terrain self = Ok lifted /\
    landed lifted = false /\
    engine_on lifted = true /\
    crashed lifted = false /\
    _contact_screen lifted = Some p /\
    img_w lifted = img_w self /\
    angle lifted = Py.fmod (angle self + w * dt_sim) 360 /\
    ax lifted =
      0 + MAX_THRUST cfg * throttle self / (DRY_MASS cfg + fuel lifted)
          * - sin (Py.radians (angle lifted)) /\
    ay lifted =
      0 + MAX_THRUST cfg * throttle self / (DRY_MASS cfg + fuel lifted)
          * - cos (Py.radians (angle lifted)) /\
    vx lifted = vx self + ax lifted * dt_sim /\
    vy lifted = vy self + - Rabs (ay lifted * dt_sim) /\
    x lifted = x self + vx lifted * dt_sim * px_per_m self.
Proof.
  intros dt_sim Hc Hp Hk He Hf Hs.
  destruct (update_physics_eq cfg Hok keys dt terrain self Hc)
    as (w & Hw & E).
  cbv zeta in E. fold dt_sim in E. rewrite Hp in E.
  cbn [is_some negb andb] in E.
  set (turned := set_angle _ _) in E.
  assert (Hs' : compute_surface_slope cfg terrain turned = Ok slope).
  { rewrite <- Hs. apply compute_surface_slope_ext; unfold turned; attrs;
      now autorewrite with life_support. }
  rewrite (on_ground_lift_off cfg keys dt_sim terrain turned slope Hs' Hk) in E;
    [| unfold turned; attrs; assumption
     | unfold turned; attrs; now autorewrite with life_support ].
  destruct (lift_off_spec cfg Hok dt_sim
              (set_ay 0 (set_ax 0 (set_engine_on false
                 (set_angular_velocity 0 turned)))))
    as (lifted & Hl & H1 & H2 & H3 & H4 & H5 & H6 & H7 & H8 & H9 & H10
        & H11 & H12).
  exists w, lifted. split; [exact Hw |]. split; [now rewrite E |].
  unfold turned in *. attrs. autorewrite with life_support in *.
  rewrite H5.
  repeat split; try assumption; congruence.
Qed.

End LiftOff.

(** C4, amended.  Lift-off from the ground: with a contact point set, the
    lander not crashed, the thrust command issued, the engine not out and
    fuel left after the step's life support, [update_physics] runs the
    lift-off branch: the landed flag is cleared, the engine is on and the
    thrust acceleration is applied upwards to the velocity ([vy] decreases
    by [|ay * dt * TIME_SCALE|]).  It does not clear the contact point.  The
    collision
    check of the same frame clears it when the sprite no longer overlaps the
    terrain (and no rock is hit); while the sprite still overlaps, the
    contact point stays set. *)
Theorem lift_off_during_settlement
    (cfg : Config) (keys : Keys) (dt : R) (terrain : Terrain)
    (self : Lander) (p : Z * Z) (slope : R) :
  config_ok cfg ->
  crashed self = false ->
  _contact_screen self = Some p ->
  K_UP keys = true ->
  engine_out self = false ->
  0 < fuel (life_support cfg (dt * TIME_SCALE cfg) self) ->
  compute_surface_slope cfg terrain self = Ok slope ->
  exists lifted,
    update_physics cfg keys dt terrain self = Ok lifted /\
    landed lifted = false /\
    engine_on lifted = true /\
    crashed lifted = false /\
    _contact_screen lifted = Some p /\
    ay lifted =
      MAX_THRUST cfg * throttle self / (DRY_MASS cfg + fuel lifted)
      * - cos (Py.radians (angle lifted)) /\
    vy lifted = vy self - Rabs (ay lifted * (dt * TIME_SCALE cfg)) /\
    forall pg special_hit after,
      rock_hit pg = false ->
      frame cfg keys dt terrain pg special_hit self = Ok after ->
      vy after = vy lifted /\
      (overlap pg = None -> _contact_screen after = None) /\
      (overlap pg <> None -> _contact_screen after = Some p).
Proof.
  intros Hok Hc Hp Hk He Hf Hs.
  destruct (lift_off_step cfg Hok keys dt terrain self p slope Hc Hp Hk He Hf Hs)
    as (w & lifted & _ & Hl & H1 & H2 & H3 & H4 & _ & _ & _ & Hay & _ & Hvy & _).
  exists lifted. do 5 (split; [assumption |]).
  split; [rewrite Hay; ring |]. split; [rewrite Hvy; ring |].
  intros pg special_hit after Hr Hframe.
  unfold frame in Hframe. rewrite Hl in Hframe. cbn [bind] in Hframe.
  cbv zeta in Hframe. rewrite (draw_in_contact _ lifted p H4) in Hframe.
  rewrite H1, H3 in Hframe. cbn [orb negb] in Hframe.
  destruct (collision_check_in_contact cfg pg keys terrain _ special_hit
              lifted after p Hr H4 Hframe) as (Hv & Hclear & _ & Hkeep).
  split; [exact Hv |]. split; [intros Ho; now apply Hclear | exact Hkeep].
Qed.

(** The lander on the flat ground lifts off: the vertical velocity drops
    below 0 in the step, and the contact point is still set after it. *)
Lemma lift_off_during_settlement_witness :
  exists lifted,
    update_physics medium thrust_key (1 / 30) flat grounded = Ok lifted /\
    landed lifted = false /\
    engine_on lifted = true /\
    _contact_screen lifted = Some (532, 899)%Z /\
    vy lifted = vy grounded - Rabs (ay lifted * (1 / 30 * TIME_SCALE medium)).
Proof.
  assert (Hf : 0 < fuel (life_support medium (1 / 30 * TIME_SCALE medium)
                           grounded)).
  { rewrite life_support_no_apu; simpl; try reflexivity; lra. }
  destruct (lift_off_during_settlement medium thrust_key (1 / 30) flat grounded
              (532, 899)%Z 0 medium_ok eq_refl eq_refl eq_refl eq_refl Hf
              (flat_slope 0))
    as (lifted & Hl & H1 & H2 & _ & H4 & _ & Hvy & _).
  exists lifted. repeat split; assumption.
Defined.

(** C4 as stated fails when the sprite still overlaps the terrain after the
    lift-off thrust: the frame returns, the thrust has been applied, and the
    contact point is the one recorded before. *)
Lemma lift_off_keeps_contact :
  _contact_screen grounded = Some (532, 899)%Z /\
  landed grounded = false /\
  engine_out grounded = false /\
  0 < fuel grounded /\
  is_some (overlap touch) = true /\
  exists after,
    frame medium thrust_key (1 / 30) flat touch false grounded = Ok after /\
    _contact_screen after = Some (532, 899)%Z.
Proof.
  repeat (split; [reflexivity || (simpl; lra) |]).
  assert (Hf : 0 < fuel (life_support medium (1 / 30 * TIME_SCALE medium)
                           grounded)).
  { rewrite life_support_no_apu; simpl; try reflexivity; lra. }
  destruct (lift_off_step medium medium_ok thrust_key (1 / 30) flat grounded
              (532, 899)%Z 0 eq_refl eq_refl eq_refl eq_refl Hf (flat_slope 0))
    as (w & lifted & Hw & Hl & H1 & H2 & H3 & H4 & H5 & Ha & Hax & _ & Hvx
        & _ & Hx).
  rewrite (Hw eq_refl eq_refl eq_refl) in Ha.
  assert (Hx0 : x lifted = 500).
  { rewrite Hx, Hvx, Hax, Ha. rewrite fmod_small by (simpl; lra).
    simpl. replace (Py.radians (0 + 0 * (1 / 30 * 1))) with 0
      by (unfold Py.radians, Rdiv; ring).
    rewrite sin_0. eval_IZR. unfold Rdiv. ring. }
  assert (Hs : compute_surface_slope medium flat lifted = Ok 0).
  { apply slope_of_flat; [reflexivity | now rewrite H5 | rewrite Hx0; lra]. }
  unfold frame. rewrite Hl. cbn [bind]. cbv zeta.
  rewrite (draw_in_contact _ lifted _ H4). rewrite H1, H3. cbn [orb negb].
  unfold collision_check. cbn [rock_hit touch]. rewrite Hs. cbn [bind].
  cbv zeta. cbn [overlap touch]. attrs. rewrite H4. cbn [is_some negb].
  eexists. split; [reflexivity |]. attrs. exact H4.
Qed.

(** * Further properties

    Properties of the code beyond the claims above: edge cases of the
    queries, invariants of runs, the branches of the physics, and the
    functions around the physics core (the camera, the status line, the
    crash animation, the rock sensor, the older lander). *)

(** ** The terrain height *)





(** ** The slope query *)

(** The example lander's centre column over a terrain with 8-pixel
    columns. *)
Lemma lander0_centre :
  Py.floor ((x lander0 + IZR (img_w lander0) / 2) / IZR (PIXEL_SIZE medium))
  = 66%Z.
Proof.
  apply floor_unique. cbn. eval_IZR. lra.
Qed.

Lemma far_left_centre :
  Py.floor ((x far_left + IZR (img_w far_left) / 2) / IZR (PIXEL_SIZE medium))
  = (-121)%Z.
Proof.
  apply floor_unique. cbn. lra.
Qed.

(** An arc tangent is less than a quarter turn either way. *)
Lemma degrees_atan_bound (q : R) : -90 < Py.degrees (atan q) < 90.
Proof.
  pose proof (atan_bound q) as [Hl Hu]. pose proof PI_RGT_0 as Hpi.
  unfold Py.degrees.
  split.
  - apply Rmult_lt_reg_r with PI; [assumption |].
    unfold Rdiv. rewrite Rmult_assoc, Rmult_assoc, Rinv_l by lra. lra.
  - apply Rmult_lt_reg_r with PI; [assumption |].
    unfold Rdiv. rewrite Rmult_assoc, Rmult_assoc, Rinv_l by lra. lra.
Qed.

(** [math.degrees] keeps the sign. *)
Lemma degrees_sign (r : R) :
  (0 < Py.degrees r <-> 0 < r) /\ (Py.degrees r = 0 <-> r = 0).
Proof.
  pose proof PI_RGT_0 as Hpi. unfold Py.degrees.
  assert (E : r * 180 / PI = r * (180 / PI)) by (field; lra).
  rewrite E.
  assert (Hk : 0 < 180 / PI) by (apply Rdiv_lt_0_compat; lra).
  split; split; intro H; nra.
Qed.

(** The arc tangent keeps the sign. *)
Lemma atan_sign (q : R) : (0 < atan q <-> 0 < q) /\ (atan q = 0 <-> q = 0).
Proof.
  split; split; intro H.
  - destruct (Rle_or_lt q 0) as [Hq | Hq]; [| assumption].
    destruct Hq as [Hq | ->].
    + apply atan_increasing in Hq. rewrite atan_0 in Hq. lra.
    + rewrite atan_0 in H. lra.
  - apply atan_increasing in H. now rewrite atan_0 in H.
  - destruct (Rtotal_order q 0) as [Hq | [Hq | Hq]]; [| assumption |];
      apply atan_increasing in Hq; rewrite atan_0 in Hq; lra.
  - subst. apply atan_0.
Qed.

(** X3.  Over the terrain [compute_surface_slope] returns, and the slope is
    strictly between -90 and 90 degrees: for a terrain of at least two
    samples and a centre column from 4 left of the first sample to 4 right
    of the last, it reads the samples 5 columns to either side, clamped to
    the terrain; the slope is positive exactly when the right sample is
    higher on the screen (smaller) than the left one, and 0 when they are
    equal. *)
Theorem surface_slope_over_terrain (cfg : Config) (terrain : Terrain)
    (self : Lander) :
  let centre :=
    Py.floor ((x self + IZR (img_w self) / 2) / IZR (PIXEL_SIZE cfg)) in
  let left_i := Z.max 0 (centre - 5) in
  let right_i := Z.min (Py.len (topo terrain) - 1) (centre + 5) in
  (0 < PIXEL_SIZE cfg)%Z ->
  (2 <= Py.len (topo terrain))%Z ->
  (-5 < centre < Py.len (topo terrain) + 4)%Z ->
  exists y_left y_right slope,
    getitem (topo terrain) left_i = Ok y_left /\
    getitem (topo terrain) right_i = Ok y_right /\
    compute_surface_slope cfg terrain self = Ok slope /\
    -90 < slope < 90 /\
    (0 < slope <-> (y_right < y_left)%Z) /\
    (slope = 0 <-> y_left = y_right).
Proof.
  intros centre left_i right_i HP Hlen Hc.
  destruct (getitem_in_range (topo terrain) left_i) as [yl Hl];
    [subst left_i; lia |].
  destruct (getitem_in_range (topo terrain) right_i) as [yr Hr];
    [subst right_i; lia |].
  exists yl, yr.
  unfold compute_surface_slope, floordiv.
  rewrite fdiv_Ok by (apply not_0_IZR; lia).
  cbn [bind]. fold centre. fold left_i. fold right_i.
  rewrite Hl, Hr. cbn [bind].
  assert (Hdx : 0 < IZR ((right_i - left_i) * PIXEL_SIZE cfg)).
  { apply IZR_lt. subst left_i right_i. nia. }
  set (dx := IZR ((right_i - left_i) * PIXEL_SIZE cfg)) in *.
  unfold Py.atan2. destruct (Rlt_dec 0 dx) as [_ | N]; [| contradiction].
  eexists. split; [reflexivity |]. split; [reflexivity |].
  split; [reflexivity |].
  split; [apply degrees_atan_bound |].
  pose proof (degrees_sign (atan (IZR (yl - yr) / dx))) as [Hs Hz].
  pose proof (atan_sign (IZR (yl - yr) / dx)) as [Has Haz].
  assert (Hq : 0 < IZR (yl - yr) / dx <-> 0 < IZR (yl - yr)).
  { split; intro H.
    - apply Rmult_lt_compat_r with (r := dx) in H; [| assumption].
      unfold Rdiv in H. rewrite Rmult_assoc, Rinv_l in H by lra. lra.
    - apply Rdiv_lt_0_compat; assumption. }
  assert (Hq0 : IZR (yl - yr) / dx = 0 <-> IZR (yl - yr) = 0).
  { split; intro H.
    - apply (f_equal (fun v => v * dx)) in H.
      unfold Rdiv in H. rewrite Rmult_assoc, Rinv_l in H by lra. lra.
    - rewrite H. unfold Rdiv. lra. }
  split.
  - rewrite Hs, Has, Hq. split; intro H.
    + apply lt_IZR in H. lia.
    + apply IZR_lt. lia.
  - rewrite Hz, Haz, Hq0. split; intro H.
    + apply eq_IZR in H. lia.
    + apply IZR_eq. lia.
Qed.

(** The slope under the example lander over the flat ground. *)
Lemma surface_slope_over_terrain_witness :
  exists slope,
    compute_surface_slope medium flat lander0 = Ok slope /\ -90 < slope < 90.
Proof.
  destruct (surface_slope_over_terrain medium flat lander0)
    as (yl & yr & slope & _ & _ & Hs & Hb & _).
  - reflexivity.
  - cbn. lia.
  - rewrite lander0_centre. cbn. lia.
  - exists slope. split; assumption.
Defined.

(** A subscript at or past the length raises [IndexError]. *)
Lemma getitem_beyond {A} (l : list A) (i : Z) :
  (Py.len l <= i)%Z -> getitem l i = Raise IndexError.
Proof.
  intros H. unfold getitem, Py.len in *.
  destruct (Z.ltb_spec i 0); [lia |].
  destruct (Z.ltb_spec i 0); [lia |].
  destruct (nth_error l (Z.to_nat i)) eqn:E; [| reflexivity].
  assert (Hlt : (Z.to_nat i < List.length l)%nat).
  { apply nth_error_Some. congruence. }
  lia.
Qed.

(** X4.  Past the right end of the terrain the slope query fails: when the
    lander's centre column is [len(topo) + 5] or more, the left index
    [centre - 5] is past the end of the list, [compute_surface_slope]
    raises [IndexError], and so does [collision_check] unless a rock is
    hit, which is tested first.  One column nearer, at [len(topo) + 4],
    both indices are the last sample and the slope is 0 (an empty terrain
    raises there too). *)
Theorem slope_query_beyond_terrain (cfg : Config) (pg : Pygame) (keys : Keys)
    (terrain : Terrain) (offset_x : R) (special_hit : bool) (self : Lander) :
  let centre :=
    Py.floor ((x self + IZR (img_w self) / 2) / IZR (PIXEL_SIZE cfg)) in
  let n := Py.len (topo terrain) in
  (0 < PIXEL_SIZE cfg)%Z ->
  (n + 4 <= centre)%Z ->
  compute_surface_slope cfg terrain self =
    (if (centre =? n + 4)%Z && (0 <? n)%Z then Ok 0 else Raise IndexError) /\
  ((n + 5 <= centre)%Z ->
   collision_check cfg pg keys terrain offset_x special_hit self =
     if rock_hit pg then Ok (_crash pg "CRASHED INTO ROCKS" self)
     else Raise IndexError).
Proof.
  intros centre n HP Hc.
  assert (Hn : (0 <= n)%Z) by (subst n; unfold Py.len; lia).
  assert (Hs : compute_surface_slope cfg terrain self =
               if (centre =? n + 4)%Z && (0 <? n)%Z then Ok 0
               else Raise IndexError).
  { unfold compute_surface_slope, floordiv.
    rewrite fdiv_Ok by (apply not_0_IZR; lia).
    cbn [bind]. fold centre. fold n.
    destruct (Z.eqb_spec centre (n + 4)) as [E | E];
      destruct (Z.ltb_spec 0 n) as [L | L]; cbn [andb].
    - (* both indices on the last sample *)
      replace (Z.max 0 (centre - 5)) with (n - 1)%Z by lia.
      replace (Z.min (n - 1) (centre + 5)) with (n - 1)%Z by lia.
      destruct (getitem_in_range (topo terrain) (n - 1)) as [y Hy];
        [subst n; lia |].
      rewrite Hy. cbn [bind].
      replace (y - y)%Z with 0%Z by lia.
      replace ((n - 1 - (n - 1)) * PIXEL_SIZE cfg)%Z with 0%Z by lia.
      unfold Py.atan2.
      destruct (Rlt_dec 0 0) as [H | _]; [lra |].
      unfold Py.degrees. f_equal. unfold Rdiv. ring.
    - rewrite getitem_beyond; [reflexivity | fold n; lia].
    - rewrite getitem_beyond; [reflexivity | fold n; lia].
    - rewrite getitem_beyond; [reflexivity | fold n; lia]. }
  split; [assumption |].
  intros Hfar. unfold collision_check. rewrite Hs.
  destruct (Z.eqb_spec centre (n + 4)) as [E | _]; [lia |].
  reflexivity.
Qed.

(** The example lander at its starting place, over the three-column
    ridge: its centre column is 66.  Moved to x = 24 its centre column is
    7, four past the length, and the slope is 0. *)
Lemma slope_query_beyond_terrain_witness :
  collision_check medium touch no_keys ridge 0 false lander0
    = Raise IndexError /\
  compute_surface_slope medium ridge (set_x 24 lander0) = Ok 0.
Proof.
  split.
  - apply (slope_query_beyond_terrain medium touch no_keys ridge 0 false
             lander0).
    + reflexivity.
    + rewrite lander0_centre. cbn. lia.
    + rewrite lander0_centre. cbn. lia.
  - assert (Hc : Py.floor ((x (set_x 24 lander0)
                            + IZR (img_w (set_x 24 lander0)) / 2)
                           / IZR (PIXEL_SIZE medium)) = 7%Z).
    { apply floor_unique. simpl. eval_IZR. lra. }
    destruct (slope_query_beyond_terrain medium touch no_keys ridge 0 false
                (set_x 24 lander0)) as [Hs _].
    + reflexivity.
    + rewrite Hc. cbn. lia.
    + rewrite Hc in Hs. exact Hs.
Defined.

(** Half a turn is 180 degrees. *)
Lemma degrees_plus_PI (r : R) : Py.degrees (r + PI) = Py.degrees r + 180.
Proof. pose proof PI_RGT_0. unfold Py.degrees. field. lra. Qed.

Lemma degrees_minus_PI (r : R) : Py.degrees (r - PI) = Py.degrees r - 180.
Proof. pose proof PI_RGT_0. unfold Py.degrees. field. lra. Qed.

(** [math.atan2] with a negative run: more than a quarter turn, at most
    half a turn, either way. *)
Lemma degrees_atan2_backwards (b a : R) :
  a < 0 -> 90 < Rabs (Py.degrees (Py.atan2 b a)) <= 180.
Proof.
  intros Ha. unfold Py.atan2.
  destruct (Rlt_dec 0 a); [lra |].
  destruct (Rlt_dec a 0); [| lra].
  pose proof (degrees_atan_bound (b / a)) as Hb.
  pose proof (degrees_sign (atan (b / a))) as [Hs Hz].
  pose proof (atan_sign (b / a)) as [Has Haz].
  assert (Hinv : / a < 0) by (apply Rinv_lt_0_compat; assumption).
  destruct (Rle_dec 0 b) as [Hb0 | Hb0].
  - rewrite degrees_plus_PI.
    assert (Hq : ~ 0 < b / a) by (unfold Rdiv; nra).
    assert (Hd : Py.degrees (atan (b / a)) <= 0).
    { destruct (Rle_or_lt (Py.degrees (atan (b / a))) 0); [assumption |].
      exfalso. apply Hq. apply Has. apply Hs. assumption. }
    rewrite Rabs_right by lra. lra.
  - rewrite degrees_minus_PI.
    assert (Hq : 0 < b / a) by (unfold Rdiv; nra).
    apply Has, Hs in Hq.
    rewrite Rabs_left by lra. lra.
Qed.

(** X5.  Left of the terrain the slope query wraps around: when the centre
    column is more than 5 left of the first sample (by at most the
    terrain's length), the right index [centre + 5] is negative and the
    list is read from its end; the run [dx] is negative, and the slope
    returned is more than 90 degrees in absolute value. *)
Theorem slope_query_left_of_terrain (cfg : Config) (terrain : Terrain)
    (self : Lander) :
  let centre :=
    Py.floor ((x self + IZR (img_w self) / 2) / IZR (PIXEL_SIZE cfg)) in
  (0 < PIXEL_SIZE cfg)%Z ->
  (- Py.len (topo terrain) - 5 <= centre < -5)%Z ->
  exists y_left y_right,
    getitem (topo terrain) 0 = Ok y_left /\
    nth_error (topo terrain)
      (Z.to_nat (Py.len (topo terrain) + (centre + 5))) = Some y_right /\
    let slope :=
      Py.degrees
        (Py.atan2 (IZR (y_left - y_right))
           (IZR ((centre + 5) * PIXEL_SIZE cfg))) in
    compute_surface_slope cfg terrain self = Ok slope /\
    90 < Rabs slope <= 180.
Proof.
  intros centre HP Hc.
  assert (Hlen : (0 <= Py.len (topo terrain))%Z) by (unfold Py.len; lia).
  destruct (getitem_in_range (topo terrain) 0) as [yl Hl]; [lia |].
  destruct (nth_error (topo terrain)
              (Z.to_nat (Py.len (topo terrain) + (centre + 5))))
    as [yr |] eqn:Hr.
  2:{ apply nth_error_None in Hr. unfold Py.len in *. lia. }
  assert (Hg : getitem (topo terrain) (centre + 5) = Ok yr).
  { unfold getitem.
    destruct (Z.ltb_spec (centre + 5) 0); [| lia].
    destruct (Z.ltb_spec (centre + 5 + Py.len (topo terrain)) 0); [lia |].
    replace (centre + 5 + Py.len (topo terrain))%Z
      with (Py.len (topo terrain) + (centre + 5))%Z by lia.
    now rewrite Hr. }
  assert (E : compute_surface_slope cfg terrain self =
    Ok (Py.degrees
          (Py.atan2 (IZR (yl - yr)) (IZR ((centre + 5) * PIXEL_SIZE cfg))))).
  { unfold compute_surface_slope, floordiv.
    rewrite fdiv_Ok by (apply not_0_IZR; lia).
    cbn [bind]. fold centre.
    replace (Z.max 0 (centre - 5)) with 0%Z by lia.
    replace (Z.min (Py.len (topo terrain) - 1) (centre + 5))
      with (centre + 5)%Z by lia.
    rewrite Hl, Hg. cbn [bind].
    replace (centre + 5 - 0)%Z with (centre + 5)%Z by lia. reflexivity. }
  exists yl, yr.
  split; [exact Hl |]. split; [reflexivity |]. split; [exact E |].
  apply degrees_atan2_backwards. apply IZR_lt. nia.
Qed.

(** The example lander 1000 pixels left of the flat ground: its centre
    column is -121. *)
Lemma slope_query_left_of_terrain_witness :
  exists slope,
    compute_surface_slope medium flat far_left = Ok slope /\
    90 < Rabs slope <= 180.
Proof.
  destruct (slope_query_left_of_terrain medium flat far_left)
    as (yl & yr & _ & _ & Hs & Hb).
  - reflexivity.
  - rewrite far_left_centre. cbn. lia.
  - eexists. split; [exact Hs | exact Hb].
Defined.

(** ** Invariants of runs *)

(** What each stage of [update_physics], [collision_check] and [draw] do to
    the sprite's data, the science score, the temperature and the engine's
    state. *)

Section Ledger.

Variable cfg : Config.

(** What the main engine leaves alone, and what it does to the engine's
    state. *)
Lemma main_engine_ledger (keys : Keys) (dt_sim ax0 ay0 : R)
    (self self' : Lander) (acc : R * R) :
  main_engine cfg keys dt_sim ax0 ay0 self = Ok (self', acc) ->
  img_w self' = img_w self /\
  img_h self' = img_h self /\
  crash_frames self' = crash_frames self /\
  px_per_m self' = px_per_m self /\
  temperature self' = temperature self /\
  x self' = x self /\
  y self' = y self /\
  angular_velocity self' = angular_velocity self /\
  science self' = science self /\
  (engine_out self' = true -> engine_on self' = false) /\
  (engine_startup_count self <= engine_startup_count self')%Z /\
  (startups_bounded cfg self -> startups_bounded cfg self').
Proof.
  unfold main_engine, startups_bounded. intros H.
  returned H; cbn; repeat split; try reflexivity; intros;
    repeat match goal with
      | E : (_ >=? _)%Z = _ |- _ => apply Z.geb_leb in E
      | E : (_ <=? _)%Z = true |- _ => apply Z.leb_le in E
      | E : (_ <=? _)%Z = false |- _ => apply Z.leb_gt in E
      | E : negb _ = true |- _ => apply negb_true_iff in E
      | E : negb _ = false |- _ => apply negb_false_iff in E
      | E : _ && _ = true |- _ => apply andb_true_iff in E as [? ?]
      | H : _ /\ _ |- _ => destruct H
      | H : ?a = false -> _, E : ?a = false |- _ => specialize (H E)
      end;
    try congruence; try lia; auto.
Qed.

(** A step of flight; the heating is by the g-load of that step. *)
Lemma flight_ledger (keys : Keys) (dt_sim : R) (self self' : Lander) :
  flight cfg keys dt_sim self = Ok self' ->
  img_w self' = img_w self /\
  img_h self' = img_h self /\
  crash_frames self' = crash_frames self /\
  px_per_m self' = px_per_m self /\
  science self' = science self /\
  (engine_out self' = true -> engine_on self' = false) /\
  (engine_startup_count self <= engine_startup_count self')%Z /\
  (startups_bounded cfg self -> startups_bounded cfg self') /\
  (0 <= dt_sim -> temperature self <= MAX_TEMPERATURE cfg ->
   temperature self <= temperature self' <= MAX_TEMPERATURE cfg).
Proof.
  unfold flight. cbv zeta. intros H.
  match type of H with
  | bind (main_engine _ _ _ _ _ ?s) _ = _ =>
      destruct (main_engine cfg keys dt_sim 0 (G0_MOON cfg) s)
        as [[s1 [ax1 ay1]] |] eqn:E; cbn [bind] in H; [| discriminate]
  end.
  injection H as <-. apply main_engine_ledger in E.
  destruct E as (Hw & Hh & Hcf & Hp & Ht & _ & _ & _ & Hsc & He & Hn & Hb).
  unfold integrate. cbv zeta. attrs.
  rewrite Hw, Hh, Hcf, Hp, Ht, Hsc.
  assert (Hg : 0 <= Py.hypot ax1 ay1 / 9.81).
  { apply Rmult_le_pos; [apply hypot_nonneg | lra]. }
  unfold startups_bounded in *.
  destruct (K_1 keys), (K_2 keys), (K_3 keys); attrs;
    (repeat split; intros;
     try solve [reflexivity | auto | apply Hb; assumption];
     unfold Rmin; destruct (Rle_dec _ _); nra).
Qed.

(** A lift-off step. *)
Lemma lift_off_ledger (dt_sim : R) (self self' : Lander) :
  lift_off cfg dt_sim self = Ok self' ->
  img_w self' = img_w self /\
  img_h self' = img_h self /\
  crash_frames self' = crash_frames self /\
  px_per_m self' = px_per_m self /\
  science self' = science self /\
  temperature self' = temperature self /\
  engine_startup_count self' = engine_startup_count self.
Proof.
  unfold lift_off. intros H. returned H; cbn; repeat split; reflexivity.
Qed.

(** A pivot step. *)
Lemma pivot_ledger (dt_sim : R) (self self' : Lander) :
  pivot cfg dt_sim self = Ok self' ->
  img_w self' = img_w self /\
  img_h self' = img_h self /\
  crash_frames self' = crash_frames self /\
  px_per_m self' = px_per_m self /\
  science self' = science self /\
  temperature self' = temperature self /\
  engine_startup_count self' = engine_startup_count self /\
  engine_on self' = engine_on self.
Proof.
  unfold pivot. intros H. returned H; cbn; repeat split; reflexivity.
Qed.

(** A step on the ground: the engine is on only after a lift-off, which
    needs a working engine. *)
Lemma on_ground_ledger (keys : Keys) (dt_sim : R) (terrain : Terrain)
    (self self' : Lander) :
  on_ground cfg keys dt_sim terrain self = Ok self' ->
  img_w self' = img_w self /\
  img_h self' = img_h self /\
  crash_frames self' = crash_frames self /\
  px_per_m self' = px_per_m self /\
  science self' = science self /\
  temperature self' = temperature self /\
  engine_startup_count self' = engine_startup_count self /\
  (engine_out self' = true -> engine_on self' = false).
Proof.
  unfold on_ground. intros H.
  destruct (compute_surface_slope cfg terrain self) as [slope |] eqn:E;
    cbn [bind] in H; [| discriminate].
  cbv zeta in H. attrs.
  destruct (K_UP keys && (fuel self >? 0) && negb (engine_out self)) eqn:Ek.
  - pose proof H as H'. apply lift_off_ledger in H. apply lift_off_inv in H'.
    attrs.
    destruct H as (Hw & Hh & Hcf & Hp & Hsc & Ht & Hn).
    destruct H' as (_ & _ & _ & _ & _ & _ & He & _).
    apply andb_true_iff in Ek as [_ Ek]. apply negb_true_iff in Ek.
    repeat split; try assumption. intros; congruence.
  - destruct (Rabs (_angle_diff slope (angle self)) >=?
              ROTATION_SPEED cfg * dt_sim).
    + apply pivot_ledger in H. attrs.
      destruct H as (Hw & Hh & Hcf & Hp & Hsc & Ht & Hn & Ho).
      repeat split; try assumption. intros; assumption.
    + injection H as <-. unfold settled. cbn. repeat split; reflexivity.
Qed.

(** A step of physics: a crashed lander is returned as it is; otherwise
    the stages compose. *)
Lemma update_physics_ledger (keys : Keys) (dt : R) (terrain : Terrain)
    (self self' : Lander) :
  update_physics cfg keys dt terrain self = Ok self' ->
  (crashed self = true -> self' = self) /\
  img_w self' = img_w self /\
  img_h self' = img_h self /\
  crash_frames self' = crash_frames self /\
  px_per_m self' = px_per_m self /\
  science self' = science self /\
  ((engine_out self = true -> engine_on self = false) ->
   engine_out self' = true -> engine_on self' = false) /\
  (engine_startup_count self <= engine_startup_count self')%Z /\
  (startups_bounded cfg self -> startups_bounded cfg self') /\
  (0 <= dt -> 0 <= TIME_SCALE cfg ->
   temperature self <= MAX_TEMPERATURE cfg ->
   temperature self <= temperature self' <= MAX_TEMPERATURE cfg) /\
  (config_ok cfg -> 0 <= dt -> 0 <= oxygen self ->
   oxygen self' <= oxygen self) /\
  (config_ok cfg -> 0 <= dt -> 0 <= fuel self -> fuel self' <= fuel self).
Proof.
  unfold update_physics. cbv zeta. intros H.
  destruct (crashed self) eqn:Hc.
  { injection H as <-.
    repeat (split; [solve [auto | intros; lra | lia] |]). intros; lra. }
  split; [discriminate |].
  set (dt_sim := dt * TIME_SCALE cfg) in *.
  assert (Hsim : 0 <= dt -> 0 <= TIME_SCALE cfg -> 0 <= dt_sim).
  { intros. now apply Rmult_le_pos. }
  assert (Hox : config_ok cfg -> 0 <= dt -> 0 <= oxygen self ->
                oxygen (life_support cfg dt_sim self) <= oxygen self).
  { intros Hok Hdt Ho. rewrite life_support_eq. cbv zeta. attrs.
    destruct Hok.
    assert (0 <= OXYGEN_DRAIN_RATE cfg * dt_sim)
      by (apply Rmult_le_pos; auto).
    pose proof (Rmax_sub_bounds (oxygen self) _ H0 Ho). lra. }
  assert (Hfu : config_ok cfg -> 0 <= dt -> 0 <= fuel self ->
                0 <= fuel (life_support cfg dt_sim self) <= fuel self).
  { intros Hok Hdt Hf. rewrite life_support_eq. cbv zeta. attrs.
    destruct Hok.
    assert (0 <= APU_FUEL_RATE cfg * dt_sim)
      by (apply Rmult_le_pos; auto).
    pose proof (Rmax_sub_bounds (fuel self) _ H0 Hf).
    split_if; lra. }
  assert (Hok_sim : config_ok cfg -> 0 <= dt -> 0 <= dt_sim).
  { intros [] Hdt. now apply Rmult_le_pos. }
  destruct (rotational_dynamics cfg keys dt_sim _) as [s2 |] eqn:Er;
    cbn [bind] in H; [| discriminate].
  apply rotational_dynamics_eq in Er as [w ->]. attrs.
  autorewrite with life_support in H.
  set (s1 := life_support cfg dt_sim self) in *.
  set (s2 := set_angle _ (set_angular_velocity w s1)) in *.
  assert (E2 : img_w s2 = img_w self /\ img_h s2 = img_h self /\
               px_per_m s2 = px_per_m self /\
               science s2 = science self /\
               temperature s2 = temperature self /\
               engine_startup_count s2 = engine_startup_count self /\
               engine_out s2 = engine_out self /\
               engine_on s2 = engine_on self /\
               oxygen s2 = oxygen s1 /\ fuel s2 = fuel s1).
  { subst s2 s1. attrs. autorewrite with life_support.
    repeat split; reflexivity. }
  assert (Ecf : crash_frames s2 = crash_frames self).
  { subst s2 s1. attrs. rewrite life_support_eq. reflexivity. }
  destruct E2 as (Ew & Eh & Ep & Esc & Et & En & Eo & Eon & Eox & Efu).
  destruct (negb (is_some (_contact_screen self)) && negb (landed self)).
  - pose proof H as H'. apply flight_ledger in H. apply flight_inv in H'.
    destruct H as (Hw & Hh & Hcf & Hp & Hsc & He & Hn & Hb & Ht).
    destruct H' as (Ho & _ & _ & _ & _ & _ & _ & _ & Hf).
    unfold startups_bounded in *.
    rewrite Ew, Eh, Ecf, Ep, Esc, Et, En, Eo, Eox, Efu in *.
    assert (Cf : config_ok cfg -> 0 <= dt -> 0 <= fuel self ->
                 fuel self' <= fuel self).
    { intros Hok Hdt Hf0. destruct (Hfu Hok Hdt Hf0).
      assert (0 <= fuel self' <= fuel s1) by (apply Hf; auto). lra. }
    assert (Co : config_ok cfg -> 0 <= dt -> 0 <= oxygen self ->
                 oxygen self' <= oxygen self).
    { intros. rewrite Ho. auto. }
    repeat match goal with |- _ /\ _ => split end;
      solve [assumption | auto | congruence].
  - rewrite Hc in H. destruct (is_some (_contact_screen self) && negb false).
    + pose proof H as H'. apply on_ground_ledger in H.
      apply on_ground_inv in H'.
      destruct H as (Hw & Hh & Hcf & Hp & Hsc & Ht & Hn & He).
      destruct H' as (Ho & _ & _ & _ & _ & Heo & _ & Hf).
      unfold startups_bounded in *.
      rewrite Ew, Eh, Ecf, Ep, Esc, Et, En, Eo, Eox, Efu in *.
      assert (Cf : config_ok cfg -> 0 <= dt -> 0 <= fuel self ->
                   fuel self' <= fuel self).
      { intros Hok Hdt Hf0. destruct (Hfu Hok Hdt Hf0).
        assert (0 <= fuel self' <= fuel s1) by (apply Hf; auto). lra. }
      assert (Co : config_ok cfg -> 0 <= dt -> 0 <= oxygen self ->
                   oxygen self' <= oxygen self).
      { intros. rewrite Ho. auto. }
      rewrite Hw, Hh, Hcf, Hp, Hsc, Ht, Hn.
      repeat match goal with |- _ /\ _ => split end;
        solve [assumption | auto | congruence | lia | intros; lra].
    + injection H as <-.
      unfold startups_bounded in *.
      assert (Cf : config_ok cfg -> 0 <= dt -> 0 <= fuel self ->
                   fuel s2 <= fuel self).
      { intros Hok Hdt Hf0. destruct (Hfu Hok Hdt Hf0). lra. }
      assert (Co : config_ok cfg -> 0 <= dt -> 0 <= oxygen self ->
                   oxygen s2 <= oxygen self).
      { intros. rewrite Eox. auto. }
      rewrite Ew, Eh, Ecf, Ep, Esc, Et, En, Eo, Eon.
      repeat match goal with |- _ /\ _ => split end;
        solve [assumption | auto | congruence | lia | intros; lra].
Qed.

(** A collision check. *)
Lemma collision_check_ledger (pg : Pygame) (keys : Keys) (terrain : Terrain)
    (offset_x : R) (special_hit : bool) (self self' : Lander) :
  collision_check cfg pg keys terrain offset_x special_hit self = Ok self' ->
  img_w self' = img_w self /\
  img_h self' = img_h self /\
  crash_frames self' = crash_frames self /\
  px_per_m self' = px_per_m self /\
  temperature self' = temperature self /\
  engine_startup_count self' = engine_startup_count self /\
  (science self <= science self')%Z /\
  (engine_on self' = true -> engine_on self = true) /\
  (crashed self = true -> crashed self' = true) /\
  landed self' = landed self.
Proof.
  unfold collision_check, ratio_sum, _crash. intros H.
  returned H; attrs; repeat split; try reflexivity; intros;
    solve [assumption | discriminate | lia].
Qed.

(** A collision check does not crash with the cause "HARD LANDING" when
    the damage is -50 or more: a risk score above 1.5 adds more than 150. *)
Lemma collision_check_no_hard_landing (pg : Pygame) (keys : Keys)
    (terrain : Terrain) (offset_x : R) (special_hit : bool)
    (self self' : Lander) :
  -50 <= damage self ->
  ~ crashed_with "HARD LANDING" self ->
  collision_check cfg pg keys terrain offset_x special_hit self = Ok self' ->
  ~ crashed_with "HARD LANDING" self'.
Proof.
  unfold collision_check, ratio_sum. intros Hd Hn H.
  returned H; attrs;
    try (rewrite crashed_with_crash; discriminate);
    try (unfold crashed_with, report_get in *; attrs; exact Hn);
    try (unfold crashed_with, report_get; attrs; cbn; intros [_ ?];
         discriminate).
  all: exfalso.
  all: repeat match goal with
    | E : (_ <? _) = true |- _ => apply Rltb_true in E
    | E : _ && _ = false |- _ => apply andb_false_iff in E
    | E : (_ <=? _) = false |- _ => apply Rleb_false in E
    | E : (_ <? _) = false |- _ => apply Rltb_false in E
    end.
  all: match goal with
  | E : _ \/ _ |- _ =>
      destruct E as [E | E];
      [ apply Rleb_false in E; rewrite Rmin_right in E by lra; lra
      | apply Rltb_false in E; lra ]
  end.
Qed.

(** A drawing changes the gravity centre only. *)
Lemma draw_ledger (offset : R) (self : Lander) :
  let self' := draw offset self in
  img_w self' = img_w self /\
  img_h self' = img_h self /\
  crash_frames self' = crash_frames self /\
  px_per_m self' = px_per_m self /\
  temperature self' = temperature self /\
  engine_startup_count self' = engine_startup_count self /\
  science self' = science self /\
  engine_on self' = engine_on self /\
  crashed self' = crashed self /\
  landed self' = landed self /\
  report self' = report self /\
  oxygen self' = oxygen self /\
  fuel self' = fuel self.
Proof.
  unfold draw. cbv zeta.
  repeat split_if; repeat split; solve [reflexivity | assumption].
Qed.

End Ledger.

(** A run of the example lander: a step of physics with the thrust key
    down, a drawing, and a collision check that ends on a rock. *)
Lemma example_run :
  exists flown,
    update_physics medium thrust_key (1 / 30) flat lander0 = Ok flown /\
    reachable medium lander0
      (_crash rock "CRASHED INTO ROCKS" (draw 0 flown)).
Proof.
  destruct (update_physics_total_in_flight medium thrust_key (1 / 30) flat
              lander0 medium_ok eq_refl) as [flown Hflown].
  exists flown. split; [exact Hflown |].
  eapply reach_step; [eapply reach_step; [eapply reach_step |] |].
  - apply reach_here.
  - apply (step_physics medium thrust_key (1 / 30) flat lander0 flown);
      [lra | exact Hflown].
  - apply (step_draw medium 0 flown).
  - apply (step_collision medium rock thrust_key flat 0 false (draw 0 flown)).
    reflexivity.
Qed.

(** A frame of the example lander that ends on a rock. *)
Lemma example_frame :
  exists after,
    frame medium thrust_key (1 / 30) flat rock false lander0 = Ok after.
Proof.
  destruct (update_physics_total_in_flight medium thrust_key (1 / 30) flat
              lander0 medium_ok eq_refl) as [flown Hflown].
  unfold frame. rewrite Hflown. cbn [bind]. cbv zeta.
  destruct (negb _); [| eauto].
  unfold collision_check. change (rock_hit rock) with true. cbv iota. eauto.
Qed.

(** The frames of a session are a sequence of calls. *)
Lemma played_reachable (cfg : Config) (self self' : Lander) :
  played cfg self self' -> reachable cfg self self'.
Proof.
  induction 1 as [| keys dt terrain pg sh mid self' _ IH Hdt H].
  - apply reach_here.
  - apply frame_reachable in H; [| assumption].
    clear - IH H. induction H as [| m s' _ IH' Hs]; [assumption |].
    eapply reach_step; eassumption.
Qed.

(** X6.  A failed engine is never on: along any finite sequence of calls of
    [update_physics], [draw] and [collision_check], from a state in which
    the engine is not both out and on, [engine_out] once true stays true
    and [engine_on] is false whenever [engine_out] is true. *)
Theorem failed_engine_stays_off (cfg : Config) (self self' : Lander) :
  reachable cfg self self' ->
  (engine_out self = true -> engine_on self = false) ->
  (engine_out self = true -> engine_out self' = true) /\
  (engine_out self' = true -> engine_on self' = false).
Proof.
  intros Hreach Hoff. split; [apply (engine_out_permanent cfg); assumption |].
  induction Hreach as [| mid self' _ IH Hstep]; [assumption |].
  destruct Hstep as [keys dt terrain s s' _ H | offset s
    | pg keys terrain offset_x special_hit s s' H].
  - apply update_physics_ledger in H.
    destruct H as (_ & _ & _ & _ & _ & _ & He & _). auto.
  - destruct (draw_inv offset s) as (_ & _ & _ & _ & _ & He).
    destruct (draw_ledger offset s) as (_ & _ & _ & _ & _ & _ & _ & Hon & _).
    rewrite He, Hon. exact IH.
  - pose proof H as H'. apply collision_check_inv in H.
    apply collision_check_ledger in H'.
    destruct H as (_ & _ & _ & _ & He & _).
    destruct H' as (_ & _ & _ & _ & _ & _ & _ & Hon & _).
    rewrite He. intros Hout. specialize (IH Hout).
    destruct (engine_on s') eqn:E; [| reflexivity].
    rewrite Hon in IH by reflexivity. discriminate.
Qed.

(** The example run, which ends on a rock. *)
Lemma failed_engine_stays_off_witness :
  exists flown,
    update_physics medium thrust_key (1 / 30) flat lander0 = Ok flown /\
    let ended := _crash rock "CRASHED INTO ROCKS" (draw 0 flown) in
    (engine_out lander0 = true -> engine_out ended = true) /\
    (engine_out ended = true -> engine_on ended = false).
Proof.
  destruct example_run as (flown & Hflown & Hrun).
  exists flown. split; [exact Hflown |].
  apply (failed_engine_stays_off medium lander0 _ Hrun). discriminate.
Defined.

(** X7.  The start-up counter never passes [ENGINE_STARTUP_LIMIT] and never
    decreases, and while the engine has not failed it is below the limit,
    along any sequence of calls from a state where this holds (a reset
    lander, when the limit is positive). *)
Theorem startups_stay_bounded (cfg : Config) (self self' : Lander) :
  reachable cfg self self' ->
  startups_bounded cfg self ->
  startups_bounded cfg self' /\
  (engine_startup_count self <= engine_startup_count self')%Z.
Proof.
  intros Hreach Hb.
  induction Hreach as [| mid self' _ IH Hstep]; [split; [assumption | lia] |].
  destruct IH as [IHb IHn].
  destruct Hstep as [keys dt terrain s s' _ H | offset s
    | pg keys terrain offset_x special_hit s s' H].
  - apply update_physics_ledger in H.
    destruct H as (_ & _ & _ & _ & _ & _ & _ & Hn & Hk & _).
    split; [auto | lia].
  - destruct (draw_inv offset s) as (_ & _ & _ & _ & _ & He).
    destruct (draw_ledger offset s) as (_ & _ & _ & _ & _ & Hn & _).
    unfold startups_bounded in *. rewrite He, Hn. split; [assumption | lia].
  - pose proof H as H'. apply collision_check_inv in H.
    apply collision_check_ledger in H'.
    destruct H as (_ & _ & _ & _ & He & _).
    destruct H' as (_ & _ & _ & _ & _ & Hn & _).
    unfold startups_bounded in *. rewrite He, Hn. split; [assumption | lia].
Qed.

(** The example run: one start of the engine, below the limit of 5. *)
Lemma startups_stay_bounded_witness :
  exists flown,
    update_physics medium thrust_key (1 / 30) flat lander0 = Ok flown /\
    let ended := _crash rock "CRASHED INTO ROCKS" (draw 0 flown) in
    startups_bounded medium ended /\
    (engine_startup_count lander0 <= engine_startup_count ended)%Z.
Proof.
  destruct example_run as (flown & Hflown & Hrun).
  exists flown. split; [exact Hflown |].
  apply (startups_stay_bounded medium lander0 _ Hrun).
  split; cbn; lia.
Defined.

(** X8.  The lander never cools: along any sequence of calls the
    temperature does not decrease and stays at or below
    [MAX_TEMPERATURE], for a [TIME_SCALE] that is not negative. *)
Theorem temperature_never_falls (cfg : Config) (self self' : Lander) :
  0 <= TIME_SCALE cfg ->
  temperature self <= MAX_TEMPERATURE cfg ->
  reachable cfg self self' ->
  temperature self <= temperature self' <= MAX_TEMPERATURE cfg.
Proof.
  intros Hts Ht Hreach.
  induction Hreach as [| mid self' _ IH Hstep]; [lra |].
  destruct Hstep as [keys dt terrain s s' Hdt H | offset s
    | pg keys terrain offset_x special_hit s s' H].
  - apply update_physics_ledger in H.
    destruct H as (_ & _ & _ & _ & _ & _ & _ & _ & _ & Hk & _).
    specialize (Hk Hdt Hts (proj2 IH)). lra.
  - destruct (draw_ledger offset s) as (_ & _ & _ & _ & Hk & _).
    rewrite Hk. exact IH.
  - apply collision_check_ledger in H.
    destruct H as (_ & _ & _ & _ & Hk & _). rewrite Hk. exact IH.
Qed.

(** The example run, from 20 degrees. *)
Lemma temperature_never_falls_witness :
  exists flown,
    update_physics medium thrust_key (1 / 30) flat lander0 = Ok flown /\
    let ended := _crash rock "CRASHED INTO ROCKS" (draw 0 flown) in
    temperature lander0 <= temperature ended <= MAX_TEMPERATURE medium.
Proof.
  destruct example_run as (flown & Hflown & Hrun).
  exists flown. split; [exact Hflown |].
  apply (temperature_never_falls medium lander0 _); [| | exact Hrun];
    cbn; lra.
Defined.

(** X9.  Nothing refills the tanks: along any sequence of calls from a
    state within the resource limits, the fuel and the oxygen never
    increase and the science score never decreases. *)
Theorem consumables_never_replenished (cfg : Config) (self self' : Lander) :
  config_ok cfg ->
  within_limits cfg self ->
  reachable cfg self self' ->
  fuel self' <= fuel self /\ oxygen self' <= oxygen self /\
  (science self <= science self')%Z.
Proof.
  intros Hok Hw Hreach.
  assert (G : within_limits cfg self' /\ fuel self' <= fuel self /\
              oxygen self' <= oxygen self /\
              (science self <= science self')%Z).
  { induction Hreach as [| mid self' _ IH Hstep];
      [repeat split; solve [apply Hw | lra | lia] |].
    destruct IH as (IHw & IHf & IHo & IHs).
    split; [eapply step_limits; eassumption |].
    destruct IHw as (Ho & _ & Hf & _).
    destruct Hstep as [keys dt terrain s s' Hdt H | offset s
      | pg keys terrain offset_x special_hit s s' H].
    - apply update_physics_ledger in H.
      destruct H as (_ & _ & _ & _ & _ & Hsc & _ & _ & _ & _ & Hox & Hfu).
      specialize (Hox Hok Hdt (proj1 Ho)).
      specialize (Hfu Hok Hdt (proj1 Hf)).
      repeat split; try lra; lia.
    - destruct (draw_ledger offset s)
        as (_ & _ & _ & _ & _ & _ & Hsc & _ & _ & _ & _ & Hox & Hfu).
      rewrite Hsc, Hox, Hfu. repeat split; assumption.
    - pose proof H as H'. apply collision_check_inv in H.
      apply collision_check_ledger in H'.
      destruct H as (Hox & _ & Hfu & _).
      destruct H' as (_ & _ & _ & _ & _ & _ & Hsc & _).
      rewrite Hox, Hfu. repeat split; try assumption; lia. }
  tauto.
Qed.

(** The example run, from full tanks. *)
Lemma consumables_never_replenished_witness :
  exists flown,
    update_physics medium thrust_key (1 / 30) flat lander0 = Ok flown /\
    let ended := _crash rock "CRASHED INTO ROCKS" (draw 0 flown) in
    fuel ended <= fuel lander0 /\ oxygen ended <= oxygen lander0 /\
    (science lander0 <= science ended)%Z.
Proof.
  destruct example_run as (flown & Hflown & Hrun).
  exists flown. split; [exact Hflown |].
  exact (consumables_never_replenished medium lander0 _ medium_ok
           lander0_within_limits Hrun).
Defined.

(** X10.  The cause "HARD LANDING" is never reported: along any sequence of
    calls from a state with damage in [[-50, 100]] that does not report it,
    no state reports a crash with that cause.  A risk score above 1.5
    takes the damage to 100, and the structural-damage crash is tested
    first. *)
Theorem hard_landing_never_reported (cfg : Config) (self self' : Lander) :
  -50 <= damage self <= 100 ->
  ~ crashed_with "HARD LANDING" self ->
  reachable cfg self self' ->
  ~ crashed_with "HARD LANDING" self'.
Proof.
  intros Hd Hn Hreach.
  assert (G : -50 <= damage self' <= 100 /\
              ~ crashed_with "HARD LANDING" self').
  { induction Hreach as [| mid self' _ IH Hstep]; [split; assumption |].
    destruct IH as (IHd & IHn).
    destruct Hstep as [keys dt terrain s s' Hdt H | offset s
      | pg keys terrain offset_x special_hit s s' H].
    - pose proof H as H'. apply update_physics_inv in H.
      apply update_physics_ledger in H'.
      destruct H as (Hdm & Hcr & _). destruct H' as (Hsame & _).
      rewrite Hdm. split; [assumption |].
      destruct (crashed s) eqn:E.
      + rewrite Hsame by reflexivity. assumption.
      + apply not_crashed_with. congruence.
    - destruct (draw_inv offset s) as (_ & _ & _ & Hdm & _).
      destruct (draw_ledger offset s)
        as (_ & _ & _ & _ & _ & _ & _ & _ & Hcr & _ & Hrep & _).
      rewrite Hdm. split; [assumption |].
      unfold crashed_with, report_get in *. rewrite Hcr, Hrep. assumption.
    - split.
      + apply collision_check_inv in H.
        destruct H as (_ & _ & _ & _ & _ & Hdm).
        specialize (Hdm (proj2 IHd)). lra.
      + eapply collision_check_no_hard_landing; [| | eassumption];
          [lra | assumption]. }
  apply G.
Qed.

(** The example run: the cause it reports is the rock. *)
Lemma hard_landing_never_reported_witness :
  exists flown,
    update_physics medium thrust_key (1 / 30) flat lander0 = Ok flown /\
    ~ crashed_with "HARD LANDING"
        (_crash rock "CRASHED INTO ROCKS" (draw 0 flown)).
Proof.
  destruct example_run as (flown & Hflown & Hrun).
  exists flown. split; [exact Hflown |].
  apply (hard_landing_never_reported medium lander0 _); [| | exact Hrun].
  - cbn. lra.
  - apply not_crashed_with. reflexivity.
Defined.

(** X11.  [reset] forgets the run: after any sequence of calls, resetting
    gives the same state as resetting the lander the run started from. *)
Theorem reset_after_any_run (cfg : Config) (self self' : Lander) :
  reachable cfg self self' -> reset cfg self' = reset cfg self.
Proof.
  intros Hreach.
  assert (G : img_w self' = img_w self /\ img_h self' = img_h self /\
              crash_frames self' = crash_frames self /\
              px_per_m self' = px_per_m self).
  { induction Hreach as [| mid self' _ IH Hstep];
      [repeat split; reflexivity |].
    destruct IH as (IHw & IHh & IHc & IHp).
    destruct Hstep as [keys dt terrain s s' Hdt H | offset s
      | pg keys terrain offset_x special_hit s s' H].
    - apply update_physics_ledger in H.
      destruct H as (_ & Hw & Hh & Hc & Hp & _).
      rewrite Hw, Hh, Hc, Hp. auto.
    - destruct (draw_ledger offset s) as (Hw & Hh & Hc & Hp & _).
      rewrite Hw, Hh, Hc, Hp. auto.
    - apply collision_check_ledger in H.
      destruct H as (Hw & Hh & Hc & Hp & _).
      rewrite Hw, Hh, Hc, Hp. auto. }
  destruct G as (Hw & Hh & Hc & Hp).
  unfold reset. rewrite Hw, Hh, Hc, Hp. reflexivity.
Qed.

(** Resetting the lander at the end of the example run. *)
Lemma reset_after_any_run_witness :
  exists flown,
    update_physics medium thrust_key (1 / 30) flat lander0 = Ok flown /\
    reset medium (_crash rock "CRASHED INTO ROCKS" (draw 0 flown))
    = reset medium lander0.
Proof.
  destruct example_run as (flown & Hflown & Hrun).
  exists flown. split; [exact Hflown |].
  exact (reset_after_any_run medium lander0 _ Hrun).
Defined.

(** ** Frames of the main loop *)

(** X12.  A crashed lander is frozen: the simulation step of the main loop
    (physics, drawing, collision check) leaves it as it is, whatever the
    keys, the clock and the terrain, so any number of frames do. *)
Theorem crashed_lander_is_frozen (cfg : Config) (self self' : Lander) :
  crashed self = true -> played cfg self self' -> self' = self.
Proof.
  intros Hc Hp.
  induction Hp as [| keys dt terrain pg sh mid self' _ IH Hdt H];
    [reflexivity |].
  subst mid. unfold frame, update_physics in H. cbv zeta in H.
  rewrite Hc in H. cbn [bind] in H. unfold draw in H. rewrite Hc in H.
  rewrite Hc, orb_true_r in H. cbn [negb] in H. now injection H.
Qed.

(** A frame on the wreck of the example lander, thrust key down. *)
Lemma crashed_lander_is_frozen_witness :
  frame medium thrust_key (1 / 30) flat touch true wreck = Ok wreck /\
  forall after,
    frame medium thrust_key (1 / 30) flat touch true wreck = Ok after ->
    after = wreck.
Proof.
  split.
  - unfold frame, update_physics. change (crashed wreck) with true.
    cbv iota. cbn [bind]. unfold draw. change (crashed wreck) with true.
    cbv iota. rewrite orb_true_r. reflexivity.
  - intros after H.
    apply (crashed_lander_is_frozen medium wreck after); [reflexivity |].
    eapply played_frame; [apply played_none | | exact H]. lra.
Defined.

(** X13.  Along the frames of the main loop a lander is never both landed
    and crashed, if it is not to begin with: the collision check, the only
    place that crashes, is skipped for a landed lander. *)
Theorem never_landed_and_crashed (cfg : Config) (self self' : Lander) :
  ~ (landed self = true /\ crashed self = true) ->
  played cfg self self' ->
  ~ (landed self' = true /\ crashed self' = true).
Proof.
  intros Hn Hp.
  induction Hp as [| keys dt terrain pg sh mid self' _ IH Hdt H];
    [assumption |].
  unfold frame in H.
  destruct (update_physics cfg keys dt terrain mid) as [s1 |] eqn:E;
    cbn [bind] in H; [| discriminate].
  cbv zeta in H.
  pose proof E as E'. apply update_physics_inv in E.
  apply update_physics_ledger in E'.
  destruct E as (_ & Hcr & _). destruct E' as (Hsame & _).
  set (off := compute_camera_offset cfg (x s1)) in *.
  destruct (draw_ledger off s1)
    as (_ & _ & _ & _ & _ & _ & _ & _ & Dc & Dl & _).
  rewrite Dc, Dl in H.
  assert (H1 : ~ (landed s1 = true /\ crashed s1 = true)).
  { destruct (crashed mid) eqn:Ec.
    - rewrite Hsame by reflexivity. rewrite Ec. assumption.
    - intros [_ ?]. congruence. }
  destruct (landed s1 || crashed s1) eqn:Eg; cbn [negb] in H.
  - injection H as <-. rewrite Dc, Dl. assumption.
  - apply orb_false_iff in Eg as [El _].
    apply collision_check_ledger in H.
    destruct H as (_ & _ & _ & _ & _ & _ & _ & _ & _ & Hl).
    rewrite Hl, Dl, El. intros [? _]. discriminate.
Qed.

(** The frame of the example lander that ends on a rock. *)
Lemma never_landed_and_crashed_witness :
  exists after,
    frame medium thrust_key (1 / 30) flat rock false lander0 = Ok after /\
    ~ (landed after = true /\ crashed after = true).
Proof.
  destruct example_frame as (after & Hframe).
  exists after. split; [exact Hframe |].
  apply (never_landed_and_crashed medium lander0 after).
  - intros [H _]. discriminate H.
  - eapply played_frame; [apply played_none | | exact Hframe]. lra.
Defined.

(** ** Settlement *)

Lemma grounded_slope : compute_surface_slope medium flat grounded = Ok 0.
Proof.
  rewrite (compute_surface_slope_ext medium flat (descending 0) grounded);
    [apply flat_slope | reflexivity | reflexivity].
Qed.

(** [%] is idempotent. *)
Lemma fmod_fmod (a m : R) : 0 < m -> Py.fmod (Py.fmod a m) m = Py.fmod a m.
Proof. intros Hm. apply fmod_small. now apply fmod_range. Qed.

(** An angle and its reduction modulo 360 are no angle apart. *)
Lemma _angle_diff_fmod (a : R) : _angle_diff a (Py.fmod a 360) = 0.
Proof.
  unfold _angle_diff. unfold Py.fmod at 2.
  set (k := Py.floor (a / 360)).
  unfold Py.fmod.
  replace (Py.floor ((a - (a - 360 * IZR k) + 180) / 360)) with k.
  - lra.
  - symmetry. apply floor_unique. lra.
Qed.

Section Settlement.

Variable cfg : Config.
Hypothesis Hok : config_ok cfg.

(** On the ground without the thrust key, less than a rotation step from
    the slope: settlement. *)
Lemma on_ground_settled (keys : Keys) (dt_sim : R) (terrain : Terrain)
    (self : Lander) (slope : R) :
  compute_surface_slope cfg terrain self = Ok slope ->
  K_UP keys = false ->
  Rabs (_angle_diff slope (angle self)) < ROTATION_SPEED cfg * dt_sim ->
  on_ground cfg keys dt_sim terrain self =
    Ok (settled slope
          (set_ay 0 (set_ax 0 (set_engine_on false
             (set_angular_velocity 0 self))))).
Proof.
  intros Hs Hk Ha. unfold on_ground. rewrite Hs. cbn [bind]. cbv zeta.
  attrs. rewrite Hk. cbn [andb].
  destruct (Rleb_spec (ROTATION_SPEED cfg * dt_sim)
              (Rabs (_angle_diff slope (angle self)))); [lra | reflexivity].
Qed.

(** A step of physics on a lander in contact that neither rotates nor is
    torqued (it has landed, or no rotation key is down), without the thrust
    key and near the slope. *)
Lemma update_physics_settles (keys : Keys) (dt : R) (terrain : Terrain)
    (self : Lander) (slope : R) :
  let dt_sim := dt * TIME_SCALE cfg in
  crashed self = false ->
  is_some (_contact_screen self) = true ->
  K_UP keys = false ->
  angular_velocity self = 0 ->
  landed self = true \/ K_LEFT keys = false /\ K_RIGHT keys = false ->
  compute_surface_slope cfg terrain self = Ok slope ->
  Rabs (_angle_diff slope (Py.fmod (angle self) 360))
    < ROTATION_SPEED cfg * dt_sim ->
  exists self',
    update_physics cfg keys dt terrain self = Ok self' /\
    at_rest cfg terrain self' /\
    angle self' = Py.fmod slope 360 /\
    x self' = x self /\
    y self' = y self /\
    ax self' = 0 /\
    ay self' = 0 /\
    engine_on self' = false.
Proof.
  intros dt_sim Hc Hs Hk Hw Hrot Hslope Hnear.
  unfold update_physics. fold dt_sim. rewrite Hc.
  rewrite (rotational_dynamics_value cfg Hok). cbv zeta. cbn [bind]. attrs.
  autorewrite with life_support. rewrite Hc, Hs, Hw. cbn [negb andb].
  match goal with
  | |- context [set_angular_velocity ?v _] => set (w := v)
  end.
  assert (Ew : w = 0).
  { subst w. destruct Hrot as [Hl | [Hl Hr]].
    - rewrite Hl. cbn [negb]. rewrite andb_false_r. reflexivity.
    - rewrite Hl, Hr. destruct (_ && _); [unfold Rdiv; ring | reflexivity]. }
  rewrite Ew. replace (angle self + 0 * dt_sim) with (angle self) by ring.
  (erewrite on_ground_settled;
     [| erewrite compute_surface_slope_ext;
        [exact Hslope | attrs; autorewrite with life_support; reflexivity ..]
      | exact Hk
      | attrs; exact Hnear ]).
  eexists; split; [reflexivity |].
  unfold at_rest, settled; attrs; autorewrite with life_support.
  repeat split; try reflexivity; try assumption.
  exists slope; split; [| reflexivity].
  erewrite compute_surface_slope_ext;
    [exact Hslope | attrs; autorewrite with life_support; reflexivity ..].
Qed.

End Settlement.

(** X14.  Settlement: a lander in contact with the ground that is not
    rotating, with no key pressed, and whose angle is within one rotation
    step of the slope under it, is landed by [update_physics]: it is at
    rest ([landed], velocities and accelerations 0, engine off) at the
    slope's angle modulo 360, where it was. *)
Theorem touchdown_settles (cfg : Config) (keys : Keys) (dt : R)
    (terrain : Terrain) (self : Lander) (slope : R) :
  config_ok cfg ->
  crashed self = false ->
  is_some (_contact_screen self) = true ->
  K_UP keys = false -> K_LEFT keys = false -> K_RIGHT keys = false ->
  angular_velocity self = 0 ->
  compute_surface_slope cfg terrain self = Ok slope ->
  Rabs (_angle_diff slope (Py.fmod (angle self) 360))
    < ROTATION_SPEED cfg * (dt * TIME_SCALE cfg) ->
  exists self',
    update_physics cfg keys dt terrain self = Ok self' /\
    at_rest cfg terrain self' /\
    angle self' = Py.fmod slope 360 /\
    x self' = x self /\
    y self' = y self /\
    ax self' = 0 /\
    ay self' = 0 /\
    engine_on self' = false.
Proof.
  intros Hok Hc Hs Hk Hl Hr Hw Hslope Hnear.
  apply update_physics_settles; auto.
Qed.

(** The example lander upright on the flat ground, no key pressed. *)
Lemma touchdown_settles_witness :
  exists landed',
    update_physics medium no_keys (1 / 30) flat grounded = Ok landed' /\
    at_rest medium flat landed' /\
    angle landed' = Py.fmod 0 360.
Proof.
  destruct (touchdown_settles medium no_keys (1 / 30) flat grounded 0)
    as (landed' & Hu & Hrest & Hang & _);
    try reflexivity.
  - exact medium_ok.
  - exact grounded_slope.
  - change (angle grounded) with 0. rewrite fmod_small by lra.
    rewrite _angle_diff_small by lra.
    replace (0 - 0) with 0 by ring. rewrite Rabs_R0. cbn. lra.
  - exists landed'. split; [exact Hu | split; [exact Hrest | exact Hang]].
Defined.

Lemma resting_at_rest : at_rest medium flat resting.
Proof.
  unfold at_rest.
  repeat (split; [reflexivity |]).
  exists 0. split.
  - rewrite (compute_surface_slope_ext medium flat (descending 0) resting);
      [apply flat_slope | reflexivity | reflexivity].
  - rewrite fmod_small by lra. reflexivity.
Qed.

(** X15.  A landed lander stays put: a frame without the thrust key, over
    a positive time, takes a lander at rest to a lander at rest at the same
    position and angle, whatever the rotation keys; the collision check is
    skipped. *)
Theorem rest_is_stable (cfg : Config) (keys : Keys) (dt : R)
    (terrain : Terrain) (pg : Pygame) (special_hit : bool) (self : Lander) :
  config_ok cfg ->
  0 < dt -> 0 < TIME_SCALE cfg -> 0 < ROTATION_SPEED cfg ->
  K_UP keys = false ->
  at_rest cfg terrain self ->
  exists self',
    frame cfg keys dt terrain pg special_hit self = Ok self' /\
    at_rest cfg terrain self' /\
    x self' = x self /\
    y self' = y self /\
    angle self' = angle self.
Proof.
  intros Hok Hdt Hts Hrs Hk (Hc & Hl & Hs & Hw & Hvx & Hvy & slope & Hsl & Ha).
  destruct (update_physics_settles cfg Hok keys dt terrain self slope)
    as (self' & Hu & Hrest & Hang & Hx & Hy & _); auto.
  { rewrite Ha, fmod_fmod by lra. rewrite _angle_diff_fmod, Rabs_R0.
    apply Rmult_lt_0_compat; [assumption |].
    apply Rmult_lt_0_compat; assumption. }
  exists self'. unfold frame. rewrite Hu. cbn [bind]. cbv zeta.
  pose proof Hrest as (Hc' & Hl' & _).
  unfold draw. rewrite Hc', Hl'. cbn [orb negb]. rewrite Hl'. cbn [orb negb].
  split; [reflexivity |]. split; [assumption |].
  split; [assumption |]. split; [assumption |]. congruence.
Qed.

(** A frame on the example lander at rest on the flat ground. *)
Lemma rest_is_stable_witness :
  exists after,
    frame medium no_keys (1 / 30) flat touch false resting = Ok after /\
    at_rest medium flat after /\
    x after = x resting /\ y after = y resting /\
    angle after = angle resting.
Proof.
  apply (rest_is_stable medium no_keys (1 / 30) flat touch false resting);
    try reflexivity; try (cbn; lra).
  - exact medium_ok.
  - exact resting_at_rest.
Defined.

(** ** When the physics returns *)

(** X16.  [update_physics] returns whenever the scale [px_per_m] is not 0
    and, if a contact point is set, it is not the gravity centre and the
    slope query succeeds there: in flight it always returns. *)
Theorem update_physics_returns (cfg : Config) (keys : Keys) (dt : R)
    (terrain : Terrain) (self : Lander) :
  config_ok cfg ->
  px_per_m self <> 0 ->
  (forall p, _contact_screen self = Some p ->
     _gravity_center self <> p /\
     exists slope, compute_surface_slope cfg terrain self = Ok slope) ->
  exists self', update_physics cfg keys dt terrain self = Ok self'.
Proof.
  intros Hok Hp Hcontact.
  destruct (_contact_screen self) as [p |] eqn:Hs;
    [| now apply update_physics_total_in_flight].
  destruct (Hcontact p eq_refl) as (Hcg & slope & Hslope).
  destruct (crashed self) eqn:Hc.
  { unfold update_physics. rewrite Hc. eauto. }
  destruct (update_physics_eq cfg Hok keys dt terrain self Hc) as (w & _ & E).
  cbv zeta in E. rewrite E, Hs. cbn [is_some negb andb]. clear E.
  set (turned := set_angle _ _).
  assert (Et : compute_surface_slope cfg terrain turned = Ok slope).
  { erewrite compute_surface_slope_ext; [exact Hslope | |];
      subst turned; attrs; autorewrite with life_support; reflexivity. }
  unfold on_ground. rewrite Et. cbn [bind]. cbv zeta.
  destruct (K_UP keys && _ && _).
  - destruct (lift_off_spec cfg Hok (dt * TIME_SCALE cfg)
                (set_ay 0 (set_ax 0 (set_engine_on false
                   (set_angular_velocity 0 turned)))))
      as (lifted & Hl & _).
    eauto.
  - destruct (_ >=? _); [| eauto].
    apply pivot_total with (p := p);
      subst turned; attrs; autorewrite with life_support; assumption.
Qed.

(** The example lander on the flat ground: its contact point (532, 899) is
    not its gravity centre (532, 285). *)
Lemma update_physics_returns_witness :
  exists after, update_physics medium no_keys (1 / 30) flat grounded = Ok after.
Proof.
  apply (update_physics_returns medium no_keys (1 / 30) flat grounded).
  - exact medium_ok.
  - cbn. lra.
  - intros p Hp. split.
    + injection Hp as <-. unfold grounded, descending, lander0.
      cbn [_gravity_center set__contact_screen set_vy set_vx reset
           img_w img_h blank SCREEN_SIZE medium].
      intros E. injection E as _ E.
      change (1000 / 4)%Z with 250%Z in E.
      replace (IZR 250 + IZR 70 / 2) with (IZR 285) in E by lra.
      rewrite int_IZR in E. discriminate E.
    + exists 0. exact grounded_slope.
Defined.

(** ** Power, free fall and thrust *)

Section Power.

Variable cfg : Config.

(** After life support the battery holds charge: at 0 the APU is on, or
    comes on, and recharges. *)
Lemma life_support_recharges (dt_sim : R) (self : Lander) :
  0 < APU_RECHARGE_RATE cfg * dt_sim -> 0 < MAX_BATTERY cfg ->
  0 < battery (life_support cfg dt_sim self).
Proof.
  intros Hr Hm. rewrite life_support_eq. cbv zeta. attrs.
  set (b0 := Rmax (battery self - BATTERY_DRAIN_RATE cfg * dt_sim) 0).
  assert (Hb0 : 0 <= b0) by apply Rmax_r.
  destruct (Rleb_spec b0 0) as [Hz | Hp]; cbn [andb].
  - destruct (apu_on self) eqn:Ha; cbn [negb andb].
    + destruct (Rleb_spec 50 b0); [lra |]. cbn [andb].
      destruct (Rltb_spec b0 (MAX_BATTERY cfg)); [| lra]. cbn [andb].
      unfold Rmin. destruct (Rle_dec _ _); lra.
    + destruct (Rltb_spec b0 (MAX_BATTERY cfg)); [| lra]. cbn [andb].
      unfold Rmin. destruct (Rle_dec _ _); lra.
  - destruct (_ && _); [| lra].
    unfold Rmin. destruct (Rle_dec _ _); lra.
Qed.

End Power.

(** X17.  The battery is never flat after a step of physics on a lander that
    has not crashed: at 0 the APU starts and recharges it in the same
    step, with fuel or without.  So the rotation keys always act in
    flight: the angular velocity changes by torque / inertia * time. *)
Theorem battery_never_flat (cfg : Config) (keys : Keys) (dt : R)
    (terrain : Terrain) (self self' : Lander) :
  0 < dt -> 0 < TIME_SCALE cfg ->
  0 < APU_RECHARGE_RATE cfg -> 0 < MAX_BATTERY cfg ->
  ANGULAR_INERTIA cfg <> 0 ->
  crashed self = false ->
  update_physics cfg keys dt terrain self = Ok self' ->
  let torque :=
    (if K_LEFT keys then ROTATION_TORQUE cfg else 0)
    - (if K_RIGHT keys then ROTATION_TORQUE cfg else 0) in
  0 < battery self' /\
  (_contact_screen self = None -> landed self = false ->
   angular_velocity self' =
     angular_velocity self
     + torque / ANGULAR_INERTIA cfg * (dt * TIME_SCALE cfg)).
Proof.
  intros Hdt Hts Hr Hm Hi Hc H torque.
  set (dt_sim := dt * TIME_SCALE cfg) in *.
  assert (Hsim : 0 < dt_sim) by (now apply Rmult_lt_0_compat).
  assert (Hb : 0 < battery (life_support cfg dt_sim self)).
  { apply life_support_recharges; [| assumption].
    now apply Rmult_lt_0_compat. }
  unfold update_physics in H. fold dt_sim in H. rewrite Hc in H.
  unfold rotational_dynamics in H. rewrite fdiv_Ok in H by assumption.
  destruct (Rltb_spec 0 (battery (life_support cfg dt_sim self)));
    [| lra].
  autorewrite with life_support in H. cbn [andb] in H.
  destruct (landed self) eqn:Hl; cbn [negb bind] in H.
  - attrs. autorewrite with life_support in H. rewrite Hc, Hl in H.
    cbn [negb] in H. rewrite ?andb_false_r, ?andb_true_r in H.
    split; [| discriminate].
    destruct (is_some (_contact_screen self)).
    + apply on_ground_inv in H. destruct H as (_ & Hbat & _).
      rewrite Hbat. attrs. exact Hb.
    + injection H as <-. attrs. exact Hb.
  - attrs. autorewrite with life_support in H. rewrite Hc, Hl in H.
    cbn [negb] in H. rewrite ?andb_false_r, ?andb_true_r in H.
    destruct (is_some (_contact_screen self)) eqn:Hs; cbn [negb] in H.
    + split; [| intros E; rewrite E in Hs; discriminate].
      apply on_ground_inv in H. destruct H as (_ & Hbat & _).
      rewrite Hbat. attrs. exact Hb.
    + unfold flight in H. cbv zeta in H.
      match type of H with
      | bind (main_engine _ _ _ _ _ ?s) _ = _ =>
          destruct (main_engine cfg keys dt_sim 0 (G0_MOON cfg) s)
            as [[s1 [ax1 ay1]] |] eqn:E; cbn [bind] in H; [| discriminate]
      end.
      injection H as <-.
      assert (Hw : angular_velocity s1 =
                   angular_velocity self
                   + torque / ANGULAR_INERTIA cfg * dt_sim).
      { pose proof E as E'. apply main_engine_ledger in E'.
        destruct E' as (_ & _ & _ & _ & _ & _ & _ & Hav & _).
        rewrite Hav. subst torque.
        destruct (K_1 keys), (K_2 keys), (K_3 keys); attrs;
          autorewrite with life_support;
          destruct (K_LEFT keys), (K_RIGHT keys); lra. }
      apply main_engine_inv in E. destruct E as (_ & Hbat & _).
      unfold integrate. cbv zeta. attrs. rewrite Hbat.
      split; [| intros _ _; exact Hw].
      destruct (K_1 keys), (K_2 keys), (K_3 keys); attrs; exact Hb.
Qed.

(** A step of the example lander in flight. *)
Lemma battery_never_flat_witness :
  exists flown,
    update_physics medium thrust_key (1 / 30) flat lander0 = Ok flown /\
    0 < battery flown.
Proof.
  destruct (update_physics_total_in_flight medium thrust_key (1 / 30) flat
              lander0 medium_ok eq_refl) as [flown Hflown].
  exists flown. split; [exact Hflown |].
  apply (battery_never_flat medium thrust_key (1 / 30) flat lander0 flown);
    first [exact Hflown | reflexivity | cbn; lra].
Defined.

(** X18.  Coasting is free fall: a step of [update_physics] in flight
    without the thrust key leaves the horizontal velocity, adds
    [G0_MOON * dt] to the vertical velocity, and moves the lander by the
    new velocity times [dt] (in pixels); the engine is off and no start is
    counted. *)
Theorem coasting_is_free_fall (cfg : Config) (keys : Keys) (dt : R)
    (terrain : Terrain) (self : Lander) :
  config_ok cfg ->
  crashed self = false ->
  _contact_screen self = None ->
  landed self = false ->
  K_UP keys = false ->
  let dt_sim := dt * TIME_SCALE cfg in
  exists self',
    update_physics cfg keys dt terrain self = Ok self' /\
    engine_on self' = false /\
    engine_startup_count self' = engine_startup_count self /\
    ax self' = 0 /\
    ay self' = G0_MOON cfg /\
    vx self' = vx self /\
    vy self' = vy self + G0_MOON cfg * dt_sim /\
    x self' = x self + vx self' * dt_sim * px_per_m self /\
    y self' = y self + vy self' * dt_sim * px_per_m self /\
    gforce self' = G0_MOON cfg / 9.81.
Proof.
  intros Hok Hc Hs Hl Hk dt_sim.
  destruct (update_physics_eq cfg Hok keys dt terrain self Hc) as (w & _ & E).
  cbv zeta in E. fold dt_sim in E. rewrite E, Hs, Hl. cbn [is_some negb andb].
  clear E.
  unfold flight, main_engine. cbv zeta. rewrite Hk. cbn [andb].
  assert (Hg : Py.hypot 0 (G0_MOON cfg) / 9.81 = G0_MOON cfg / 9.81).
  { rewrite hypot_0_l, Rabs_right; [reflexivity |]. destruct Hok. lra. }
  destruct (K_1 keys), (K_2 keys), (K_3 keys); attrs;
    destruct (_ <=? 0); cbn [bind]; unfold integrate; cbv zeta; attrs;
    autorewrite with life_support;
    (eexists; split; [reflexivity |]); attrs; autorewrite with life_support;
    rewrite Hg; repeat split; try reflexivity; lra.
Qed.

(** A step of the example lander with no key pressed. *)
Lemma coasting_is_free_fall_witness :
  exists fallen,
    update_physics medium no_keys (1 / 30) flat lander0 = Ok fallen /\
    vy fallen = vy lander0 + G0_MOON medium * (1 / 30 * TIME_SCALE medium) /\
    ay fallen = G0_MOON medium.
Proof.
  destruct (coasting_is_free_fall medium no_keys (1 / 30) flat lander0)
    as (fallen & Hu & _ & _ & _ & Hay & _ & Hvy & _);
    try reflexivity.
  - exact medium_ok.
  - exists fallen. repeat split; assumption.
Defined.

(** X19.  Thrust in flight burns fuel as the square of the throttle: a step
    with the thrust key, fuel left after life support and a working engine
    takes [MAX_THRUST / (ISP * G0_MOON) * dt * throttle^2] from the tank
    (down to 0), and accelerates the lander by
    [MAX_THRUST * throttle / mass] along its axis, with the mass taken
    after the burn; the throttle is the one the keys 1, 2, 3 select. *)
Theorem thrust_in_flight (cfg : Config) (keys : Keys) (dt : R)
    (terrain : Terrain) (self : Lander) :
  config_ok cfg ->
  crashed self = false ->
  _contact_screen self = None ->
  landed self = false ->
  K_UP keys = true ->
  engine_out self = false ->
  let dt_sim := dt * TIME_SCALE cfg in
  let tank := fuel (life_support cfg dt_sim self) in
  let level :=
    if K_1 keys then 1
    else if K_2 keys then 0.5
    else if K_3 keys then 0.33
    else throttle self in
  0 < tank ->
  exists self',
    update_physics cfg keys dt terrain self = Ok self' /\
    throttle self' = level /\
    fuel self' =
      Rmax (tank
            - MAX_THRUST cfg / (ISP cfg * G0_MOON cfg) * dt_sim
              * (level * level)) 0 /\
    let acc := MAX_THRUST cfg * level / (DRY_MASS cfg + fuel self') in
    ax self' = - acc * sin (Py.radians (angle self')) /\
    ay self' = G0_MOON cfg - acc * cos (Py.radians (angle self')) /\
    vx self' = vx self + ax self' * dt_sim /\
    vy self' = vy self + ay self' * dt_sim.
Proof.
  intros Hok Hc Hs Hl Hk Hout dt_sim tank level Htank.
  destruct (update_physics_eq cfg Hok keys dt terrain self Hc) as (w & _ & E).
  cbv zeta in E. fold dt_sim in E. rewrite E, Hs, Hl. cbn [is_some negb andb].
  clear E.
  assert (Hden : ISP cfg * G0_MOON cfg <> 0) by (destruct Hok; nra).
  unfold flight. cbv zeta.
  set (turned := set_angle _ _).
  set (chosen := if K_1 keys then set_throttle 1 turned else _).
  assert (Ec : throttle chosen = level /\ fuel chosen = tank /\
               engine_out chosen = false /\ angle chosen = angle turned /\
               vx chosen = vx self /\ vy chosen = vy self).
  { subst chosen level turned tank.
    destruct (K_1 keys), (K_2 keys), (K_3 keys); attrs;
      autorewrite with life_support; repeat split;
      solve [reflexivity | assumption]. }
  destruct Ec as (Et & Ef & Eo & Ea & Evx & Evy).
  unfold main_engine. rewrite Hk, Eo, Ef. cbn [andb negb].
  destruct (Rltb_spec 0 tank); [| lra]. cbn [andb].
  rewrite andb_true_r.
  set (started := if negb (engine_on chosen) then _ else chosen).
  assert (Es : throttle started = level /\ fuel started = tank /\
               angle started = angle turned /\
               vx started = vx self /\ vy started = vy self).
  { subst started. destruct (negb (engine_on chosen));
      [destruct (_ >=? _)%Z |]; attrs; repeat split; assumption. }
  destruct Es as (Et' & Ef' & Ea' & Evx' & Evy').
  cbv zeta. rewrite Et', Ef', fdiv_Ok by assumption. cbn [bind].
  unfold mass. attrs.
  rewrite fdiv_Ok by (pose proof (clamped_mass_pos cfg Hok
    (tank - MAX_THRUST cfg * level / (ISP cfg * G0_MOON cfg) * dt_sim * level));
    lra).
  cbn [bind]. eexists. split; [reflexivity |].
  unfold integrate. cbv zeta. attrs.
  rewrite Et', Ea', Evx', Evy'.
  replace (MAX_THRUST cfg * level / (ISP cfg * G0_MOON cfg) * dt_sim * level)
    with (MAX_THRUST cfg / (ISP cfg * G0_MOON cfg) * dt_sim * (level * level))
    by (unfold Rdiv; ring).
  repeat split; try reflexivity; lra.
Qed.

(** A step of the example lander with the thrust key down. *)
Lemma thrust_in_flight_witness :
  exists flown,
    update_physics medium thrust_key (1 / 30) flat lander0 = Ok flown /\
    throttle flown = throttle lander0.
Proof.
  destruct (thrust_in_flight medium thrust_key (1 / 30) flat lander0)
    as (flown & Hu & Ht & _);
    try reflexivity.
  - exact medium_ok.
  - rewrite (life_support_no_apu medium); [cbn; lra | reflexivity | cbn; lra].
  - exists flown. split; [exact Hu | exact Ht].
Defined.

(** ** The camera and the difficulty levels ([main.py]) *)

(** X20.  The camera keeps the lander at [SCREEN_SIZE // 2] on the screen
    and stops at the ends of the terrain: the offset is in
    [[0, TERRAIN_LENGTH - SCREEN_SIZE]], it is [x - SCREEN_SIZE // 2]
    between the ends, 0 left of that and [TERRAIN_LENGTH - SCREEN_SIZE]
    right of it. *)
Theorem camera_follows_lander (cfg : Config) (x0 : R) :
  (SCREEN_SIZE cfg <= TERRAIN_LENGTH cfg)%Z ->
  let half := IZR (SCREEN_SIZE cfg / 2) in
  let room := IZR (TERRAIN_LENGTH cfg - SCREEN_SIZE cfg) in
  let off := compute_camera_offset cfg x0 in
  0 <= off <= room /\
  (half <= x0 <= room + half -> x0 - off = half) /\
  (x0 <= half -> off = 0) /\
  (room + half <= x0 -> off = room).
Proof.
  intros Hfit half room off.
  assert (Hroom : 0 <= room) by (apply IZR_le; lia).
  subst off. unfold compute_camera_offset. cbv zeta. fold half. fold room.
  unfold Rmax, Rmin.
  repeat split; intros; repeat destruct (Rle_dec _ _); lra.
Qed.

(** The medium configuration, a lander at 700: the camera is at 200 and
    the lander at 500 on the screen. *)
Lemma camera_follows_lander_witness :
  compute_camera_offset medium 700 = 200 /\
  700 - compute_camera_offset medium 700 = IZR (SCREEN_SIZE medium / 2).
Proof.
  destruct (camera_follows_lander medium 700) as (_ & Hmid & _).
  - cbn. lia.
  - assert (H : 700 - compute_camera_offset medium 700
                = IZR (SCREEN_SIZE medium / 2)).
    { apply Hmid. cbn. eval_IZR. lra. }
    split; [| exact H].
    revert H. cbn [SCREEN_SIZE medium]. eval_IZR. lra.
Defined.

(** X21.  The difficulty modifiers rewrite the configuration in place, so
    they compose over the games of a session: "Hard" is idempotent and
    overrides every change of "Easy", while "Easy" compounds, [n] games on
    "Easy" multiplying the fuel by 1.75^n and the start-up limit by 10^n;
    the sign conditions of the physics are kept. *)
Theorem difficulty_modifiers_compose (c : Config) (n : nat) :
  hard (hard c) = hard c /\
  hard (easy c) = hard c /\
  FUEL_START (Nat.iter n easy c) = FUEL_START c * 1.75 ^ n /\
  ENGINE_STARTUP_LIMIT (Nat.iter n easy c)
    = (ENGINE_STARTUP_LIMIT c * 10 ^ Z.of_nat n)%Z /\
  (config_ok c -> config_ok (Nat.iter n easy c)).
Proof.
  split; [reflexivity |]. split; [reflexivity |].
  induction n as [| n (IHf & IHl & IHok)].
  - cbn. split; [lra |]. split; [lia | auto].
  - rewrite Nat.iter_succ. split; [| split].
    + change (FUEL_START (easy (Nat.iter n easy c)))
        with (FUEL_START (Nat.iter n easy c) * 1.75).
      rewrite IHf. cbn [pow]. lra.
    + change (ENGINE_STARTUP_LIMIT (easy (Nat.iter n easy c)))
        with (ENGINE_STARTUP_LIMIT (Nat.iter n easy c) * 10)%Z.
      rewrite IHl, Nat2Z.inj_succ, Z.pow_succ_r by lia. lia.
    + intros H. apply easy_ok. auto.
Qed.

(** ** The older lander *)



(** X23.  The two landers diverge on lift-off with a failed engine: on the
    ground, with the thrust key and fuel, the older [update_physics] lifts
    off at full thrust without reading [engine_out] (engine on, fuel
    burnt, gravity kept in the acceleration); the newer one leaves the
    engine off and the fuel as it is. *)
Theorem legacy_lift_off_ignores_engine_failure (cfg : Config) (keys : Keys)
    (dt_sim : R) (terrain : Terrain) (self : Lander) (slope : R) :
  config_ok cfg ->
  0 < dt_sim -> 0 < MAX_THRUST cfg ->
  compute_surface_slope cfg terrain self = Ok slope ->
  K_UP keys = true ->
  0 < fuel self ->
  engine_out self = true ->
  (exists lifted,
     Legacy.on_ground cfg keys dt_sim terrain self = Ok lifted /\
     landed lifted = false /\
     engine_on lifted = true /\
     fuel lifted < fuel self /\
     ay lifted =
       G0_MOON cfg
       - MAX_THRUST cfg / (DRY_MASS cfg + fuel self)
         * cos (Py.radians (angle self))) /\
  (forall stayed,
     on_ground cfg keys dt_sim terrain self = Ok stayed ->
     engine_on stayed = false /\ fuel stayed = fuel self).
Proof.
  intros Hok Hdt Ht Hs Hk Hf Hout. split.
  - unfold Legacy.on_ground. rewrite Hs. cbn [bind]. cbv zeta. attrs.
    rewrite Hk. destruct (Rltb_spec 0 (fuel self)); [| lra]. cbn [andb].
    unfold Legacy.lift_off. cbv zeta.
    assert (Hden : ISP cfg * G0_MOON cfg <> 0) by (destruct Hok; nra).
    assert (Hburn : 0 < MAX_THRUST cfg / (ISP cfg * G0_MOON cfg) * dt_sim).
    { apply Rmult_lt_0_compat; [| assumption].
      apply Rdiv_lt_0_compat; [assumption |]. destruct Hok; nra. }
    rewrite fdiv_Ok by assumption. cbn [bind].
    assert (Hless : Rmax (fuel self
                          - MAX_THRUST cfg / (ISP cfg * G0_MOON cfg) * dt_sim)
                      0 < fuel self).
    { unfold Rmax. destruct (Rle_dec _ _). all: lra. }
    attrs. destruct (vy self >? 0); attrs;
      (rewrite fdiv_Ok by (destruct Hok; lra)); cbn [bind];
      (eexists; split; [reflexivity |]); attrs;
      (split; [reflexivity |]); (split; [reflexivity |]);
      (split; [exact Hless | ring]).
  - intros stayed H. unfold on_ground in H. rewrite Hs in H.
    cbn [bind] in H. cbv zeta in H. attrs. rewrite Hk, Hout in H.
    cbn [negb] in H. rewrite andb_false_r in H.
    destruct (_ >=? _).
    + apply pivot_inv in H as Hi. apply pivot_ledger in H.
      destruct Hi as (_ & _ & _ & Hfu & _).
      destruct H as (_ & _ & _ & _ & _ & _ & _ & Hon).
      rewrite Hfu, Hon. attrs. split; reflexivity.
    + injection H as <-. unfold settled. attrs. split; reflexivity.
Qed.

(** The example lander on the ground with a failed engine. *)
Lemma legacy_lift_off_ignores_engine_failure_witness :
  exists lifted,
    Legacy.on_ground medium thrust_key (1 / 30) flat stranded = Ok lifted /\
    landed lifted = false /\
    engine_on lifted = true /\
    fuel lifted < fuel stranded.
Proof.
  destruct (legacy_lift_off_ignores_engine_failure medium thrust_key (1 / 30)
              flat stranded 0)
    as ((lifted & Hl & Hlanded & Hon & Hfuel & _) & _);
    try reflexivity; try (cbn; lra).
  - exact medium_ok.
  - rewrite (compute_surface_slope_ext medium flat (descending 0) stranded);
      [apply flat_slope | reflexivity | reflexivity].
  - exists lifted. repeat split; assumption.
Defined.

(** ** The crash animation *)

(** The frames are as many as [crash_frames] says. *)
Lemma len_frame_numbers (self : Lander) :
  (0 <= crash_frames self)%Z -> Py.len (frame_numbers self) = crash_frames self.
Proof.
  intros H. unfold Py.len, frame_numbers.
  rewrite length_map, length_seq. lia.
Qed.

(** A frame index in range is the frame blitted. *)
Lemma getitem_frame_numbers (self : Lander) (i : Z) :
  (0 <= i < crash_frames self)%Z -> getitem (frame_numbers self) i = Ok i.
Proof.
  intros H. unfold getitem.
  destruct (Z.ltb_spec i 0); [lia |].
  destruct (Z.ltb_spec i 0); [lia |].
  unfold frame_numbers.
  rewrite nth_error_map, nth_error_seq.
  destruct (Nat.ltb_spec (Z.to_nat i) (Z.to_nat (crash_frames self)));
    [| lia].
  cbn. f_equal. lia.
Qed.

(** A tick keeps the frame index on the frames and does not take it back;
    after the animation has ended it does nothing. *)
Lemma tick_crash_anim_index (delay : Z) (pg : Pygame) (self : Lander) :
  let self' := tick_crash_anim delay pg self in
  crash_frames self' = crash_frames self /\
  ((0 <= crash_index self < crash_frames self)%Z ->
   (0 <= crash_index self' < crash_frames self)%Z /\
   (crash_index self <= crash_index self')%Z) /\
  (crash_anim self = false -> self' = self).
Proof.
  unfold tick_crash_anim. cbv zeta.
  destruct (crash_anim self); cbn [negb]; [| auto with zarith].
  destruct (_ >=? delay)%Z; [| split; [reflexivity | split; [lia | auto]]].
  attrs.
  destruct (Z.geb_spec (crash_index self + 1) (crash_frames self)); attrs;
    (split; [reflexivity | split; [lia | discriminate]]).
Qed.

(** X24.  The crash animation stays on its frames: after a crash and any
    number of ticks, whatever the clock, [crash_index] is the index of a
    frame, which [draw_crash] blits; further ticks never take it back, and
    change nothing once the animation has ended. *)
Theorem crash_animation_stays_on_frames (delay : Z)
    (pg : Pygame) (reason : string) (clock : list Pygame) (self : Lander) :
  (1 <= crash_frames self)%Z ->
  let wreck := crash_animation delay clock (_crash pg reason self) in
  (0 <= crash_index wreck < crash_frames self)%Z /\
  draw_crash wreck = Ok (crash_index wreck) /\
  forall later,
    (crash_index wreck
     <= crash_index (crash_animation delay later wreck))%Z /\
    (crash_anim wreck = false -> crash_animation delay later wreck = wreck).
Proof.
  intros Hf.
  assert (G : forall clock s,
             (0 <= crash_index s < crash_frames s)%Z ->
             let s' := crash_animation delay clock s in
             crash_frames s' = crash_frames s /\
             (0 <= crash_index s' < crash_frames s)%Z /\
             (crash_index s <= crash_index s')%Z /\
             (crash_anim s = false -> s' = s)).
  { clear. induction clock as [| pg clock IH]; intros s Hs.
    - cbn. repeat split; auto; lia.
    - cbn [crash_animation fold_left].
      destruct (tick_crash_anim_index delay pg s) as (Hcf & Hi & Hstop).
      specialize (Hi Hs). destruct Hi as [Hi Hm].
      destruct (IH (tick_crash_anim delay pg s)) as (Hcf' & Hi' & Hm' & Hstop');
        [rewrite Hcf; exact Hi |].
      unfold crash_animation in *. rewrite Hcf in *.
      repeat split; try lia; try assumption.
      intros Hoff. rewrite (Hstop Hoff) in *. auto. }
  intros wreck.
  destruct (G clock (_crash pg reason self)) as (Hcf & Hi & _);
    [cbn; lia |].
  fold wreck in Hcf, Hi.
  change (crash_frames (_crash pg reason self)) with (crash_frames self)
    in *.
  split; [exact Hi |]. split.
  - unfold draw_crash. rewrite len_frame_numbers by lia. cbv zeta.
    rewrite Hcf, Z.min_l by lia.
    apply getitem_frame_numbers. lia.
  - intros later.
    destruct (G later wreck) as (_ & _ & Hm & Hstop); [lia |].
    split; assumption.
Qed.

(** The wreck of the example lander, three frames, after two ticks. *)
Lemma crash_animation_stays_on_frames_witness :
  let wreck' := crash_animation 250 [touch; rock] wreck in
  (0 <= crash_index wreck' < 3)%Z /\
  draw_crash wreck' = Ok (crash_index wreck').
Proof.
  destruct (crash_animation_stays_on_frames 250 rock "CRASHED INTO ROCKS"
              [touch; rock] lander0) as (Hi & Hd & _).
  - cbn. lia.
  - split; [exact Hi | exact Hd].
Defined.

(** ** The status line *)

(** X25.  The status line shows the most severe condition: "LANDED" before
    "CRASHED"; in flight engine failure, then structural damage above 75,
    then low altitude, then braking distance, then low fuel, else nothing.
    The message "COLLECTED COOL ROCK!!" is never shown, and the function
    returns unless the mass is 0. *)
Theorem status_line_priority (cfg : Config) (special_hit : bool)
    (lander : Lander) (alt_m : R) :
  DRY_MASS cfg + fuel lander <> 0 ->
  exists msg,
    determine_status cfg special_hit lander alt_m = Ok msg /\
    msg <> "COLLECTED COOL ROCK!!"%string /\
    (landed lander = true -> msg = "LANDED SUCCESSFULLY!"%string) /\
    (landed lander = false -> crashed lander = true ->
     msg = "*** CRASHED ***"%string) /\
    (landed lander = false -> crashed lander = false ->
     (engine_out lander = true -> msg = "**WARNING**: ENGINE OUT!"%string) /\
     (engine_out lander = false ->
      (75 < damage lander ->
       msg = "**WARNING**: STRUCTURAL DAMAGE!"%string) /\
      (damage lander <= 75 ->
       (alt_m < 5 /\ 2 < vy lander ->
        msg = "**WARNING**: LOW ALT!"%string) /\
       (~ (alt_m < 5 /\ 2 < vy lander) ->
        (braking_late cfg lander alt_m ->
         msg = "**WARNING**: BRAKING DISTANCE!"%string) /\
        (~ braking_late cfg lander alt_m ->
         (fuel lander < 200 -> msg = "**WARNING**: LOW FUEL!"%string) /\
         (200 <= fuel lander -> msg = ""%string)))))).
Proof.
  intros Hm. unfold determine_status, braking_late. cbv zeta.
  destruct (landed lander) eqn:Hl.
  { eexists. split; [reflexivity |].
    repeat split; intros; try discriminate; reflexivity. }
  destruct (crashed lander) eqn:Hc.
  { eexists. split; [reflexivity |].
    repeat split; intros; try discriminate; reflexivity. }
  rewrite fdiv_Ok by assumption. cbn [bind negb andb].
  rewrite ?andb_true_r, ?andb_false_r.
  set (max_acc := MAX_THRUST cfg / (DRY_MASS cfg + fuel lander)
                  - G0_MOON cfg).
  destruct (Rleb_spec max_acc 0) as [Ha | Ha]; cbn [bind].
  - eexists. split; [reflexivity |].
    destruct (engine_out lander);
      destruct (Rltb_spec 75 (damage lander));
      destruct (Rltb_spec alt_m 5); destruct (Rltb_spec 2 (vy lander));
      destruct (Rltb_spec 5 alt_m); destruct (Rltb_spec 0 (vy lander));
      destruct (Rltb_spec (fuel lander) 200); cbn [andb];
      (split; [discriminate |]);
      repeat split; intros; try discriminate; try reflexivity;
      try lra; try tauto.
  - rewrite fdiv_Ok by lra. cbn [bind].
    eexists. split; [reflexivity |].
    destruct (engine_out lander);
      destruct (Rltb_spec 75 (damage lander));
      destruct (Rltb_spec alt_m 5); destruct (Rltb_spec 2 (vy lander));
      destruct (Rltb_spec 5 alt_m); destruct (Rltb_spec 0 (vy lander));
      destruct (Rleb_spec alt_m (vy lander ^ 2 / (2 * max_acc) + 5));
      destruct (Rltb_spec (fuel lander) 200); cbn [andb];
      (split; [discriminate |]);
      repeat split; intros; try discriminate; try reflexivity;
      try lra; try tauto.
Qed.

(** The example lander 100 m up, with full tanks and no vertical speed:
    no warning. *)
Lemma status_line_priority_witness :
  determine_status medium false lander0 100 = Ok ""%string.
Proof.
  destruct (status_line_priority medium false lander0 100)
    as (msg & Hs & _ & _ & _ & Hfly).
  - cbn. lra.
  - rewrite Hs. f_equal.
    destruct (Hfly eq_refl eq_refl) as (_ & Hok).
    destruct (Hok eq_refl) as (_ & Hd).
    destruct Hd as (_ & Ha); [cbn; lra |].
    destruct Ha as (_ & Hb); [intros [H _]; lra |].
    destruct Hb as (_ & Hf).
    + unfold braking_late. cbn. intros (_ & H & _). lra.
    + apply Hf. cbn. lra.
Defined.

(** ** The rock sensor *)

(** A key reads what was stored under it. *)
Lemma rock_item_set_same (rock : Rock) (k : string) (v : option value) :
  rock_item (rock_set rock k v) k = Some v.
Proof.
  induction rock as [| [k' v'] rest IH]; cbn.
  - now rewrite String.eqb_refl.
  - destruct (String.eqb k' k) eqn:E; cbn; rewrite E; [reflexivity | exact IH].
Qed.

(** An entry records one distance. *)
Lemma recorded_distance_unique (rock : Rock) (d d' : R) :
  recorded_distance rock d -> recorded_distance rock d' -> d = d'.
Proof. unfold recorded_distance. congruence. Qed.

Section RockSensor.

Variable self : Lander.
Variables x_world tol_pixels : R.

(** An entry of the sensor records a distance, which is not negative for a
    positive scale. *)
Lemma sense_rock_entry (rock info : Rock) :
  sense_rock self x_world tol_pixels rock = Ok (Some info) ->
  exists d, recorded_distance info d /\ (0 < px_per_m self -> 0 <= d).
Proof.
  unfold sense_rock. cbv zeta. intros H.
  destruct (rock_get rock "x" (Some (Num 0))) as [vx |]; [| discriminate].
  apply bind_Ok_inv in H as (radius_px & _ & H).
  apply bind_Ok_inv in H as (rx & _ & H).
  apply bind_Ok_inv in H as (rp & _ & H).
  destruct (_ <=? _); [| discriminate].
  apply bind_Ok_inv in H as (ry & _ & H).
  apply bind_Ok_inv in H as (dm & Hd & H).
  injection H as <-.
  unfold fdiv in Hd. destruct (Req_dec_T (px_per_m self) 0); [discriminate |].
  injection Hd as <-.
  eexists. split; [apply rock_item_set_same |].
  intros Hp. apply Rmult_le_pos; [apply hypot_nonneg |].
  left. now apply Rinv_0_lt_compat.
Qed.

(** The loop body on a rock with numeric position and size. *)
Lemma sense_rock_plain (rock : Rock) (x0 y0 radius_m : R) :
  px_per_m self <> 0 ->
  plain_rock rock x0 y0 radius_m ->
  sense_rock self x_world tol_pixels rock =
    Ok (if Rabs (x0 - x_world) <=? radius_m * px_per_m self + tol_pixels
        then Some (sensed self x_world rock x0 y0) else None).
Proof.
  intros Hp (Hx & Hy & Hr). unfold sense_rock, rock_get, _to_pixels.
  rewrite Hx, Hy, Hr. cbn [as_float bind]. cbv zeta.
  destruct (_ <=? _); [| reflexivity].
  rewrite fdiv_Ok by assumption. reflexivity.
Qed.

(** The loop: what was found is kept, and what is added are exactly the
    entries of the rocks for which the body makes one. *)
Lemma sense_rocks_entries (rocks found0 found : list Rock) :
  sense_rocks self x_world tol_pixels rocks found0 = Ok found ->
  (List.length found <= List.length found0 + List.length rocks)%nat /\
  (forall info, In info found ->
     In info found0 \/
     exists rock, In rock rocks /\
       sense_rock self x_world tol_pixels rock = Ok (Some info)) /\
  (forall info, In info found0 -> In info found) /\
  (forall rock info, In rock rocks ->
     sense_rock self x_world tol_pixels rock = Ok (Some info) ->
     In info found).
Proof.
  revert found0. induction rocks as [| rock rest IH]; intros found0 H.
  - cbn in H. injection H as <-. cbn.
    repeat split; intros; try lia; try tauto; try contradiction.
  - cbn [sense_rocks] in H.
    destruct (sense_rock self x_world tol_pixels rock) as [entry |] eqn:E;
      cbn [bind] in H; [| discriminate].
    apply IH in H. destruct H as (Hlen & Hin & Hkeep & Hall).
    destruct entry as [info0 |].
    + rewrite length_app in Hlen. cbn [List.length] in *.
      split; [lia |]. split; [| split].
      * intros info Hi. apply Hin in Hi.
        destruct Hi as [Hi | (r & Hr & Hs)].
        -- apply in_app_or in Hi. destruct Hi as [Hi | [<- | []]];
             [now left | right; exists rock; split; [now left | assumption]].
        -- right. exists r. split; [now right | assumption].
      * intros info Hi. apply Hkeep. apply in_or_app. now left.
      * intros r info [<- | Hr] Hs.
        -- rewrite E in Hs. injection Hs as <-.
           apply Hkeep. apply in_or_app. right. now left.
        -- eapply Hall; eassumption.
    + cbn [List.length] in *.
      split; [lia |]. split; [| split].
      * intros info Hi. apply Hin in Hi.
        destruct Hi as [Hi | (r & Hr & Hs)]; [now left |].
        right. exists r. split; [now right | assumption].
      * assumption.
      * intros r info [<- | Hr] Hs.
        -- rewrite E in Hs. discriminate.
        -- eapply Hall; eassumption.
Qed.

(** The loop returns on rocks with numeric positions and sizes. *)
Lemma sense_rocks_plain (rocks found0 : list Rock) :
  px_per_m self <> 0 ->
  Forall (fun rock => exists x0 y0 radius_m, plain_rock rock x0 y0 radius_m)
    rocks ->
  exists found, sense_rocks self x_world tol_pixels rocks found0 = Ok found.
Proof.
  intros Hp Hall. revert found0.
  induction Hall as [| rock rest (x0 & y0 & r & Hrock) _ IH]; intros found0.
  - cbn. eauto.
  - cbn [sense_rocks]. rewrite (sense_rock_plain rock x0 y0 r Hp Hrock).
    cbn [bind]. apply IH.
Qed.

End RockSensor.

(** X26.  [rocks_near_x] selects by horizontal distance: for rocks with
    numeric [x], [y] and [radius_m] it returns, for exactly the rocks
    within [radius_m + horizontal_tol_m] metres of [x_world] horizontally
    (the lander's base when [x_world] is [None]), a copy with the
    straight-line distance to the lander's base recorded under
    [distance_m]. *)
Theorem rocks_near_x_selects (self : Lander) (rocks : list Rock)
    (x_world : option R) (horizontal_tol_m : R) :
  let x_read :=
    match x_world with Some x0 => x0 | None => fst (base_coords self) end in
  let reach radius_m := (radius_m + horizontal_tol_m) * px_per_m self in
  px_per_m self <> 0 ->
  Forall (fun rock => exists x0 y0 radius_m, plain_rock rock x0 y0 radius_m)
    rocks ->
  exists found,
    rocks_near_x self (Some rocks) x_world horizontal_tol_m = Ok found /\
    (List.length found <= List.length rocks)%nat /\
    (forall info, In info found ->
       exists rock x0 y0 radius_m,
         In rock rocks /\ plain_rock rock x0 y0 radius_m /\
         Rabs (x0 - x_read) <= reach radius_m /\
         info = sensed self x_read rock x0 y0) /\
    (forall rock x0 y0 radius_m,
       In rock rocks -> plain_rock rock x0 y0 radius_m ->
       Rabs (x0 - x_read) <= reach radius_m ->
       In (sensed self x_read rock x0 y0) found).
Proof.
  intros x_read reach Hp Hall.
  unfold rocks_near_x. cbv zeta. fold x_read.
  set (tol := horizontal_tol_m * px_per_m self).
  destruct (sense_rocks_plain self x_read tol rocks [] Hp Hall)
    as [found Hf].
  exists found. split; [exact Hf |].
  apply sense_rocks_entries in Hf.
  destruct Hf as (Hlen & Hin & _ & Hall').
  split; [cbn in Hlen; lia |]. split.
  - intros info Hi. apply Hin in Hi. destruct Hi as [[] | (rock & Hr & Hs)].
    rewrite Forall_forall in Hall.
    destruct (Hall rock Hr) as (x0 & y0 & r & Hrock).
    rewrite (sense_rock_plain self x_read tol rock x0 y0 r Hp Hrock) in Hs.
    destruct (Rleb_spec (Rabs (x0 - x_read)) (r * px_per_m self + tol));
      [| discriminate].
    injection Hs as <-. exists rock, x0, y0, r.
    repeat split; try assumption; try apply Hrock.
    subst reach tol. cbv beta. lra.
  - intros rock x0 y0 r Hr Hrock Hnear.
    apply (Hall' rock); [assumption |].
    rewrite (sense_rock_plain self x_read tol rock x0 y0 r Hp Hrock).
    destruct (Rleb_spec (Rabs (x0 - x_read)) (r * px_per_m self + tol));
      [reflexivity |].
    subst reach tol. cbv beta in Hnear. lra.
Qed.

(** The pebble, 20 pixels from the example lander's base, is found within
    5 + 1 metres (60 pixels); the boulder, 400 pixels away, is not
    (5 + 3 metres are 80 pixels). *)
Lemma rocks_near_x_selects_witness :
  exists found,
    rocks_near_x lander0 (Some [pebble; boulder]) None 5 = Ok found /\
    In (sensed lander0 532 pebble 552 291) found /\
    ~ In (sensed lander0 532 boulder 932 291) found.
Proof.
  destruct (rocks_near_x_selects lander0 [pebble; boulder] None 5)
    as (found & Hf & _ & Hsound & Hcomplete).
  - cbn. lra.
  - repeat constructor; do 3 eexists; repeat split; reflexivity.
  - assert (Hx : fst (base_coords lander0) = 532).
    { cbn. eval_IZR. lra. }
    cbv zeta in Hsound, Hcomplete. rewrite Hx in *.
    exists found. split; [exact Hf |]. split.
    + apply (Hcomplete pebble 552 291 1); [now left | repeat split |].
      change (px_per_m lander0) with 10.
      replace (552 - 532) with 20 by lra. rewrite Rabs_right by lra. lra.
    + intros Hin.
      destruct (Hsound _ Hin) as (r & x0 & y0 & rm & Hr & Hp & Hn & E).
      destruct Hr as [<- | [<- | []]].
      * apply (f_equal (fun i => rock_item i "x")) in E.
        unfold sensed in E. cbn [rock_item rock_set pebble boulder String.eqb
          Ascii.eqb Bool.eqb] in E.
        injection E as E. lra.
      * destruct Hp as (Hpx & _ & Hpr).
        injection Hpx as <-. injection Hpr as <-.
        change (px_per_m lander0) with 10 in Hn.
        replace (932 - 532) with 400 in Hn by lra.
        rewrite Rabs_right in Hn by lra. lra.
Defined.

(** The sort key of an entry is its recorded distance. *)
Lemma distance_key_recorded (rock : Rock) (d : R) :
  recorded_distance rock d -> distance_key rock = Ok (Metres d).
Proof. unfold recorded_distance, distance_key. now intros ->. Qed.

(** [min]: one of the rocks, at the least distance, the first such; here
    as far as the distance goes. *)
Lemma min_by_distance_least (rocks : list Rock) (b : Rock) (db : R) :
  recorded_distance b db ->
  Forall (fun rock => exists d, recorded_distance rock d) rocks ->
  exists n dn,
    min_by_distance (b, Metres db) rocks = Ok (n, Metres dn) /\
    recorded_distance n dn /\
    (n = b \/ In n rocks) /\
    dn <= db /\
    forall r' d', In r' rocks -> recorded_distance r' d' -> dn <= d'.
Proof.
  intros Hb Hall. revert b db Hb.
  induction Hall as [| rock rest (d & Hd) _ IH]; intros b db Hb.
  - cbn. exists b, db.
    split; [reflexivity |]. split; [assumption |]. split; [now left |].
    split; [lra |]. intros ? ? [].
  - cbn [min_by_distance]. rewrite (distance_key_recorded rock d Hd).
    cbn [bind snd distance_ltb].
    destruct (Rltb_spec d db) as [Hlt | Hge].
    + destruct (IH rock d Hd) as (n & dn & Hm & Hn & Hin & Hle & Hall').
      exists n, dn. split; [exact Hm |]. split; [exact Hn |].
      split; [right; destruct Hin as [-> | Hin]; [now left | now right] |].
      split; [lra |].
      intros r' d' [<- | Hr'] Hrec.
      * rewrite (recorded_distance_unique rock d' d Hrec Hd). exact Hle.
      * eapply Hall'; eassumption.
    + destruct (IH b db Hb) as (n & dn & Hm & Hn & Hin & Hle & Hall').
      exists n, dn. split; [exact Hm |]. split; [exact Hn |].
      split; [destruct Hin as [-> | Hin]; [now left | right; now right] |].
      split; [lra |].
      intros r' d' [<- | Hr'] Hrec.
      * rewrite (recorded_distance_unique rock d' d Hrec Hd). lra.
      * eapply Hall'; eassumption.
Qed.

(** X27.  [nearest_rock] returns a rock of [rocks_near_x] at the least
    recorded distance if that is within [max_distance_m], and [None] if
    every rock found is farther; it returns whenever [rocks_near_x] does,
    and [rock_in_path] tells whether it returned a rock. *)
Theorem nearest_rock_is_nearest (self : Lander) (rocks : option (list Rock))
    (x_world : option R) (max_distance_m : R) (found : list Rock) :
  rocks_near_x self rocks x_world max_distance_m = Ok found ->
  exists nearest,
    nearest_rock self rocks x_world max_distance_m = Ok nearest /\
    rock_in_path self rocks x_world max_distance_m = Ok (is_some nearest) /\
    match nearest with
    | Some rock =>
        In rock found /\
        exists d,
          recorded_distance rock d /\ d <= max_distance_m /\
          forall rock' d',
            In rock' found -> recorded_distance rock' d' -> d <= d'
    | None =>
        forall rock' d',
          In rock' found -> recorded_distance rock' d' -> max_distance_m < d'
    end.
Proof.
  intros Hf.
  assert (Hrec : Forall (fun rock => exists d, recorded_distance rock d) found).
  { destruct rocks as [rocks |]; cbn in Hf; [| injection Hf as <-; constructor].
    apply sense_rocks_entries in Hf. destruct Hf as (_ & Hin & _).
    apply Forall_forall. intros info Hi.
    destruct (Hin info Hi) as [[] | (rock & _ & Hs)].
    apply sense_rock_entry in Hs. destruct Hs as (d & Hd & _). eauto. }
  unfold rock_in_path, nearest_rock. rewrite Hf. cbn [bind].
  destruct found as [| first rest].
  { exists None. repeat split. intros ? ? []. }
  inversion Hrec as [| ? ? (d0 & Hd0) Hrest]; subst.
  rewrite (distance_key_recorded first d0 Hd0). cbn [bind].
  destruct (min_by_distance_least rest first d0 Hd0 Hrest)
    as (n & dn & Hm & Hn & Hin & Hle & Hall).
  rewrite Hm. cbn [bind fst]. cbv zeta.
  rewrite (distance_key_recorded n dn Hn). cbn [bind].
  assert (Hleast : forall rock' d',
             In rock' (first :: rest) -> recorded_distance rock' d' ->
             dn <= d').
  { intros r' d' [<- | Hr'] Hrec'.
    - rewrite (recorded_distance_unique first d' d0 Hrec' Hd0). exact Hle.
    - eapply Hall; eassumption. }
  destruct (Rleb_spec dn max_distance_m) as [Hnear | Hfar].
  - exists (Some n). cbn [bind is_some]. repeat split.
    + destruct Hin as [-> | Hin]; [now left | now right].
    + exists dn. repeat split; assumption.
  - exists None. cbn [bind is_some]. repeat split.
    intros r' d' Hr' Hrec'. specialize (Hleast r' d' Hr' Hrec'). lra.
Qed.

(** The two rocks, searched within 50 metres of the example lander. *)
Lemma nearest_rock_is_nearest_witness :
  exists found nearest,
    rocks_near_x lander0 (Some [pebble; boulder]) None 50 = Ok found /\
    nearest_rock lander0 (Some [pebble; boulder]) None 50 = Ok nearest /\
    rock_in_path lander0 (Some [pebble; boulder]) None 50
    = Ok (is_some nearest).
Proof.
  destruct (sense_rocks_plain lander0 (fst (base_coords lander0))
              (50 * px_per_m lander0) [pebble; boulder] [])
    as (found & Hf).
  - cbn. lra.
  - repeat constructor; do 3 eexists; repeat split; reflexivity.
  - destruct (nearest_rock_is_nearest lander0 (Some [pebble; boulder]) None
                50 found Hf) as (nearest & Hn & Hp & _).
    exists found, nearest. repeat split; assumption.
Defined.

(** ** Damage on contact *)

(** X28.  Damage is assessed at first contact only: with a contact point
    already set and no rock hit, [collision_check] returns as soon as the
    slope query does and changes neither the damage, the crash and landing
    flags, the report, the science score nor the velocity.  It records the
    slope, and clears the contact point only when the lander no longer
    overlaps the terrain and the thrust key is down. *)
Theorem contact_takes_no_more_damage (cfg : Config) (pg : Pygame)
    (keys : Keys) (terrain : Terrain) (offset_x : R) (special_hit : bool)
    (self : Lander) (p : Z * Z) (slope : R) :
  rock_hit pg = false ->
  _contact_screen self = Some p ->
  compute_surface_slope cfg terrain self = Ok slope ->
  exists self',
    collision_check cfg pg keys terrain offset_x special_hit self = Ok self' /\
    damage self' = damage self /\
    crashed self' = crashed self /\
    landed self' = landed self /\
    report self' = report self /\
    science self' = science self /\
    vx self' = vx self /\
    vy self' = vy self /\
    _contact_slope self' = Some slope /\
    _contact_screen self' =
      if is_some (overlap pg) then Some p
      else if K_UP keys then None else Some p.
Proof.
  intros Hrock Hc Hs. unfold collision_check. rewrite Hrock, Hs.
  cbn [bind]. cbv zeta. attrs. rewrite Hc. cbn [is_some negb andb].
  destruct (overlap pg) as [[cx cy] |]; cbn [is_some].
  - eexists. split; [reflexivity |]. attrs.
    repeat split; try reflexivity; assumption.
  - destruct (K_UP keys).
    + eexists. split; [reflexivity |]. attrs. repeat split; reflexivity.
    + eexists. split; [reflexivity |]. attrs.
      repeat split; try reflexivity; assumption.
Qed.

(** The example lander in contact with the flat ground, falling at 12 m/s. *)
Lemma contact_takes_no_more_damage_witness :
  exists after,
    collision_check medium touch no_keys flat 0 false
      (set_vy 12 grounded) = Ok after /\
    damage after = damage grounded /\
    crashed after = false.
Proof.
  destruct (contact_takes_no_more_damage medium touch no_keys flat 0 false
              (set_vy 12 grounded) (532, 899)%Z 0)
    as (after & Hc & Hd & Hcr & _).
  - reflexivity.
  - reflexivity.
  - rewrite (compute_surface_slope_ext medium flat (descending 0)
               (set_vy 12 grounded));
      [apply flat_slope | reflexivity | reflexivity].
  - exists after. split; [exact Hc |]. split; [exact Hd | exact Hcr].
Defined.
